(** * researchhub-backend: Persona webhook intake and feed-refresh signals

    A shallow embedding of

    - [src/user/views/persona_webhook_view.py] ([PersonaWebhookView]), and
    - [src/feed/signals/purchase_signals.py] (the three feed-refresh receivers),

    followed by the properties of the specification that were checked
    against them.

    Conventions.  A Python [bytes] value is a [string] (a list of 8-bit
    characters).  A Python [str] is represented by its UTF-8 encoding, also a
    [string]: [str.encode()] is then the identity, [bytes.decode("utf-8")] is
    the identity guarded by a validity check, and concatenation and splitting
    on an ASCII separator commute with the representation.  Machine words of
    SHA-256 are [N] with the wrap-around at [2^32] written out. *)

From Stdlib Require Import String Ascii NArith ZArith List Bool Lia.
Import ListNotations.

Local Open Scope list_scope.

Definition bytes := string.
Definition str := string.

(** ** Octets *)

Definition octets (b : bytes) : list N :=
  map N_of_ascii (list_ascii_of_string b).

Definition of_octets (l : list N) : bytes :=
  string_of_list_ascii (map ascii_of_N l).

(** ** SHA-256 (FIPS 180-4), the digest [hmac.new(..., "sha256")] selects *)

Module SHA256.
Local Open Scope N_scope.

Definition wrap (x : N) : N := x mod 2 ^ 32.
Definition add32 (x y : N) : N := wrap (x + y).
Definition not32 (x : N) : N := N.lxor x (2 ^ 32 - 1).
Definition rotr (n x : N) : N := N.lor (N.shiftr x n) (wrap (N.shiftl x (32 - n))).
Definition shr (n x : N) : N := N.shiftr x n.

Definition Ch (x y z : N) : N := N.lxor (N.land x y) (N.land (not32 x) z).
Definition Maj (x y z : N) : N :=
  N.lxor (N.lxor (N.land x y) (N.land x z)) (N.land y z).
Definition bsig0 (x : N) : N := N.lxor (N.lxor (rotr 2 x) (rotr 13 x)) (rotr 22 x).
Definition bsig1 (x : N) : N := N.lxor (N.lxor (rotr 6 x) (rotr 11 x)) (rotr 25 x).
Definition ssig0 (x : N) : N := N.lxor (N.lxor (rotr 7 x) (rotr 18 x)) (shr 3 x).
Definition ssig1 (x : N) : N := N.lxor (N.lxor (rotr 17 x) (rotr 19 x)) (shr 10 x).

(** The round constants and the initial hash value are fractional parts of
    cube and square roots of the first primes; they are computed here from
    that definition. *)

Definition is_prime (p : N) : bool :=
  (1 <? p) && forallb (fun d => negb (p mod d =? 0)) (map N.of_nat (seq 2 (N.to_nat p - 2))).

Definition first_primes (n : nat) : list N :=
  firstn n (filter is_prime (map N.of_nat (seq 2 310))).

(** Largest [r] below [2^(bits)] with [r^3 <= n], one bit at a time. *)
Fixpoint cbrt_bits (bits : nat) (n r : N) : N :=
  match bits with
  | O => r
  | S b =>
      let c := r + 2 ^ N.of_nat b in
      cbrt_bits b n (if c * c * c <=? n then c else r)
  end.

Definition frac_cbrt32 (p : N) : N := wrap (cbrt_bits 40 (p * 2 ^ 96) 0).
Definition frac_sqrt32 (p : N) : N := wrap (N.sqrt (p * 2 ^ 64)).

Definition K : list N := Eval vm_compute in map frac_cbrt32 (first_primes 64).
Definition H0 : list N := Eval vm_compute in map frac_sqrt32 (first_primes 8).

(** Padding: a [1] bit, zeros up to 56 mod 64, the bit length on 64 bits. *)
Fixpoint be_bytes (n : nat) (x : N) : list N :=
  match n with
  | O => []
  | S k => (x / 256 ^ N.of_nat k) mod 256 :: be_bytes k x
  end.

Definition pad (msg : list N) : list N :=
  let len := N.of_nat (length msg) in
  let zeros := N.to_nat ((64 - (len + 9) mod 64) mod 64) in
  msg ++ [128] ++ repeat 0 zeros ++ be_bytes 8 (8 * len).

Fixpoint be_words (fuel : nat) (l : list N) : list N :=
  match fuel, l with
  | S f, a :: b :: c :: d :: rest =>
      (((a * 256 + b) * 256 + c) * 256 + d) :: be_words f rest
  | _, _ => []
  end.

Fixpoint blocks (fuel : nat) (l : list N) : list (list N) :=
  match fuel, l with
  | S f, _ :: _ => be_words 16 (firstn 64 l) :: blocks f (skipn 64 l)
  | _, _ => []
  end.

(** Message schedule: [ws] holds the words computed so far, latest first. *)
Fixpoint schedule (n : nat) (ws : list N) : list N :=
  match n with
  | O => ws
  | S k =>
      let w := add32 (add32 (ssig1 (nth 1 ws 0)) (nth 6 ws 0))
                     (add32 (ssig0 (nth 14 ws 0)) (nth 15 ws 0)) in
      schedule k (w :: ws)
  end.

Definition W (block : list N) : list N := rev (schedule 48 (rev block)).

Definition state : Type := (N * N * N * N * N * N * N * N)%type.

Definition round (s : state) (kw : N * N) : state :=
  let '(a, b, c, d, e, f, g, h) := s in
  let (k, w) := kw in
  let t1 := add32 (add32 (add32 (add32 h (bsig1 e)) (Ch e f g)) k) w in
  let t2 := add32 (bsig0 a) (Maj a b c) in
  (add32 t1 t2, a, b, c, add32 d t1, e, f, g).

Definition compress (s : state) (block : list N) : state :=
  let '(a, b, c, d, e, f, g, h) := fold_left round (combine K (W block)) s in
  let '(a0, b0, c0, d0, e0, f0, g0, h0) := s in
  (add32 a0 a, add32 b0 b, add32 c0 c, add32 d0 d,
   add32 e0 e, add32 f0 f, add32 g0 g, add32 h0 h).

Definition init : state :=
  match H0 with
  | [a; b; c; d; e; f; g; h] => (a, b, c, d, e, f, g, h)
  | _ => (0, 0, 0, 0, 0, 0, 0, 0)
  end.

Definition state_bytes (s : state) : list N :=
  let '(a, b, c, d, e, f, g, h) := s in
  be_bytes 4 a ++ be_bytes 4 b ++ be_bytes 4 c ++ be_bytes 4 d ++
  be_bytes 4 e ++ be_bytes 4 f ++ be_bytes 4 g ++ be_bytes 4 h.

Definition digest (msg : list N) : list N :=
  let p := pad msg in
  state_bytes (fold_left compress (blocks (length p) p) init).

End SHA256.

(** ** HMAC (RFC 2104), as CPython's [hmac.HMAC] computes it *)

Definition blocksize : nat := 64.

Definition translate (x : N) (key : list N) : list N :=
  map (fun b => N.lxor b x) key.

(** [hmac.new(key, msg, "sha256")] followed by [.digest()]: a key longer than
    the block size is hashed first, the key is right-padded with NUL to the
    block size ([key.ljust(blocksize, b"\0")]), the inner hash absorbs
    [key ^ 0x36] and then [msg], the outer hash absorbs [key ^ 0x5C] and then
    the inner digest. *)
Definition hmac_sha256 (key msg : list N) : list N :=
  let key := if Nat.ltb blocksize (length key) then SHA256.digest key else key in
  let key := (key ++ repeat 0%N (blocksize - length key))%list in
  let inner := SHA256.digest (translate 54 key ++ msg)%list in
  SHA256.digest (translate 92 key ++ inner)%list.

Local Open Scope string_scope.

Definition hex_digit (n : N) : ascii :=
  match String.get (N.to_nat n) "0123456789abcdef" with
  | Some c => c
  | None => "0"%char
  end.

(** [hexdigest()]: two lowercase hexadecimal digits per octet. *)
Fixpoint hexdigest (l : list N) : str :=
  match l with
  | [] => ""
  | b :: rest =>
      String (hex_digit (b / 16)) (String (hex_digit (b mod 16)) (hexdigest rest))
  end.

(** [PersonaWebhookView.create_digest(key, t, body)] (lines 148-154):
    [hmac.new(key.encode(), (t + "." + body).encode(), "sha256").hexdigest()]. *)
Definition create_digest (key t body : str) : str :=
  hexdigest (hmac_sha256 (octets key) (octets (t ++ "." ++ body))).


(** ** Text *)

(** [s.split(sep)] for a one-character separator: never empty, one more
    element than there are separators. *)
Fixpoint split (sep : ascii) (s : str) : list str :=
  match s with
  | "" => [""]
  | String c rest =>
      if Ascii.eqb c sep then "" :: split sep rest
      else match split sep rest with
           | h :: tl => String c h :: tl
           | [] => [String c ""]
           end
  end.

(** [str.lower()], on the UTF-8 representation.  ASCII capitals are mapped to
    their small letters.  Of the code points outside ASCII exactly one,
    U+212A KELVIN SIGN, lowercases to ASCII text ("k"); U+0130 lowercases to
    "i" followed by U+0307.  Every other code point outside ASCII lowercases
    to text outside ASCII and is left in place here: the view only compares
    the result with ASCII literals, which such text never equals. *)
Definition ascii_lower (b : N) : N :=
  (if (65 <=? b) && (b <=? 90) then b + 32 else b)%N.

Fixpoint lower_octets (l : list N) : list N :=
  match l with
  | [] => []
  | b :: rest =>
      match rest with
      | b1 :: rest1 =>
          if ((b =? 196) && (b1 =? 176))%N then
            (* U+0130 *)
            105 :: 204 :: 135 :: lower_octets rest1
          else
            match rest1 with
            | b2 :: rest2 =>
                if ((b =? 226) && (b1 =? 132) && (b2 =? 170))%N then
                  (* U+212A *)
                  107 :: lower_octets rest2
                else ascii_lower b :: lower_octets rest
            | [] => ascii_lower b :: lower_octets rest
            end
      | [] => ascii_lower b :: lower_octets rest
      end
  end%N.

Definition lower (s : str) : str := of_octets (lower_octets (octets s)).

(** Whether [bytes.decode("utf-8")] succeeds: shortest-form encodings of the
    scalar values U+0000..U+10FFFF, surrogates excluded. *)
Definition between (lo hi b : N) : bool := ((lo <=? b) && (b <=? hi))%N.
Definition continuation (b : N) : bool := between 128 191 b.

Fixpoint utf8_valid (l : list N) : bool :=
  match l with
  | [] => true
  | b0 :: r0 =>
      if (b0 <? 128)%N then utf8_valid r0
      else match r0 with
      | [] => false
      | b1 :: r1 =>
          if between 194 223 b0 then continuation b1 && utf8_valid r1
          else match r1 with
          | [] => false
          | b2 :: r2 =>
              if between 224 239 b0 then
                (if (b0 =? 224)%N then between 160 191 b1
                 else if (b0 =? 237)%N then between 128 159 b1
                 else continuation b1)
                && continuation b2 && utf8_valid r2
              else match r2 with
              | [] => false
              | b3 :: r3 =>
                  between 240 244 b0
                  && (if (b0 =? 240)%N then between 144 191 b1
                      else if (b0 =? 244)%N then between 128 143 b1
                      else continuation b1)
                  && continuation b2 && continuation b3 && utf8_valid r3
              end
          end
      end
  end.

Definition is_ascii (s : str) : bool := forallb (fun b => (b <? 128)%N) (octets s).

(** ** Exceptions and results *)

(** Calls into collaborators that are outside this repository fragment (the
    ORM, the notification and fraud-detection services, the task queue),
    by call site. *)
Inductive Call :=
(* persona_webhook_view.py *)
| UpdateOrCreate        (* UserVerification.objects.update_or_create *)
| Save                  (* user_verification.save *)
| GetNotificationUser   (* User.objects.get in _create_notification *)
| CreateNotification    (* Notification.objects.create *)
| SendNotification      (* notification.send_notification *)
| GetUser               (* User.objects.get in _process_payload *)
| TrackAccount          (* events_api.track_account *)
| UpdateUserRiskScore   (* update_user_risk_score *)
(* purchase_signals.py *)
| InstanceContentType   (* instance.content_type *)
| InstanceGrant         (* instance.grant *)
| GrantUnifiedDocument  (* grant.unified_document *)
| GetForModel           (* ContentType.objects.get_for_model *)
| Exists                (* feed_entries.exists() *)
| Iterate               (* for entry in feed_entries *)
| ApplyAsync (entry : N). (* refresh_feed_entry.apply_async(args=(entry,)) *)

Inductive Exn :=
| IndexError
| KeyError
| TypeError
| AttributeError
| ValueError (msg : str)
| UnicodeDecodeError
| JSONDecodeError
| MultipleObjectsReturned
| TransactionManagementError
| External (c : Call).

Inductive Result (A : Type) :=
| Ok (a : A)
| Raise (e : Exn).
Arguments Ok {A} a.
Arguments Raise {A} e.

Definition rbind {A B} (r : Result A) (k : A -> Result B) : Result B :=
  match r with
  | Ok a => k a
  | Raise e => Raise e
  end.

(** ** JSON values, as [json.loads] builds them *)

(** [JDict] is a [dict]: an association list looked up by first match (a
    decoder keeps a single binding per key).  [JFloat] keeps the lexeme of a
    non-integer number. *)
#[local] Set Warnings "-register-all".
Inductive JSON :=
| JNull
| JBool (b : bool)
| JInt (z : Z)
| JFloat (lexeme : str)
| JStr (s : str)
| JList (items : list JSON)
| JDict (items : list (str * JSON)).

Fixpoint JSON_eqb (a b : JSON) {struct a} : bool :=
  match a, b with
  | JNull, JNull => true
  | JBool x, JBool y => Bool.eqb x y
  | JInt x, JInt y => Z.eqb x y
  | JFloat x, JFloat y => String.eqb x y
  | JStr x, JStr y => String.eqb x y
  | JList x, JList y =>
      (fix all2 (x y : list JSON) {struct x} : bool :=
         match x, y with
         | [], [] => true
         | a :: x', b :: y' => JSON_eqb a b && all2 x' y'
         | _, _ => false
         end) x y
  | JDict x, JDict y =>
      (fix all2 (x y : list (str * JSON)) {struct x} : bool :=
         match x, y with
         | [], [] => true
         | (k, a) :: x', (k', b) :: y' => String.eqb k k' && JSON_eqb a b && all2 x' y'
         | _, _ => false
         end) x y
  | _, _ => false
  end.

Definition dict_get (items : list (str * JSON)) (key : str) : option JSON :=
  match find (fun kv => String.eqb (fst kv) key) items with
  | Some kv => Some (snd kv)
  | None => None
  end.

(** [data[key]] for a [str] key: a [dict] answers or raises [KeyError]; a list
    or a string wants integer indices and every other value is not
    subscriptable, both [TypeError]. *)
Definition getitem (data : JSON) (key : str) : Result JSON :=
  match data with
  | JDict items =>
      match dict_get items key with
      | Some v => Ok v
      | None => Raise KeyError
      end
  | _ => Raise TypeError
  end.

(** The loop of [_get_nested_attr]: [TypeError] and [KeyError] end it with
    the default, anything else would propagate. *)
Fixpoint get_keys (data : JSON) (keys : list str) (default : JSON) : Result JSON :=
  match keys with
  | [] => Ok data
  | key :: rest =>
      match getitem data key with
      | Ok v => get_keys v rest default
      | Raise TypeError | Raise KeyError => Ok default
      | Raise e => Raise e
      end
  end.

(** [_get_nested_attr(data, keys, default=None)] (lines 57-66) with [keys] a
    dotted [str], as at each of its call sites. *)
Definition _get_nested_attr (data : JSON) (keys : str) (default : JSON) : Result JSON :=
  get_keys data (split "." keys) default.

(** ** Data model *)

(** Modelled from the spec: [UserVerification.Status] of [user.models], the
    five-valued status enum of a verification record. *)
Inductive Status := PENDING | APPROVED | DECLINED | FAILED | MARKED_FOR_REVIEW.

(** Modelled from the spec: [UserVerification.Type] of [user.models], the
    verification method; the view only ever writes [PERSONA]. *)
Inductive VerificationType := PERSONA.

(** Modelled from the spec: [UserVerification] of [user.models], one row of
    the verification table.  The subject and the attributes hold what the
    view extracted from the payload, [JNull] for [None]. *)
Record UserVerification := {
  user_id : JSON;
  first_name : JSON;
  last_name : JSON;
  verified_by : VerificationType;
  external_id : JSON;
  status : Status
}.

Module User.
Record t := { id : JSON }.
End User.

Inductive NotificationType := IDENTITY_VERIFICATION_UPDATED.

(** [Notification] of [notification.models], with the fields the view sets;
    [extra] is the dictionary [{"status": user_verification.status.value}]. *)
Record Notification := {
  action_user : User.t;
  extra : Status;
  item : UserVerification;
  notification_type : NotificationType;
  recipient : User.t
}.

(** What a delivery can change: the verification table, the notification
    table, the notifications handed to delivery, the accounts tracked and
    scored by the fraud-detection collaborator, and the error log. *)
Record State := {
  user_verifications : list UserVerification;
  notifications : list Notification;
  sent_notifications : list Notification;
  tracked_accounts : list User.t;
  risk_scores : list User.t;
  error_log : list Exn
}.

Definition set_user_verifications (t : list UserVerification) (st : State) : State :=
  {| user_verifications := t;
     notifications := notifications st;
     sent_notifications := sent_notifications st;
     tracked_accounts := tracked_accounts st;
     risk_scores := risk_scores st;
     error_log := error_log st |}.

Definition add_notification (n : Notification) (st : State) : State :=
  {| user_verifications := user_verifications st;
     notifications := (notifications st ++ [n])%list;
     sent_notifications := sent_notifications st;
     tracked_accounts := tracked_accounts st;
     risk_scores := risk_scores st;
     error_log := error_log st |}.

Definition add_sent (n : Notification) (st : State) : State :=
  {| user_verifications := user_verifications st;
     notifications := notifications st;
     sent_notifications := (sent_notifications st ++ [n])%list;
     tracked_accounts := tracked_accounts st;
     risk_scores := risk_scores st;
     error_log := error_log st |}.

Definition add_tracked (u : User.t) (st : State) : State :=
  {| user_verifications := user_verifications st;
     notifications := notifications st;
     sent_notifications := sent_notifications st;
     tracked_accounts := (tracked_accounts st ++ [u])%list;
     risk_scores := risk_scores st;
     error_log := error_log st |}.

Definition add_risk_score (u : User.t) (st : State) : State :=
  {| user_verifications := user_verifications st;
     notifications := notifications st;
     sent_notifications := sent_notifications st;
     tracked_accounts := tracked_accounts st;
     risk_scores := (risk_scores st ++ [u])%list;
     error_log := error_log st |}.

Definition add_error (e : Exn) (st : State) : State :=
  {| user_verifications := user_verifications st;
     notifications := notifications st;
     sent_notifications := sent_notifications st;
     tracked_accounts := tracked_accounts st;
     risk_scores := risk_scores st;
     error_log := (error_log st ++ [e])%list |}.

(** ** Stateful computations that may raise

    Writes are not undone when a later step raises: the view opens no
    transaction, so each write of the ORM is committed as it is made
    (Django's autocommit), and the view turns the exception into a response
    itself. *)

Definition Stateful (S A : Type) : Type := S -> Result A * S.

Definition ret {S A} (a : A) : Stateful S A := fun st => (Ok a, st).
Definition raise {S A} (e : Exn) : Stateful S A := fun st => (Raise e, st).
Definition bind {S A B} (m : Stateful S A) (k : A -> Stateful S B) : Stateful S B :=
  fun st =>
    match m st with
    | (Ok a, st') => k a st'
    | (Raise e, st') => (Raise e, st')
    end.
Definition lift {S A} (r : Result A) : Stateful S A := fun st => (r, st).
Definition modify {S} (f : S -> S) : Stateful S unit := fun st => (Ok tt, f st).

(** [try: m except Exception as e: handler e]. *)
Definition try_except {S A} (m : Stateful S A) (handler : Exn -> Stateful S A)
  : Stateful S A :=
  fun st =>
    match m st with
    | (Ok a, st') => (Ok a, st')
    | (Raise e, st') => handler e st'
    end.

Definition M : Type -> Type := Stateful State.

Declare Scope m_scope.
Delimit Scope m_scope with M.
Notation "x <- m ;; k" := (bind m (fun x => k))
  (at level 61, m at next level, right associativity) : m_scope.
Notation "m ;; k" := (bind m (fun _ => k))
  (at level 61, right associativity) : m_scope.

(** For one request or signal, [faults c] tells whether call [c] raises. *)
Definition Faults := Call -> bool.

Definition no_faults : Faults := fun _ => false.

Definition external {S} (faults : Faults) (c : Call) : Stateful S unit :=
  if faults c then raise (External c) else ret tt.

(** ** The webhook view *)

Record Request := {
  Persona_Signature : option str;   (* request.headers.get("Persona-Signature") *)
  body : bytes                      (* request.body *)
}.

Record Response := {
  message : str;
  status_code : nat
}.

Definition HTTP_200_OK : nat := 200.
Definition HTTP_401_UNAUTHORIZED : nat := 401.
Definition HTTP_500_INTERNAL_SERVER_ERROR : nat := 500.

Record Settings := { PERSONA_WEBHOOK_SECRET : str }.

(** [hmac.compare_digest] on two [str]: both must be ASCII. *)
Definition compare_digest (a b : str) : Result bool :=
  if is_ascii a && is_ascii b then Ok (String.eqb a b) else Raise TypeError.

Definition decode_utf8 (b : bytes) : Result str :=
  if utf8_valid (octets b) then Ok b else Raise UnicodeDecodeError.

(** [[value.split("=")[1] for value in values]]. *)
Fixpoint second_fields (values : list str) : Result (list str) :=
  match values with
  | [] => Ok []
  | value :: rest =>
      match nth_error (split "=" value) 1 with
      | None => Raise IndexError
      | Some field => rbind (second_fields rest) (fun fields => Ok (field :: fields))
      end
  end.

(** [_validate_signature] (lines 131-146): the header is split on commas,
    the text after the first "=" of each part is taken, and there must be
    exactly two parts, the timestamp and the digest; the body is decoded,
    the digest recomputed and compared. *)
Definition _validate_signature (settings : Settings) (request : Request) : Result bool :=
  match Persona_Signature request with
  | None => Raise KeyError
  | Some header =>
      rbind (second_fields (split "," header)) (fun fields =>
        match fields with
        | [t; v1] =>
            rbind (decode_utf8 (body request)) (fun text =>
              let computed_digest :=
                create_digest (PERSONA_WEBHOOK_SECRET settings) t text in
              compare_digest v1 computed_digest)
        | [] | [_] => Raise (ValueError "not enough values to unpack")
        | _ => Raise (ValueError "too many values to unpack")
        end)
  end.

(** *** The store *)

Definition matching (key : JSON) (table : list UserVerification) : list UserVerification :=
  filter (fun row => JSON_eqb (user_id row) key) table.

Definition replace_row (r : UserVerification) (table : list UserVerification)
  : list UserVerification :=
  map (fun row => if JSON_eqb (user_id row) (user_id r) then r else row) table.

(** Modelled from the spec: [UserVerification.objects.update_or_create], the
    store's create-or-update keyed on the subject.  With no row for the
    subject one is created; the one row of the subject is overwritten with
    the defaults; several rows make the lookup raise. *)
Definition update_or_create (faults : Faults) (r : UserVerification)
  : M (UserVerification * bool) :=
  (external faults UpdateOrCreate ;;
   fun st =>
     let table := user_verifications st in
     match matching (user_id r) table with
     | [] => (Ok (r, true), set_user_verifications (table ++ [r])%list st)
     | [_] => (Ok (r, false), set_user_verifications (replace_row r table) st)
     | _ => (Raise MultipleObjectsReturned, st)
     end)%M.

(** Modelled from the spec: [user_verification.save()], which writes the
    instance over its row, or inserts it when the row is gone. *)
Definition save (faults : Faults) (r : UserVerification) : M unit :=
  (external faults Save ;;
   modify (fun st =>
     let table := user_verifications st in
     set_user_verifications
       (match matching (user_id r) table with
        | [] => (table ++ [r])%list
        | _ => replace_row r table
        end) st))%M.

(** [User.objects.get(id=...)] at call site [c]. *)
Definition get_user (faults : Faults) (c : Call) (uid : JSON) : M User.t :=
  (external faults c ;; ret {| User.id := uid |})%M.

Definition notification_create (faults : Faults) (n : Notification) : M Notification :=
  (external faults CreateNotification ;; modify (add_notification n) ;; ret n)%M.

Definition send_notification (faults : Faults) (n : Notification) : M unit :=
  (external faults SendNotification ;; modify (add_sent n))%M.

Definition track_account (faults : Faults) (user : User.t) (request : Request)
  : M User.t :=
  (external faults TrackAccount ;; modify (add_tracked user) ;; ret user)%M.

Definition update_user_risk_score (faults : Faults) (user tracked_account : User.t)
  : M unit :=
  (external faults UpdateUserRiskScore ;; modify (add_risk_score user))%M.

(** [_create_notification] (lines 118-129). *)
Definition _create_notification (faults : Faults) (user_verification : UserVerification)
  : M unit :=
  (user <- get_user faults GetNotificationUser (user_id user_verification) ;;
   notification <- notification_create faults
     {| action_user := user;
        extra := status user_verification;
        item := user_verification;
        notification_type := IDENTITY_VERIFICATION_UPDATED;
        recipient := user |} ;;
   send_notification faults notification)%M.

(** *** Payload processing *)

(** [.lower()] on what [_get_nested_attr] returned: only a [str] has it. *)
Definition lower_method (v : JSON) : Result str :=
  match v with
  | JStr s => Ok (lower s)
  | _ => Raise AttributeError
  end.

(** The [if]/[elif] chain of lines 77-87. *)
Definition status_of (persona_status : str) : Status :=
  if String.eqb persona_status "approved" then APPROVED
  else if String.eqb persona_status "declined" then DECLINED
  else if String.eqb persona_status "failed" then FAILED
  else if String.eqb persona_status "marked-for-review" then MARKED_FOR_REVIEW
  else PENDING.

(** Lines 74-87: the status the view derives from the payload, the
    provider's status lowercased and matched against the four names,
    [PENDING] otherwise. *)
Definition payload_status (data : JSON) : Result Status :=
  rbind (rbind (_get_nested_attr data "data.attributes.payload.data.attributes.status" JNull)
               lower_method)
        (fun persona_status => Ok (status_of persona_status)).

(** [json.loads], a parameter of the view (see the decoder below). *)
Definition Decoder := bytes -> Result JSON.

(** [_process_payload] (lines 68-116). *)

Definition _process_payload (loads : Decoder) (faults : Faults) (request : Request)
  : M unit :=
  (data <- lift (match loads (body request) with
                 | Raise JSONDecodeError => Raise (ValueError "Invalid JSON payload")
                 | r => r
                 end) ;;
   status <- lift (payload_status data) ;;
   reference_id <- lift
     (_get_nested_attr data "data.attributes.payload.data.attributes.reference-id" JNull) ;;
   first_name <- lift
     (_get_nested_attr data "data.attributes.payload.data.attributes.name-first" JNull) ;;
   last_name <- lift
     (_get_nested_attr data "data.attributes.payload.data.attributes.name-last" JNull) ;;
   inquiry_id <- lift (_get_nested_attr data "data.attributes.payload.data.id" JNull) ;;
   created <- update_or_create faults
     {| user_id := reference_id;
        first_name := first_name;
        last_name := last_name;
        verified_by := PERSONA;
        external_id := inquiry_id;
        status := status |} ;;
   let user_verification := fst created in
   save faults user_verification ;;
   _create_notification faults user_verification ;;
   user <- get_user faults GetUser (user_id user_verification) ;;
   tracked_account <- track_account faults user request ;;
   update_user_risk_score faults user tracked_account)%M.

(** *** The endpoint *)

Definition Unauthorized : Response :=
  {| message := "Unauthorized"; status_code := HTTP_401_UNAUTHORIZED |}.
Definition Failed : Response :=
  {| message := "Failed to process webhook";
     status_code := HTTP_500_INTERNAL_SERVER_ERROR |}.
Definition Processed : Response :=
  {| message := "Webhook successfully processed"; status_code := HTTP_200_OK |}.

(** [not persona_signature]: [None] and the empty string are falsy. *)
Definition falsy (v : option str) : bool :=
  match v with
  | None => true
  | Some s => String.eqb s ""
  end.

(** The [try] block of [post]: [Some r] is an early [return r], [None] falls
    through to the statement after the [try]. *)
Definition post_try (settings : Settings) (loads : Decoder) (faults : Faults)
  (request : Request) : M (option Response) :=
  let persona_signature := Persona_Signature request in
  if falsy persona_signature then ret (Some Unauthorized)
  else
    (valid <- lift (_validate_signature settings request) ;;
     if negb valid then ret (Some Unauthorized)
     else (_process_payload loads faults request ;; ret None))%M.

(** [post] (lines 28-55): an exception of the [try] block is logged and
    answered 500. *)
Definition post (settings : Settings) (loads : Decoder) (faults : Faults)
  (request : Request) (st : State) : Response * State :=
  match post_try settings loads faults request st with
  | (Ok (Some early), st') => (early, st')
  | (Ok None, st') => (Processed, st')
  | (Raise e, st') => (Failed, add_error e st')
  end.

(** ** A JSON decoder

    [json.loads] belongs to Python's library, not to this repository: the
    view is parametric in its decoder ([Decoder]).  [json_loads] below is a
    concrete one, following the scanner of CPython's [json.decoder] on
    UTF-8 text (strict strings, Python's [NaN] and [Infinity] literals, the
    last of several bindings of a key kept).  A body that
    [json.detect_encoding] takes for UTF-16 or UTF-32, one with a NUL among
    its first octets, is outside its scope and reported as undecodable. *)

Module Json.

Definition code (c : ascii) : N := N_of_ascii c.

Definition is_ws (c : ascii) : bool :=
  match code c with
  | 32 | 9 | 10 | 13 => true
  | _ => false
  end%N.

Fixpoint skip_ws (s : string) : string :=
  match s with
  | String c r => if is_ws c then skip_ws r else s
  | "" => ""
  end.

Definition is_digit (c : ascii) : bool := between 48 57 (code c).

Definition hex_value (c : ascii) : option N :=
  let n := code c in
  if between 48 57 n then Some (n - 48)%N
  else if between 97 102 n then Some (n - 87)%N
  else if between 65 70 n then Some (n - 55)%N
  else None.

Definition decode_uXXXX (s : string) : option (N * string) :=
  match s with
  | String a (String b (String c (String d rest))) =>
      match hex_value a, hex_value b, hex_value c, hex_value d with
      | Some x, Some y, Some z, Some w => Some (((x * 16 + y) * 16 + z) * 16 + w, rest)%N
      | _, _, _, _ => None
      end
  | _ => None
  end.

(** [chr(cp)] in the UTF-8 representation (a lone surrogate takes the
    three-octet form). *)
Definition chr (cp : N) : str :=
  of_octets
    (if cp <? 128 then [cp]
     else if cp <? 2048 then [192 + cp / 64; 128 + cp mod 64]
     else if cp <? 65536 then
       [224 + cp / 4096; 128 + (cp / 64) mod 64; 128 + cp mod 64]
     else
       [240 + cp / 262144; 128 + (cp / 4096) mod 64;
        128 + (cp / 64) mod 64; 128 + cp mod 64])%N.

Definition escape (c : ascii) : option str :=
  match code c with
  | 34 => Some (of_octets [34])
  | 92 => Some (of_octets [92])
  | 47 => Some (of_octets [47])
  | 98 => Some (of_octets [8])
  | 102 => Some (of_octets [12])
  | 110 => Some (of_octets [10])
  | 114 => Some (of_octets [13])
  | 116 => Some (of_octets [9])
  | _ => None
  end%N.

(** [scanstring(s, end, strict=True)], from just after the opening quote:
    the decoded string and what follows the closing quote. *)
Fixpoint scanstring (fuel : nat) (s : string) : option (str * string) :=
  match fuel, s with
  | S f, String c r =>
      if (code c =? 34)%N then Some ("", r)
      else if (code c =? 92)%N then
        match r with
        | String e r1 =>
            if (code e =? 117)%N then
              match decode_uXXXX r1 with
              | None => None
              | Some (uni, r2) =>
                  let pair :=
                    if between 55296 56319 uni then
                      match r2 with
                      | String b (String u r3) =>
                          if ((code b =? 92) && (code u =? 117))%N then
                            match decode_uXXXX r3 with
                            | None => None
                            | Some (uni2, r4) =>
                                if between 56320 57343 uni2 then
                                  Some (65536 + ((uni - 55296) * 1024 + (uni2 - 56320)), r4)%N
                                else Some (uni, r2)
                            end
                          else Some (uni, r2)
                      | _ => Some (uni, r2)
                      end
                    else Some (uni, r2) in
                  match pair with
                  | None => None
                  | Some (cp, rest) =>
                      match scanstring f rest with
                      | Some (tl, out) => Some (chr cp ++ tl, out)
                      | None => None
                      end
                  end
              end
            else
              match escape e, scanstring f r1 with
              | Some ch, Some (tl, out) => Some (ch ++ tl, out)
              | _, _ => None
              end
        | "" => None
        end
      else if (code c <? 32)%N then None
      else
        match scanstring f r with
        | Some (tl, out) => Some (String c tl, out)
        | None => None
        end
  | _, _ => None
  end.

Fixpoint span_digits (s : string) : string * string :=
  match s with
  | String c r =>
      if is_digit c then let (d, out) := span_digits r in (String c d, out)
      else ("", s)
  | "" => ("", "")
  end.

Definition digits_value (d : string) : Z :=
  fold_left (fun acc c => acc * 10 + (Z.of_N (code c) - 48))%Z (list_ascii_of_string d) 0%Z.

(** The number pattern: an optional minus; a zero, or a non-zero digit and
    any digits; optionally a point and digits; optionally an exponent mark,
    a sign and digits.  An integer when neither optional part is there. *)
Definition match_number (s : string) : option (JSON * string) :=
  let (sign, s1) :=
    match s with
    | String c r => if (code c =? 45)%N then ("-", r) else ("", s)
    | "" => ("", s)
    end in
  match s1 with
  | String c r =>
      if is_digit c then
        let (int, r1) := if (code c =? 48)%N then ("0", r) else span_digits s1 in
        let (frac, r2) :=
          match r1 with
          | String p r' =>
              if (code p =? 46)%N then
                let (d, out) := span_digits r' in
                if String.eqb d "" then ("", r1) else (String p d, out)
              else ("", r1)
          | "" => ("", r1)
          end in
        let (exp, r3) :=
          match r2 with
          | String e r' =>
              if ((code e =? 101) || (code e =? 69))%N then
                let (sg, r'') :=
                  match r' with
                  | String g x =>
                      if ((code g =? 43) || (code g =? 45))%N then (String g "", x)
                      else ("", r')
                  | "" => ("", r')
                  end in
                let (d, out) := span_digits r'' in
                if String.eqb d "" then ("", r2) else (String e (sg ++ d), out)
              else ("", r2)
          | "" => ("", r2)
          end in
        if String.eqb frac "" && String.eqb exp "" then
          Some (JInt (if String.eqb sign "" then digits_value int
                      else - digits_value int)%Z, r3)
        else Some (JFloat (sign ++ int ++ frac ++ exp), r3)
      else None
  | "" => None
  end.

Fixpoint strip_prefix (p s : string) : option string :=
  match p, s with
  | "", _ => Some s
  | String a p', String b s' => if Ascii.eqb a b then strip_prefix p' s' else None
  | _, _ => None
  end.

(** [dict(pairs)]: a repeated key keeps its place and takes the new value. *)
Fixpoint dict_set (items : list (str * JSON)) (key : str) (v : JSON)
  : list (str * JSON) :=
  match items with
  | [] => [(key, v)]
  | (k, x) :: rest =>
      if String.eqb k key then (k, v) :: rest else (k, x) :: dict_set rest key v
  end.

Definition Scanner := string -> option (JSON * string).

(** The loop of [JSONObject], from just after the opening quote of a key. *)
Fixpoint members (scan : Scanner) (fuel : nat) (s : string) (acc : list (str * JSON))
  : option (list (str * JSON) * string) :=
  match fuel with
  | O => None
  | S f =>
      match scanstring (S (String.length s)) s with
      | None => None
      | Some (key, r) =>
          match skip_ws r with
          | String c r1 =>
              if (code c =? 58)%N then
                match scan (skip_ws r1) with
                | None => None
                | Some (v, r2) =>
                    let acc := dict_set acc key v in
                    match skip_ws r2 with
                    | String d r3 =>
                        if (code d =? 125)%N then Some (acc, r3)
                        else if (code d =? 44)%N then
                          match skip_ws r3 with
                          | String q r4 =>
                              if (code q =? 34)%N then members scan f r4 acc else None
                          | "" => None
                          end
                        else None
                    | "" => None
                    end
                end
              else None
          | "" => None
          end
      end
  end.

(** The loop of [JSONArray], at the start of an element. *)
Fixpoint elements (scan : Scanner) (fuel : nat) (s : string) (acc : list JSON)
  : option (list JSON * string) :=
  match fuel with
  | O => None
  | S f =>
      match scan s with
      | None => None
      | Some (v, r) =>
          let acc := (acc ++ [v])%list in
          match skip_ws r with
          | String d r1 =>
              if (code d =? 93)%N then Some (acc, r1)
              else if (code d =? 44)%N then elements scan f (skip_ws r1) acc
              else None
          | "" => None
          end
      end
  end.

Definition literal (p : string) (v : JSON) (s : string) : option (JSON * string) :=
  match strip_prefix p s with
  | Some r => Some (v, r)
  | None => None
  end.

Fixpoint scan_once (fuel : nat) (s : string) : option (JSON * string) :=
  match fuel, s with
  | S f, String c r =>
      let n := String.length r in
      if (code c =? 34)%N then
        match scanstring (S n) r with
        | Some (x, out) => Some (JStr x, out)
        | None => None
        end
      else if (code c =? 123)%N then
        match skip_ws r with
        | String d r1 =>
            if (code d =? 125)%N then Some (JDict [], r1)
            else if (code d =? 34)%N then
              match members (scan_once f) n r1 [] with
              | Some (items, out) => Some (JDict items, out)
              | None => None
              end
            else None
        | "" => None
        end
      else if (code c =? 91)%N then
        match skip_ws r with
        | String d r1 =>
            if (code d =? 93)%N then Some (JList [], r1)
            else
              match elements (scan_once f) n (skip_ws r) [] with
              | Some (items, out) => Some (JList items, out)
              | None => None
              end
        | "" => None
        end
      else
        match literal "null" JNull s, literal "true" (JBool true) s,
              literal "false" (JBool false) s, match_number s with
        | Some x, _, _, _ | None, Some x, _, _ | None, None, Some x, _
        | None, None, None, Some x => Some x
        | None, None, None, None =>
            match literal "NaN" (JFloat "NaN") s,
                  literal "Infinity" (JFloat "Infinity") s,
                  literal "-Infinity" (JFloat "-Infinity") s with
            | Some x, _, _ | None, Some x, _ | None, None, Some x => Some x
            | None, None, None => None
            end
        end
  | _, _ => None
  end.

Inductive Encoding := UTF8 | UTF8_SIG | UTF16_or_32.

(** [json.detect_encoding], with the UTF-16 and UTF-32 answers merged. *)
Definition detect_encoding (b : list N) : Encoding :=
  match b with
  | 255 :: 254 :: _ | 254 :: 255 :: _ | 0 :: 0 :: 254 :: 255 :: _ => UTF16_or_32
  | 239 :: 187 :: 191 :: _ => UTF8_SIG
  | b0 :: b1 :: _ :: _ :: _ =>
      if (b0 =? 0) || (b1 =? 0) then UTF16_or_32 else UTF8
  | [b0; b1] => if (b0 =? 0) || (b1 =? 0) then UTF16_or_32 else UTF8
  | _ => UTF8
  end%N.

Definition decode (s : string) : Result JSON :=
  match scan_once (S (String.length s)) (skip_ws s) with
  | Some (v, r) =>
      match skip_ws r with
      | "" => Ok v
      | _ => Raise JSONDecodeError
      end
  | None => Raise JSONDecodeError
  end.

End Json.

Definition json_loads : Decoder := fun b =>
  match Json.detect_encoding (octets b) with
  | Json.UTF8 => Json.decode b
  | Json.UTF8_SIG => Json.decode (substring 3 (String.length b - 3) b)
  | Json.UTF16_or_32 => Raise JSONDecodeError
  end.

(** JSON text is written below with single quotes; [quoted] puts the
    double quotes back. *)
Definition quoted (s : string) : string :=
  string_of_list_ascii
    (map (fun c => if (N_of_ascii c =? 39)%N then ascii_of_N 34 else c)
         (list_ascii_of_string s)).

(** The payload of the specification's end-to-end scenario. *)
Definition payload_text : bytes :=
  quoted "{'data':{'attributes':{'payload':{'data':{'id':'inq_1','attributes':{'status':'approved','name-first':'Ada','name-last':'Lovelace','reference-id':'42'}}}}}}".


(** A store with nothing in it, a secret, and a request signed with it the
    way the provider signs. *)
Definition empty_state : State :=
  {| user_verifications := []; notifications := []; sent_notifications := [];
     tracked_accounts := []; risk_scores := []; error_log := [] |}.

Definition test_settings : Settings := {| PERSONA_WEBHOOK_SECRET := "whsec_test" |}.

Definition signed (settings : Settings) (t : str) (b : bytes) : Request :=
  {| Persona_Signature :=
       Some ("t=" ++ t ++ ",v1=" ++ create_digest (PERSONA_WEBHOOK_SECRET settings) t b);
     body := b |}.


(** ** Feed-refresh signal receivers ([feed/signals/purchase_signals.py]) *)

(** The models the receivers read, with the fields they touch; keys and
    foreign keys are row ids. *)
Module FeedEntry.
Record t := {
  id : N;
  content_type : N;
  object_id : N;
  unified_document : option N
}.
End FeedEntry.

Module Purchase.
Record t := {
  id : N;
  content_type : N;
  object_id : N
}.
End Purchase.

Module Grant.
Record t := {
  unified_document : option N       (* None for a grant without a document *)
}.
End Grant.

Module GrantApplication.
Record t := {
  id : N;
  grant : option Grant.t            (* None for a NULL foreign key *)
}.
End GrantApplication.

(** [partial(refresh_feed_entry.apply_async, args=(entry.id,), priority=1)]. *)
Record Task := {
  args : N;
  priority : N
}.

(** How the database connection stands when the signal fires. *)
Inductive Transaction := Autocommit | Atomic | Manual.

Record Db := {
  feed_entries : list FeedEntry.t;    (* the FeedEntry table *)
  researchhubpost_type : N;           (* the ContentType row of ResearchhubPost *)
  transaction : Transaction;
  run_on_commit : list (list Task);   (* hooks waiting for the commit *)
  broker : list Task;                 (* tasks handed to the queue *)
  logged : list Exn                   (* logger.error *)
}.

Definition enqueue (t : Task) (db : Db) : Db :=
  {| feed_entries := feed_entries db;
     researchhubpost_type := researchhubpost_type db;
     transaction := transaction db;
     run_on_commit := run_on_commit db;
     broker := (broker db ++ [t])%list;
     logged := logged db |}.

Definition defer (hook : list Task) (db : Db) : Db :=
  {| feed_entries := feed_entries db;
     researchhubpost_type := researchhubpost_type db;
     transaction := transaction db;
     run_on_commit := (run_on_commit db ++ [hook])%list;
     broker := broker db;
     logged := logged db |}.

Definition logger_error (e : Exn) : Stateful Db unit :=
  modify (fun db =>
    {| feed_entries := feed_entries db;
       researchhubpost_type := researchhubpost_type db;
       transaction := transaction db;
       run_on_commit := run_on_commit db;
       broker := broker db;
       logged := (logged db ++ [e])%list |}).

Definition apply_async (faults : Faults) (t : Task) : Stateful Db unit :=
  (external faults (ApplyAsync (args t)) ;; modify (enqueue t))%M.

(** [[task() for task in tasks]]. *)
Fixpoint run_tasks (faults : Faults) (tasks : list Task) : Stateful Db unit :=
  match tasks with
  | [] => ret tt
  | task :: rest => (apply_async faults task ;; run_tasks faults rest)%M
  end.

(** [transaction.on_commit(lambda: [task() for task in tasks])]: inside an
    atomic block the hook waits for the commit, under autocommit it runs at
    once, under manual transaction management Django refuses it. *)
Definition on_commit (faults : Faults) (tasks : list Task) : Stateful Db unit :=
  fun db =>
    match transaction db with
    | Atomic => modify (defer tasks) db
    | Autocommit => run_tasks faults tasks db
    | Manual => raise TransactionManagementError db
    end.

(** A lazy queryset: the rows of the table that pass the filter. *)
Definition QuerySet := FeedEntry.t -> bool.

Definition rows (q : QuerySet) (db : Db) : list FeedEntry.t :=
  filter q (feed_entries db).

Definition exists_ (faults : Faults) (q : QuerySet) : Stateful Db bool :=
  (external faults Exists ;;
   fun db => (Ok (negb (Nat.eqb (length (rows q db)) 0)), db))%M.

Definition iterate (faults : Faults) (q : QuerySet) : Stateful Db (list FeedEntry.t) :=
  (external faults Iterate ;; fun db => (Ok (rows q db), db))%M.

Definition task_for (entry : FeedEntry.t) : Task :=
  {| args := FeedEntry.id entry; priority := 1 |}.

(** The statements every receiver ends with: leave when no entry matches,
    else one task per entry, handed to [transaction.on_commit]. *)
Definition refresh_all (faults : Faults) (q : QuerySet) : Stateful Db unit :=
  (found <- exists_ faults q ;;
   if negb found then ret tt
   else
     (entries <- iterate faults q ;;
      let tasks := map task_for entries in
      on_commit faults tasks))%M.

Definition purchase_entries (instance : Purchase.t) : QuerySet :=
  fun entry =>
    (FeedEntry.content_type entry =? Purchase.content_type instance)%N
    && (FeedEntry.object_id entry =? Purchase.object_id instance)%N.

(** [refresh_feed_entries_on_purchase] (lines 18-48). *)
Definition refresh_feed_entries_on_purchase (faults : Faults)
  (instance : Purchase.t) (created : bool) : Stateful Db unit :=
  try_except
    (external faults InstanceContentType ;;
     refresh_all faults (purchase_entries instance))%M
    logger_error.

Definition post_entries (unified_document post_content_type : N) : QuerySet :=
  fun entry =>
    match FeedEntry.unified_document entry with
    | Some document => (document =? unified_document)%N
    | None => false
    end
    && (FeedEntry.content_type entry =? post_content_type)%N.

(** The body shared by the two grant-application receivers (lines 57-84 and
    98-125), which differ in their log message only. *)
Definition grant_application_body (faults : Faults) (instance : GrantApplication.t)
  : Stateful Db unit :=
  (external faults InstanceGrant ;;
   match GrantApplication.grant instance with
   | None => raise AttributeError
   | Some grant =>
       external faults GrantUnifiedDocument ;;
       match Grant.unified_document grant with
       | None => ret tt
       | Some unified_document =>
           external faults GetForModel ;;
           post_content_type <- (fun db => (Ok (researchhubpost_type db), db)) ;;
           refresh_all faults (post_entries unified_document post_content_type)
       end
   end)%M.

Definition refresh_feed_entries_on_grant_application (faults : Faults)
  (instance : GrantApplication.t) (created : bool) : Stateful Db unit :=
  try_except (grant_application_body faults instance) logger_error.

Definition refresh_feed_entries_on_grant_application_delete (faults : Faults)
  (instance : GrantApplication.t) : Stateful Db unit :=
  try_except (grant_application_body faults instance) logger_error.

(** [Signal.send]: the receivers run in turn and an exception of one reaches
    the sender, which is [Model.save] or [Model.delete]. *)
Fixpoint send (receivers : list (Stateful Db unit)) : Stateful Db unit :=
  match receivers with
  | [] => ret tt
  | receiver :: rest => (receiver ;; send rest)%M
  end.

Definition post_save_Purchase (faults : Faults) (instance : Purchase.t) (created : bool)
  : Stateful Db unit :=
  send [refresh_feed_entries_on_purchase faults instance created].

Definition post_save_GrantApplication (faults : Faults) (instance : GrantApplication.t)
  (created : bool) : Stateful Db unit :=
  send [refresh_feed_entries_on_grant_application faults instance created].

Definition post_delete_GrantApplication (faults : Faults) (instance : GrantApplication.t)
  : Stateful Db unit :=
  send [refresh_feed_entries_on_grant_application_delete faults instance].

(** [deliveries]: requests handled one after the other, each with the
    behaviour of the collaborators at that time. *)
Fixpoint deliver (settings : Settings) (loads : Decoder)
  (deliveries : list (Faults * Request)) (st : State) : list Response * State :=
  match deliveries with
  | [] => ([], st)
  | (faults, request) :: rest =>
      let (response, st1) := post settings loads faults request st in
      let (responses, st2) := deliver settings loads rest st1 in
      (response :: responses, st2)
  end.


(** The commit of the surrounding transaction, as Django runs the hooks
    ([run_and_clear_commit_hooks]): they are taken off the connection and
    run in turn, outside the receivers; an exception of one reaches whoever
    commits. *)
Definition clear_hooks (db : Db) : Db :=
  {| feed_entries := feed_entries db;
     researchhubpost_type := researchhubpost_type db;
     transaction := transaction db;
     run_on_commit := [];
     broker := broker db;
     logged := logged db |}.

Fixpoint run_hooks (faults : Faults) (hooks : list (list Task)) : Stateful Db unit :=
  match hooks with
  | [] => ret tt
  | hook :: rest => (run_tasks faults hook ;; run_hooks faults rest)%M
  end.

Definition commit (faults : Faults) : Stateful Db unit :=
  fun db => run_hooks faults (run_on_commit db) (clear_hooks db).

(** ** Vocabulary of the statements *)

Definition status_path : str := "data.attributes.payload.data.attributes.status".
Definition reference_id_path : str := "data.attributes.payload.data.attributes.reference-id".
Definition name_first_path : str := "data.attributes.payload.data.attributes.name-first".
Definition name_last_path : str := "data.attributes.payload.data.attributes.name-last".
Definition inquiry_id_path : str := "data.attributes.payload.data.id".

(** What [_get_nested_attr(data, path)] extracts, [JNull] when absent. *)
Definition field (data : JSON) (path : str) : JSON :=
  match _get_nested_attr data path JNull with
  | Ok v => v
  | Raise _ => JNull
  end.

(** The verification record a payload carries, for a given mapped status. *)
Definition record_of (data : JSON) (s : Status) : UserVerification :=
  {| user_id := field data reference_id_path;
     first_name := field data name_first_path;
     last_name := field data name_last_path;
     verified_by := PERSONA;
     external_id := field data inquiry_id_path;
     status := s |}.

(** The records the store holds for a subject. *)
Definition records_for (subject : JSON) (st : State) : list UserVerification :=
  matching subject (user_verifications st).

(** The store answers this delivery. *)
Definition store_up (faults : Faults) : Prop :=
  faults UpdateOrCreate = false /\ faults Save = false.

(** A collaborator called after the upsert raises. *)
Definition side_effect_fails (faults : Faults) : bool :=
  faults GetNotificationUser || faults CreateNotification || faults SendNotification
  || faults GetUser || faults TrackAccount || faults UpdateUserRiskScore.

(** The table after a create-or-update of [r]. *)
Definition upsert (r : UserVerification) (table : list UserVerification)
  : list UserVerification :=
  match matching (user_id r) table with
  | [] => (table ++ [r])%list
  | _ => replace_row r table
  end.

(** HMAC-SHA256 in the words of RFC 2104: with [B = 64] the block size,
    [K0] the key brought to [B] octets (hashed first when longer, then
    padded with zeros), [ipad] the octet 0x36 and [opad] the octet 0x5C
    repeated [B] times,
    [H((K0 xor opad) || H((K0 xor ipad) || text))]. *)
Definition xor_octets (a b : list N) : list N :=
  map (fun p => N.lxor (fst p) (snd p)) (combine a b).

Definition ipad : list N := repeat 54%N 64.
Definition opad : list N := repeat 92%N 64.

Definition K0 (key : list N) : list N :=
  if Nat.leb (length key) 64 then (key ++ repeat 0%N (64 - length key))%list
  else (SHA256.digest key ++ repeat 0%N 32)%list.

Definition HMAC_SHA256 (key text : list N) : list N :=
  SHA256.digest
    (xor_octets (K0 key) opad ++ SHA256.digest (xor_octets (K0 key) ipad ++ text))%list.

(** Lowercase hexadecimal: the digit a character stands for, and the
    octets a string of digit pairs encodes. *)
Definition lower_hex_value (c : ascii) : option N :=
  let n := N_of_ascii c in
  if between 48 57 n then Some (n - 48)%N
  else if between 97 102 n then Some (n - 87)%N
  else None.

Fixpoint from_hex (s : str) : option (list N) :=
  match s with
  | "" => Some []
  | String hi (String lo rest) =>
      match lower_hex_value hi, lower_hex_value lo, from_hex rest with
      | Some h, Some l, Some tl => Some ((h * 16 + l)%N :: tl)
      | _, _, _ => None
      end
  | _ => None
  end.

(** The provider statuses the view recognises. *)
Definition recognised : list str :=
  ["approved"; "declined"; "failed"; "marked-for-review"].

(** [s] is [r] up to the case of ASCII letters. *)
Fixpoint caseless (s r : str) : bool :=
  match s, r with
  | "", "" => true
  | String a s', String b r' =>
      (ascii_lower (N_of_ascii a) =? ascii_lower (N_of_ascii b))%N && caseless s' r'
  | _, _ => false
  end.

(** ** Fixtures for the concrete instances *)

Definition test_request : Request := signed test_settings "1700000000" payload_text.

(** The tree [json_loads] builds from such a payload. *)
Definition tree_with_status (persona_status : str) : JSON :=
  JDict [("data", JDict [("attributes", JDict [("payload", JDict [("data",
    JDict [("id", JStr "inq_1");
           ("attributes",
            JDict [("status", JStr persona_status);
                   ("name-first", JStr "Ada");
                   ("name-last", JStr "Lovelace");
                   ("reference-id", JStr "42")])])])])])].

Definition payload_tree : JSON := tree_with_status "approved".

Definition ada : UserVerification :=
  {| user_id := JStr "42";
     first_name := JStr "Ada";
     last_name := JStr "Lovelace";
     verified_by := PERSONA;
     external_id := JStr "inq_1";
     status := APPROVED |}.

(** The same payload with another status. *)
Definition payload_with_status (persona_status : str) : bytes :=
  quoted ("{'data':{'attributes':{'payload':{'data':{'id':'inq_1','attributes':{'status':'"
          ++ persona_status
          ++ "','name-first':'Ada','name-last':'Lovelace','reference-id':'42'}}}}}}").

(** The payload of the specification without its status field. *)
Definition payload_without_status : bytes :=
  quoted "{'data':{'attributes':{'payload':{'data':{'id':'inq_1','attributes':{'name-first':'Ada','name-last':'Lovelace','reference-id':'42'}}}}}}".

(** A body that is not UTF-8 (the single octet 0xFF) under a header of the
    expected form whose digest does not match. *)
Definition undecodable_request : Request :=
  {| Persona_Signature := Some "t=1700000000,v1=00"; body := of_octets [255%N] |}.

(** A body that is not JSON, once under a digest that does not match and
    once correctly signed. *)
Definition not_json : bytes := "{not json".

Definition unsigned_not_json : Request :=
  {| Persona_Signature := Some "t=1700000000,v1=00"; body := not_json |}.

Definition signed_not_json : Request := signed test_settings "1700000000" not_json.

(** A feed with two entries for the post 7 (content type 3) and one for
    another object; a purchase on the post and one on nothing in the feed;
    the task queue is down for entry 11. *)
Definition test_db (mode : Transaction) : Db :=
  {| feed_entries :=
       [ {| FeedEntry.id := 10; FeedEntry.content_type := 3;
            FeedEntry.object_id := 7; FeedEntry.unified_document := Some 70%N |};
         {| FeedEntry.id := 11; FeedEntry.content_type := 3;
            FeedEntry.object_id := 7; FeedEntry.unified_document := Some 70%N |};
         {| FeedEntry.id := 12; FeedEntry.content_type := 4;
            FeedEntry.object_id := 8; FeedEntry.unified_document := None |} ]%N;
     researchhubpost_type := 3;
     transaction := mode;
     run_on_commit := [];
     broker := [];
     logged := [] |}.

Definition purchase_on_post : Purchase.t :=
  {| Purchase.id := 1; Purchase.content_type := 3; Purchase.object_id := 7 |}.

Definition purchase_elsewhere : Purchase.t :=
  {| Purchase.id := 2; Purchase.content_type := 9; Purchase.object_id := 9 |}.

Definition application_on_post : GrantApplication.t :=
  {| GrantApplication.id := 5;
     GrantApplication.grant := Some {| Grant.unified_document := Some 70%N |} |}.

Definition broker_down_for_11 : Faults :=
  fun c => match c with ApplyAsync 11 => true | _ => false end.

(** The notification service is down, everything else answers. *)
Definition notification_down : Faults :=
  fun c => match c with SendNotification => true | _ => false end.

(** ** Vocabulary of the further properties *)

(** Whether the character [c] occurs in [s]. *)
Fixpoint occurs (c : ascii) (s : str) : bool :=
  match s with
  | "" => false
  | String a rest => Ascii.eqb a c || occurs c rest
  end.

(** The notification a delivery creates for the record it wrote. *)
Definition notification_for (r : UserVerification) : Notification :=
  {| action_user := {| User.id := user_id r |};
     extra := status r;
     item := r;
     notification_type := IDENTITY_VERIFICATION_UPDATED;
     recipient := {| User.id := user_id r |} |}.

(** The state a delivery that goes all the way leaves: the record written,
    its notification created and sent, the account tracked and scored. *)
Definition delivered (r : UserVerification) (st : State) : State :=
  {| user_verifications := upsert r (user_verifications st);
     notifications := (notifications st ++ [notification_for r])%list;
     sent_notifications := (sent_notifications st ++ [notification_for r])%list;
     tracked_accounts := (tracked_accounts st ++ [ {| User.id := user_id r |} ])%list;
     risk_scores := (risk_scores st ++ [ {| User.id := user_id r |} ])%list;
     error_log := error_log st |}.

(** What [_process_payload] does once the record is saved: the notification,
    then the account tracking and the risk score (lines 112-116). *)
Definition dispatch (faults : Faults) (request : Request) (r : UserVerification)
  : M unit :=
  (_create_notification faults r ;;
   user <- get_user faults GetUser (user_id r) ;;
   tracked_account <- track_account faults user request ;;
   update_user_risk_score faults user tracked_account)%M.

(** Every collaborator of the view answers. *)
Definition all_answer (faults : Faults) : Prop :=
  faults UpdateOrCreate = false /\ faults Save = false
  /\ faults GetNotificationUser = false /\ faults CreateNotification = false
  /\ faults SendNotification = false /\ faults GetUser = false
  /\ faults TrackAccount = false /\ faults UpdateUserRiskScore = false.

(** The calls of the receivers into the ORM answer (the queue may not). *)
Definition orm_answers (faults : Faults) : Prop :=
  faults InstanceContentType = false /\ faults InstanceGrant = false
  /\ faults GrantUnifiedDocument = false /\ faults GetForModel = false
  /\ faults Exists = false /\ faults Iterate = false.

(** The refresh tasks a purchase, or a grant application, stands for: one
    per feed entry of the purchased object, or of the post of the grant's
    document. *)
Definition purchase_tasks (instance : Purchase.t) (db : Db) : list Task :=
  map task_for (rows (purchase_entries instance) db).

Definition application_tasks (instance : GrantApplication.t) (db : Db) : list Task :=
  match GrantApplication.grant instance with
  | Some grant =>
      match Grant.unified_document grant with
      | Some document =>
          map task_for (rows (post_entries document (researchhubpost_type db)) db)
      | None => []
      end
  | None => []
  end.

(** [db] with [tasks] handed to the queue, and with [e] logged. *)
Definition enqueue_all (tasks : list Task) (db : Db) : Db :=
  {| feed_entries := feed_entries db;
     researchhubpost_type := researchhubpost_type db;
     transaction := transaction db;
     run_on_commit := run_on_commit db;
     broker := (broker db ++ tasks)%list;
     logged := logged db |}.

Definition with_logged (e : Exn) (db : Db) : Db :=
  {| feed_entries := feed_entries db;
     researchhubpost_type := researchhubpost_type db;
     transaction := transaction db;
     run_on_commit := run_on_commit db;
     broker := broker db;
     logged := (logged db ++ [e])%list |}.

(** [db'] is [db] with some of [tasks] handed over, and nothing else changed
    but the log: a prefix of them enqueued, or all of them deferred in one
    hook. *)
Definition handed_over (tasks : list Task) (db db' : Db) : Prop :=
  feed_entries db' = feed_entries db
  /\ researchhubpost_type db' = researchhubpost_type db
  /\ transaction db' = transaction db
  /\ ((run_on_commit db' = run_on_commit db
       /\ exists n, broker db' = (broker db ++ firstn n tasks)%list)
      \/ (run_on_commit db' = (run_on_commit db ++ [tasks])%list
          /\ broker db' = broker db)).

(** The three signals and the receiver each one reaches. *)
Inductive Signal :=
| PurchaseSaved (instance : Purchase.t) (created : bool)
| ApplicationSaved (instance : GrantApplication.t) (created : bool)
| ApplicationDeleted (instance : GrantApplication.t).

Definition receive (faults : Faults) (signal : Signal) : Stateful Db unit :=
  match signal with
  | PurchaseSaved instance created =>
      refresh_feed_entries_on_purchase faults instance created
  | ApplicationSaved instance created =>
      refresh_feed_entries_on_grant_application faults instance created
  | ApplicationDeleted instance =>
      refresh_feed_entries_on_grant_application_delete faults instance
  end.

Definition tasks_of (signal : Signal) (db : Db) : list Task :=
  match signal with
  | PurchaseSaved instance _ => purchase_tasks instance db
  | ApplicationSaved instance _ | ApplicationDeleted instance =>
      application_tasks instance db
  end.

(** A correctly signed delivery for another subject, "7". *)
Definition payload_for_7 : bytes :=
  quoted "{'data':{'attributes':{'payload':{'data':{'id':'inq_7','attributes':{'status':'failed','name-first':'Grace','name-last':'Hopper','reference-id':'7'}}}}}}".

Definition tree_for_7 : JSON :=
  JDict [("data", JDict [("attributes", JDict [("payload", JDict [("data",
    JDict [("id", JStr "inq_7");
           ("attributes",
            JDict [("status", JStr "failed");
                   ("name-first", JStr "Grace");
                   ("name-last", JStr "Hopper");
                   ("reference-id", JStr "7")])])])])])].

Definition request_for_7 : Request := signed test_settings "1700000120" payload_for_7.

(** A correctly signed delivery whose status is a number. *)
Definition payload_status_5 : bytes :=
  quoted "{'data':{'attributes':{'payload':{'data':{'id':'inq_1','attributes':{'status':5,'reference-id':'42'}}}}}}".

Definition tree_status_5 : JSON :=
  JDict [("data", JDict [("attributes", JDict [("payload", JDict [("data",
    JDict [("id", JStr "inq_1");
           ("attributes",
            JDict [("status", JInt 5); ("reference-id", JStr "42")])])])])])].

Definition request_status_5 : Request := signed test_settings "1700000000" payload_status_5.

(** * Properties *)

(** ** The text model against CPython *)

Example split_examples :
  split "," "t=1,v1=ab" = ["t=1"; "v1=ab"]
  /\ split "=" "v1=ab=cd" = ["v1"; "ab"; "cd"]
  /\ split "," "" = [""]
  /\ split "," "a,,b," = ["a"; ""; "b"; ""].
Proof. repeat split. Qed.

(** U+212A KELVIN SIGN (octets E2 84 AA) lowercases to "k". *)
Example lower_examples :
  lower "APPROVED" = "approved"
  /\ lower "Marked-For-Review" = "marked-for-review"
  /\ lower (of_octets [109; 97; 114; 226; 132; 170; 101; 100]%N) = "marked"
  /\ lower "expired-42" = "expired-42".
Proof. repeat split. Qed.

(** Accepted: U+00E9, U+20AC, U+10000, U+10FFFF, U+D7FF.  Refused: an
    overlong form, a surrogate, a value above U+10FFFF, a stray
    continuation octet, a truncated sequence, the octet 0xFF. *)
Example utf8_valid_examples :
  map utf8_valid
    [[195; 169]; [226; 130; 172]; [240; 144; 128; 128]; [244; 143; 191; 191];
     [237; 159; 191];
     [192; 128]; [237; 160; 128]; [244; 144; 128; 128]; [128]; [226; 130]; [255]]%N
  = [true; true; true; true; true; false; false; false; false; false; false].
Proof. reflexivity. Qed.

Example json_loads_examples :
  json_loads (quoted " {'a': [1, -2, 1.5e3, true, null], 'a': 'xA\n', 'b': {}} ")
  = Ok (JDict [("a", JStr (String "x" (String "A" (String (ascii_of_N 10) ""))));
               ("b", JDict [])])
  /\ json_loads (quoted "[1, -2, 1.5e3, true, null]")
     = Ok (JList [JInt 1; JInt (-2); JFloat "1.5e3"; JBool true; JNull])
  /\ json_loads (quoted "{'a': 1,}") = Raise JSONDecodeError
  /\ json_loads "[1 2]" = Raise JSONDecodeError
  /\ json_loads "01" = Raise JSONDecodeError
  /\ json_loads "" = Raise JSONDecodeError
  /\ json_loads (quoted "'open") = Raise JSONDecodeError.
Proof. repeat split; vm_compute; reflexivity. Qed.

Example get_nested_attr_examples :
  _get_nested_attr payload_tree "data.attributes.payload.data.id" JNull = Ok (JStr "inq_1")
  /\ _get_nested_attr payload_tree "data.attributes.nothing.here" JNull = Ok JNull
  /\ _get_nested_attr (JList [JInt 1]) "data" JNull = Ok JNull
  /\ _get_nested_attr (JDict [("data", JStr "text")]) "data.attributes" JNull = Ok JNull.
Proof. repeat split. Qed.

(** ** Equality of JSON values *)

Section JSON_induction.
Variable P : JSON -> Prop.
Hypothesis HNull : P JNull.
Hypothesis HBool : forall b, P (JBool b).
Hypothesis HInt : forall z, P (JInt z).
Hypothesis HFloat : forall x, P (JFloat x).
Hypothesis HStr : forall s, P (JStr s).
Hypothesis HList : forall items, Forall P items -> P (JList items).
Hypothesis HDict : forall items, Forall (fun kv => P (snd kv)) items -> P (JDict items).

Lemma JSON_nested_ind : forall j, P j.
Proof.
  fix IH 1.
  intros [ | b | z | x | s | items | items ].
  - exact HNull.
  - apply HBool.
  - apply HInt.
  - apply HFloat.
  - apply HStr.
  - apply HList. induction items as [ | j items IHitems ]; constructor.
    + apply IH.
    + exact IHitems.
  - apply HDict. induction items as [ | [k j] items IHitems ]; constructor.
    + apply IH.
    + exact IHitems.
Qed.
End JSON_induction.

Lemma JSON_eqb_eq : forall a b, JSON_eqb a b = true <-> a = b.
Proof.
  induction a as [ | x | x | x | x | xs IH | xs IH ] using JSON_nested_ind;
    intros [ | y | y | y | y | ys | ys ]; simpl;
    try (split; [ discriminate | discriminate ]);
    try (split; [ reflexivity | reflexivity ]).
  - rewrite Bool.eqb_true_iff. split; congruence.
  - rewrite Z.eqb_eq. split; congruence.
  - rewrite String.eqb_eq. split; congruence.
  - rewrite String.eqb_eq. split; congruence.
  - revert ys. induction IH as [ | x xs Hx _ IHxs ]; intros [ | y ys ];
      try (split; [ discriminate | discriminate ]).
    + split; reflexivity.
    + rewrite Bool.andb_true_iff, Hx. specialize (IHxs ys).
      split.
      * intros [-> H]. apply IHxs in H. congruence.
      * intros H. injection H as -> ->. split; [ reflexivity | ].
        apply IHxs. reflexivity.
  - revert ys. induction IH as [ | [k x] xs Hx _ IHxs ]; intros [ | [k' y] ys ];
      try (split; [ discriminate | discriminate ]).
    + split; reflexivity.
    + simpl in Hx. rewrite !Bool.andb_true_iff, Hx, String.eqb_eq.
      specialize (IHxs ys). split.
      * intros [[-> ->] H]. apply IHxs in H. congruence.
      * intros H. injection H as -> -> ->. repeat split.
        apply IHxs. reflexivity.
Qed.

Lemma JSON_eqb_refl : forall a, JSON_eqb a a = true.
Proof. intros a. apply JSON_eqb_eq. reflexivity. Qed.

(** ** The verification table *)

Lemma matching_app : forall key t1 t2,
  matching key (t1 ++ t2) = (matching key t1 ++ matching key t2)%list.
Proof. intros. unfold matching. apply filter_app. Qed.

Lemma matching_replace_row_same : forall r table,
  matching (user_id r) (replace_row r table)
  = map (fun _ => r) (matching (user_id r) table).
Proof.
  intros r table. unfold matching, replace_row.
  induction table as [ | row table IH ]; simpl; [ reflexivity | ].
  destruct (JSON_eqb (user_id row) (user_id r)) eqn:E; simpl.
  - rewrite JSON_eqb_refl. simpl. f_equal. exact IH.
  - rewrite E. exact IH.
Qed.

Lemma matching_replace_row_other : forall r key table,
  JSON_eqb (user_id r) key = false ->
  matching key (replace_row r table) = matching key table.
Proof.
  intros r key table Hne. unfold matching, replace_row.
  induction table as [ | row table IH ]; simpl; [ reflexivity | ].
  destruct (JSON_eqb (user_id row) (user_id r)) eqn:E; simpl.
  - apply JSON_eqb_eq in E. rewrite E, Hne. exact IH.
  - rewrite IH. reflexivity.
Qed.

Lemma upsert_subject : forall r table,
  length (matching (user_id r) table) <= 1 ->
  matching (user_id r) (upsert r table) = [r].
Proof.
  intros r table Hone. unfold upsert.
  destruct (matching (user_id r) table) as [ | x [ | y rest ] ] eqn:E.
  - rewrite matching_app, E. unfold matching. simpl.
    rewrite JSON_eqb_refl. reflexivity.
  - rewrite matching_replace_row_same, E. reflexivity.
  - simpl in Hone. lia.
Qed.

Lemma upsert_other : forall r key table,
  JSON_eqb (user_id r) key = false ->
  matching key (upsert r table) = matching key table.
Proof.
  intros r key table Hne. unfold upsert.
  destruct (matching (user_id r) table).
  - rewrite matching_app. unfold matching at 2. simpl. rewrite Hne.
    apply app_nil_r.
  - apply matching_replace_row_other. exact Hne.
Qed.

(** A create-or-update leaves every subject with at most one record when
    it had at most one. *)
Lemma upsert_at_most_one : forall r key table,
  length (matching (user_id r) table) <= 1 ->
  length (matching key table) <= 1 ->
  length (matching key (upsert r table)) <= 1.
Proof.
  intros r key table Hr Hkey.
  destruct (JSON_eqb (user_id r) key) eqn:E.
  - apply JSON_eqb_eq in E. subst key. rewrite upsert_subject by exact Hr.
    simpl. lia.
  - rewrite upsert_other by exact E. exact Hkey.
Qed.

(** Saving the instance a create-or-update returned writes nothing new. *)
Lemma upsert_idempotent : forall r table,
  length (matching (user_id r) table) <= 1 ->
  upsert r (upsert r table) = upsert r table.
Proof.
  intros r table Hone. unfold upsert at 1.
  rewrite upsert_subject by exact Hone.
  unfold upsert. destruct (matching (user_id r) table) eqn:E.
  - unfold replace_row. rewrite map_app. simpl. rewrite JSON_eqb_refl.
    f_equal. unfold matching in E.
    induction table as [ | row table IH ]; simpl in *; [ reflexivity | ].
    destruct (JSON_eqb (user_id row) (user_id r)); [ discriminate | ].
    f_equal. apply IH. exact E.
  - unfold replace_row. rewrite map_map. apply map_ext. intros row.
    destruct (JSON_eqb (user_id row) (user_id r)) eqn:E'.
    + rewrite JSON_eqb_refl. reflexivity.
    + rewrite E'. reflexivity.
Qed.

(** ** Field extraction never raises *)

Lemma get_keys_ok : forall keys data default, exists v, get_keys data keys default = Ok v.
Proof.
  induction keys as [ | key keys IH ]; intros data default; simpl.
  - eexists. reflexivity.
  - destruct data; simpl; try (eexists; reflexivity).
    destruct (dict_get items key).
    + apply IH.
    + eexists. reflexivity.
Qed.

Lemma _get_nested_attr_field : forall data path,
  _get_nested_attr data path JNull = Ok (field data path).
Proof.
  intros data path. unfold field.
  destruct (get_keys_ok (split "." path) data JNull) as [v Hv].
  unfold _get_nested_attr. rewrite Hv. reflexivity.
Qed.

(** ** One delivery *)

Lemma save_upsert : forall faults r st,
  faults Save = false ->
  save faults r st = (Ok tt, set_user_verifications (upsert r (user_verifications st)) st).
Proof.
  intros faults r st Hs. unfold save, bind, external, modify. rewrite Hs.
  reflexivity.
Qed.

Lemma update_or_create_upsert : forall faults r st,
  faults UpdateOrCreate = false ->
  length (matching (user_id r) (user_verifications st)) <= 1 ->
  exists created,
    update_or_create faults r st
    = (Ok (r, created), set_user_verifications (upsert r (user_verifications st)) st).
Proof.
  intros faults r st Hu Hone. unfold update_or_create, bind, external, upsert.
  rewrite Hu. simpl.
  destruct (matching (user_id r) (user_verifications st)) as [ | x [ | y rest ] ].
  - exists true. reflexivity.
  - exists false. reflexivity.
  - simpl in Hone. lia.
Qed.

(** The collaborators called after the upsert never touch the table. *)
Lemma side_effects_keep_table : forall faults request uv st,
  exists res st',
    (_create_notification faults uv ;;
     user <- get_user faults GetUser (user_id uv) ;;
     tracked_account <- track_account faults user request ;;
     update_user_risk_score faults user tracked_account)%M st = (res, st')
    /\ user_verifications st' = user_verifications st
    /\ (side_effect_fails faults = false -> res = Ok tt)
    /\ (side_effect_fails faults = true -> exists e, res = Raise e).
Proof.
  intros faults request uv st.
  unfold side_effect_fails, _create_notification, get_user, notification_create,
    send_notification, track_account, update_user_risk_score, external, bind,
    modify, ret, raise.
  destruct (faults GetNotificationUser); simpl;
    [ do 2 eexists; repeat split; [ discriminate | eexists; reflexivity ] | ].
  destruct (faults CreateNotification); simpl;
    [ do 2 eexists; repeat split; [ discriminate | eexists; reflexivity ] | ].
  destruct (faults SendNotification); simpl;
    [ do 2 eexists; repeat split; [ discriminate | eexists; reflexivity ] | ].
  destruct (faults GetUser); simpl;
    [ do 2 eexists; repeat split; [ discriminate | eexists; reflexivity ] | ].
  destruct (faults TrackAccount); simpl;
    [ do 2 eexists; repeat split; [ discriminate | eexists; reflexivity ] | ].
  destruct (faults UpdateUserRiskScore); simpl;
    [ do 2 eexists; repeat split; [ discriminate | eexists; reflexivity ] | ].
  do 2 eexists; repeat split. discriminate.
Qed.

Lemma process_payload_store : forall loads faults request data s st,
  loads (body request) = Ok data ->
  payload_status data = Ok s ->
  store_up faults ->
  length (records_for (field data reference_id_path) st) <= 1 ->
  exists res st',
    _process_payload loads faults request st = (res, st')
    /\ user_verifications st'
       = upsert (record_of data s) (user_verifications st)
    /\ (side_effect_fails faults = false -> res = Ok tt)
    /\ (side_effect_fails faults = true -> exists e, res = Raise e).
Proof.
  intros loads faults request data s st Hloads Hstatus [Hu Hs] Hone.
  unfold _process_payload.
  unfold bind at 1. unfold lift at 1. rewrite Hloads.
  unfold bind at 1. unfold lift at 1. rewrite Hstatus.
  rewrite !_get_nested_attr_field.
  do 4 (unfold bind at 1; unfold lift at 1).
  fold reference_id_path name_first_path name_last_path inquiry_id_path.
  fold (record_of data s).
  destruct (update_or_create_upsert faults (record_of data s) st Hu Hone)
    as [created Hcreate].
  unfold bind at 1. rewrite Hcreate. cbn [fst].
  unfold bind at 1. rewrite save_upsert by exact Hs.
  cbn [user_verifications set_user_verifications].
  rewrite upsert_idempotent by exact Hone.
  match goal with
  | |- context [ bind (_create_notification _ _) _ ?st1 ] =>
      destruct (side_effects_keep_table faults request (record_of data s) st1)
        as (res & st' & Hrun & Htable & Hok & Hfail)
  end.
  exists res, st'. repeat split; assumption.
Qed.

(** Inversion of the monadic steps. *)
Lemma bind_inv : forall {S A B} (m : Stateful S A) (k : A -> Stateful S B) st res st',
  bind m k st = (res, st') ->
  (exists a st1, m st = (Ok a, st1) /\ k a st1 = (res, st'))
  \/ (exists e, m st = (Raise e, st') /\ res = Raise e).
Proof.
  intros S A B m k st res st' H. unfold bind in H.
  destruct (m st) as [[a | e] st1].
  - left. exists a, st1. split; [ reflexivity | exact H ].
  - right. exists e. injection H as <- <-. split; reflexivity.
Qed.

Lemma lift_inv : forall {S A} (r : Result A) (st : S) res st',
  lift r st = (res, st') -> r = res /\ st' = st.
Proof.
  intros S A r st res st' H. unfold lift in H. injection H as <- <-.
  split; reflexivity.
Qed.

Lemma external_inv : forall {S} (faults : Faults) c (st : S) res st',
  external faults c st = (res, st') -> st' = st.
Proof.
  intros S faults c st res st' H. unfold external in H.
  destruct (faults c); injection H as _ <-; reflexivity.
Qed.

(** Whatever the request and the collaborators do, the table is left as it
    was or has taken one create-or-update. *)
Lemma process_payload_table : forall loads faults request st res st',
  _process_payload loads faults request st = (res, st') ->
  user_verifications st' = user_verifications st
  \/ exists r,
       length (matching (user_id r) (user_verifications st)) <= 1
       /\ user_verifications st' = upsert r (user_verifications st).
Proof.
  intros loads faults request st res st' H.
  unfold _process_payload in H.
  apply bind_inv in H as [(data & st1 & Hm & H) | (e & Hm & _)];
    apply lift_inv in Hm as [_ ->]; [ | left; reflexivity ].
  apply bind_inv in H as [(s & st1 & Hm & H) | (e & Hm & _)];
    apply lift_inv in Hm as [_ ->]; [ | left; reflexivity ].
  apply bind_inv in H as [(reference_id & st1 & Hm & H) | (e & Hm & _)];
    apply lift_inv in Hm as [_ ->]; [ | left; reflexivity ].
  apply bind_inv in H as [(first & st1 & Hm & H) | (e & Hm & _)];
    apply lift_inv in Hm as [_ ->]; [ | left; reflexivity ].
  apply bind_inv in H as [(last & st1 & Hm & H) | (e & Hm & _)];
    apply lift_inv in Hm as [_ ->]; [ | left; reflexivity ].
  apply bind_inv in H as [(inquiry & st1 & Hm & H) | (e & Hm & _)];
    apply lift_inv in Hm as [_ ->]; [ | left; reflexivity ].
  set (r := {| user_id := reference_id; first_name := first; last_name := last;
               verified_by := PERSONA; external_id := inquiry; status := s |}) in *.
  assert (Hupsert : forall created st1,
            update_or_create faults r st = (Ok created, st1) ->
            fst created = r
            /\ length (matching (user_id r) (user_verifications st)) <= 1
            /\ st1 = set_user_verifications (upsert r (user_verifications st)) st).
  { intros created st1 Hc. unfold update_or_create in Hc.
    apply bind_inv in Hc as [(u & st2 & Hm & Hc) | (e & _ & He)];
      [ | discriminate He ].
    apply external_inv in Hm as ->. unfold upsert.
    destruct (matching (user_id r) (user_verifications st)) as [ | x [ | y rest ] ];
      [ | | discriminate Hc ];
      injection Hc as <- <-; cbn [fst length]; repeat split; lia. }
  apply bind_inv in H as [(created & st1 & Hm & H) | (e & Hm & _)].
  - apply Hupsert in Hm as (Hr & Hone & ->). rewrite Hr in H.
    right. exists r. split; [ exact Hone | ].
    apply bind_inv in H as [(u & st1 & Hm & H) | (e & Hm & _)].
    + unfold save in Hm.
      apply bind_inv in Hm as [(u' & st2 & Hm & Hmod) | (e & _ & He)];
        [ | discriminate He ].
      apply external_inv in Hm as ->. unfold modify in Hmod.
      injection Hmod as _ <-.
      match type of H with
      | _ ?st2 = _ =>
          destruct (side_effects_keep_table faults request r st2)
            as (res2 & st3 & Hrun & Htable & _ & _)
      end.
      rewrite Hrun in H. injection H as _ <-. rewrite Htable.
      cbn [user_verifications set_user_verifications].
      exact (upsert_idempotent r (user_verifications st) Hone).
    + unfold save in Hm.
      apply bind_inv in Hm as [(u' & st2 & Hm & Hmod) | (e' & Hm & _)].
      * discriminate Hmod.
      * apply external_inv in Hm as ->. reflexivity.
  - left. unfold update_or_create in Hm.
    apply bind_inv in Hm as [(u & st2 & Hm & Hc) | (e' & Hm & _)].
    + apply external_inv in Hm as ->.
      destruct (matching (user_id r) (user_verifications st)) as [ | x [ | y rest ] ];
        [ discriminate Hc | discriminate Hc | ].
      injection Hc as _ <-. reflexivity.
    + apply external_inv in Hm as ->. reflexivity.
Qed.

(** ** The endpoint, case by case *)

(** A signature that validated, or failed to, was read from a header that
    is there and not empty. *)
Lemma validated_header_present : forall settings request b,
  _validate_signature settings request = Ok b ->
  falsy (Persona_Signature request) = false.
Proof.
  intros settings request b H. unfold _validate_signature in H.
  destruct (Persona_Signature request) as [ h | ]; [ | discriminate H ].
  destruct h as [ | c h ]; [ | reflexivity ].
  cbn [split second_fields rbind nth_error] in H. discriminate H.
Qed.

Lemma post_no_header : forall settings loads faults request st,
  falsy (Persona_Signature request) = true ->
  post settings loads faults request st = (Unauthorized, st).
Proof.
  intros settings loads faults request st H. unfold post, post_try.
  rewrite H. reflexivity.
Qed.

Lemma post_rejected : forall settings loads faults request st,
  _validate_signature settings request = Ok false ->
  post settings loads faults request st = (Unauthorized, st).
Proof.
  intros settings loads faults request st H. unfold post, post_try.
  rewrite (validated_header_present _ _ _ H).
  unfold bind, lift. rewrite H. reflexivity.
Qed.

Lemma post_validation_raises : forall settings loads faults request st e,
  falsy (Persona_Signature request) = false ->
  _validate_signature settings request = Raise e ->
  post settings loads faults request st = (Failed, add_error e st).
Proof.
  intros settings loads faults request st e Hh H. unfold post, post_try.
  rewrite Hh. unfold bind, lift. rewrite H. reflexivity.
Qed.

Lemma post_authenticated : forall settings loads faults request st res st',
  _validate_signature settings request = Ok true ->
  _process_payload loads faults request st = (res, st') ->
  post settings loads faults request st
  = match res with
    | Ok _ => (Processed, st')
    | Raise e => (Failed, add_error e st')
    end.
Proof.
  intros settings loads faults request st res st' Hv Hp. unfold post, post_try.
  rewrite (validated_header_present _ _ _ Hv).
  unfold bind at 1. unfold lift. rewrite Hv. cbn [negb].
  unfold bind. rewrite Hp. destruct res; reflexivity.
Qed.

(** The state a delivery leaves differs from the one it found by what
    [_process_payload] wrote and by the error logged. *)
Lemma post_table : forall settings loads faults request st,
  let st' := snd (post settings loads faults request st) in
  user_verifications st' = user_verifications st
  \/ exists r,
       length (matching (user_id r) (user_verifications st)) <= 1
       /\ user_verifications st' = upsert r (user_verifications st).
Proof.
  intros settings loads faults request st. cbv zeta.
  destruct (falsy (Persona_Signature request)) eqn:Hh.
  - rewrite post_no_header by exact Hh. left. reflexivity.
  - destruct (_validate_signature settings request) as [ [ | ] | e ] eqn:Hv.
    + destruct (_process_payload loads faults request st) as [res st'] eqn:Hp.
      rewrite (post_authenticated _ _ _ _ _ _ _ Hv Hp).
      apply process_payload_table in Hp.
      destruct res; exact Hp.
    + rewrite post_rejected by exact Hv. left. reflexivity.
    + rewrite (post_validation_raises _ _ _ _ _ _ Hh Hv). left. reflexivity.
Qed.

(** Invariant of the store: a subject with at most one record keeps at most
    one, whatever is delivered. *)
Lemma post_at_most_one : forall settings loads faults request st subject,
  length (records_for subject st) <= 1 ->
  length (records_for subject (snd (post settings loads faults request st))) <= 1.
Proof.
  intros settings loads faults request st subject H. unfold records_for in *.
  destruct (post_table settings loads faults request st) as [-> | (r & Hr & ->)].
  - exact H.
  - apply upsert_at_most_one; assumption.
Qed.

Lemma deliver_at_most_one : forall settings loads deliveries st subject,
  length (records_for subject st) <= 1 ->
  length (records_for subject (snd (deliver settings loads deliveries st))) <= 1.
Proof.
  intros settings loads deliveries. induction deliveries as [ | [faults request] rest IH ];
    intros st subject H; simpl.
  - exact H.
  - pose proof (post_at_most_one settings loads faults request st subject H) as H1.
    destruct (post settings loads faults request st) as [response st1].
    specialize (IH st1 subject H1).
    destruct (deliver settings loads rest st1) as [responses st2].
    exact IH.
Qed.

Lemma record_of_user_id : forall data s,
  user_id (record_of data s) = field data reference_id_path.
Proof. intros. unfold record_of. cbn [user_id]. reflexivity. Qed.

(** An authenticated delivery of a payload whose status the view can map,
    with the store answering: the subject has exactly the record the
    payload carries, and the response tells whether a later collaborator
    raised. *)
Lemma post_upserts : forall settings loads faults request data s st,
  _validate_signature settings request = Ok true ->
  loads (body request) = Ok data ->
  payload_status data = Ok s ->
  store_up faults ->
  length (records_for (field data reference_id_path) st) <= 1 ->
  let out := post settings loads faults request st in
  records_for (field data reference_id_path) (snd out) = [record_of data s]
  /\ (side_effect_fails faults = false -> fst out = Processed)
  /\ (side_effect_fails faults = true -> fst out = Failed).
Proof.
  intros settings loads faults request data s st Hv Hl Hs Hup Hone. cbv zeta.
  destruct (process_payload_store loads faults request data s st Hl Hs Hup Hone)
    as (res & st' & Hp & Htable & Hok & Hfail).
  rewrite (post_authenticated _ _ _ _ _ _ _ Hv Hp).
  assert (Hrec : matching (field data reference_id_path) (user_verifications st')
                 = [record_of data s]).
  { rewrite Htable. rewrite <- (record_of_user_id data s).
    apply upsert_subject. rewrite record_of_user_id. exact Hone. }
  repeat split.
  - destruct res; exact Hrec.
  - intros Hf. rewrite (Hok Hf). reflexivity.
  - intros Hf. destruct (Hfail Hf) as [e ->]. reflexivity.
Qed.

(** ** Status mapping *)

Lemma payload_status_str : forall data p,
  field data status_path = JStr p ->
  payload_status data = Ok (status_of (lower p)).
Proof.
  intros data p H. unfold payload_status. fold status_path.
  rewrite _get_nested_attr_field, H. reflexivity.
Qed.

(** ** Repeated and successive deliveries *)

Lemma deliver_same_request : forall settings loads request data s fs st,
  _validate_signature settings request = Ok true ->
  loads (body request) = Ok data ->
  payload_status data = Ok s ->
  fs <> [] ->
  Forall store_up fs ->
  length (records_for (field data reference_id_path) st) <= 1 ->
  records_for (field data reference_id_path)
    (snd (deliver settings loads (map (fun faults => (faults, request)) fs) st))
  = [record_of data s].
Proof.
  intros settings loads request data s fs st Hv Hl Hs Hne Hup.
  revert st. induction Hup as [ | faults rest Hf Hrest IH ]; intros st Hone.
  - contradiction Hne. reflexivity.
  - cbn [map deliver].
    pose proof (post_upserts settings loads faults request data s st Hv Hl Hs Hf Hone)
      as [Hrec _].
    cbv zeta in Hrec.
    destruct (post settings loads faults request st) as [response st1].
    cbn [snd] in Hrec.
    destruct rest as [ | faults' rest ].
    + cbn [map deliver snd]. exact Hrec.
    + assert (Hone1 : length (records_for (field data reference_id_path) st1) <= 1)
        by (rewrite Hrec; cbn [length]; lia).
      specialize (IH ltac:(discriminate) st1 Hone1).
      destruct (deliver settings loads
                  (map (fun faults0 => (faults0, request)) (faults' :: rest)) st1)
        as [responses st2].
      exact IH.
Qed.

(** ** Concrete facts about the fixtures *)

Lemma test_request_valid : _validate_signature test_settings test_request = Ok true.
Proof. vm_compute. reflexivity. Qed.

Lemma json_loads_payload_text : json_loads payload_text = Ok payload_tree.
Proof. vm_compute. reflexivity. Qed.

Lemma declined_request_valid :
  _validate_signature test_settings
    (signed test_settings "1700000060" (payload_with_status "declined")) = Ok true.
Proof. vm_compute. reflexivity. Qed.

Lemma json_loads_declined :
  json_loads (payload_with_status "declined") = Ok (tree_with_status "declined").
Proof. vm_compute. reflexivity. Qed.

Lemma store_up_no_faults : store_up no_faults.
Proof. split; reflexivity. Qed.

(** ** C1 *)

(** C1. Idempotent upsert: a well-formed payload (one the decoder accepts and
    whose status is a string) delivered any number of times, at least once,
    with a valid signature and the store answering, leaves exactly one
    verification record for its subject reference id, and that record holds
    the name fields, the inquiry id and the mapped status of the payload.
    The subject is assumed to have had at most one record before, which is
    the invariant every delivery preserves ([deliver_at_most_one]). *)
Theorem idempotent_upsert :
  forall settings loads request data persona_status (fs : list Faults) st,
    _validate_signature settings request = Ok true ->
    loads (body request) = Ok data ->
    field data status_path = JStr persona_status ->
    fs <> [] ->
    Forall store_up fs ->
    length (records_for (field data reference_id_path) st) <= 1 ->
    let st' :=
      snd (deliver settings loads (map (fun faults => (faults, request)) fs) st) in
    length (records_for (field data reference_id_path) st') = 1
    /\ records_for (field data reference_id_path) st'
       = [ {| user_id := field data reference_id_path;
              first_name := field data name_first_path;
              last_name := field data name_last_path;
              verified_by := PERSONA;
              external_id := field data inquiry_id_path;
              status := status_of (lower persona_status) |} ].
Proof.
  intros settings loads request data p fs st Hv Hl Hp Hne Hup Hone. cbv zeta.
  pose proof (deliver_same_request settings loads request data
                (status_of (lower p)) fs st Hv Hl (payload_status_str data p Hp)
                Hne Hup Hone) as H.
  rewrite H. split; reflexivity.
Qed.

Lemma idempotent_upsert_witness :
  records_for (JStr "42")
    (snd (deliver test_settings json_loads
            [(no_faults, test_request); (no_faults, test_request)] empty_state))
  = [ada].
Proof.
  exact (proj2 (idempotent_upsert test_settings json_loads test_request payload_tree
                  "approved" [no_faults; no_faults] empty_state
                  test_request_valid json_loads_payload_text eq_refl
                  ltac:(discriminate)
                  (Forall_cons _ store_up_no_faults
                     (Forall_cons _ store_up_no_faults (Forall_nil _)))
                  (Nat.le_0_l 1))).
Defined.

(** ** C6 *)

(** Every internal status is the image of some provider status. *)
Lemma every_status_reachable : forall s : Status, exists p, status_of (lower p) = s.
Proof.
  intros [ | | | | ];
    [ exists "expired" | exists "approved" | exists "declined" | exists "failed"
    | exists "marked-for-review" ]; reflexivity.
Qed.

(** C6. Last processed wins, no ordering enforced: two authenticated
    deliveries for one subject reference id, processed one after the other
    with the store answering, leave the subject's single record with the
    status of the first and then with the status of the second, whatever
    the two statuses are; "approved" followed by "declined" ends DECLINED. *)
Theorem last_processed_wins :
  forall settings loads f1 f2 request1 request2 data1 data2 p1 p2 st,
    _validate_signature settings request1 = Ok true ->
    _validate_signature settings request2 = Ok true ->
    loads (body request1) = Ok data1 ->
    loads (body request2) = Ok data2 ->
    field data1 status_path = JStr p1 ->
    field data2 status_path = JStr p2 ->
    field data1 reference_id_path = field data2 reference_id_path ->
    store_up f1 ->
    store_up f2 ->
    length (records_for (field data1 reference_id_path) st) <= 1 ->
    let subject := field data1 reference_id_path in
    let st1 := snd (post settings loads f1 request1 st) in
    let st2 := snd (deliver settings loads [(f1, request1); (f2, request2)] st) in
    map status (records_for subject st1) = [status_of (lower p1)]
    /\ records_for subject st2 = [record_of data2 (status_of (lower p2))]
    /\ map status (records_for subject st2) = [status_of (lower p2)]
    /\ (p1 = "approved" -> p2 = "declined" ->
        map status (records_for subject st1) = [APPROVED]
        /\ map status (records_for subject st2) = [DECLINED]).
Proof.
  intros settings loads f1 f2 request1 request2 data1 data2 p1 p2 st
    Hv1 Hv2 Hl1 Hl2 Hp1 Hp2 Hsame Hup1 Hup2 Hone. cbv zeta.
  pose proof (post_upserts settings loads f1 request1 data1 _ st Hv1 Hl1
                (payload_status_str data1 p1 Hp1) Hup1 Hone) as [H1 _].
  cbv zeta in H1. cbn [deliver].
  destruct (post settings loads f1 request1 st) as [response1 st1].
  cbn [snd] in *.
  assert (Hone1 : length (records_for (field data2 reference_id_path) st1) <= 1)
    by (rewrite <- Hsame, H1; cbn [length]; lia).
  pose proof (post_upserts settings loads f2 request2 data2 _ st1 Hv2 Hl2
                (payload_status_str data2 p2 Hp2) Hup2 Hone1) as [H2 _].
  cbv zeta in H2.
  destruct (post settings loads f2 request2 st1) as [response2 st2].
  cbn [snd] in *. rewrite Hsame, H2. rewrite <- Hsame, H1.
  split; [ reflexivity | ]. split; [ reflexivity | ]. split; [ reflexivity | ].
  intros -> ->. split; reflexivity.
Qed.

Lemma last_processed_wins_witness :
  map status
    (records_for (JStr "42")
       (snd (deliver test_settings json_loads
               [(no_faults, test_request);
                (no_faults,
                 signed test_settings "1700000060" (payload_with_status "declined"))]
               empty_state)))
  = [DECLINED].
Proof.
  exact (proj1 (proj2 (proj2 (last_processed_wins test_settings json_loads
                  no_faults no_faults test_request
                  (signed test_settings "1700000060" (payload_with_status "declined"))
                  payload_tree (tree_with_status "declined") "approved" "declined"
                  empty_state
                  test_request_valid declined_request_valid
                  json_loads_payload_text json_loads_declined
                  eq_refl eq_refl eq_refl
                  store_up_no_faults store_up_no_faults (Nat.le_0_l 1))))).
Defined.

(** ** C8 *)

(** C8. Side effects are not atomic with the upsert: when an authenticated
    delivery gets its record created or updated and a collaborator called
    afterwards raises (the user lookup, the notification, the account
    tracking or the risk score), the endpoint answers 500 "Failed to process
    webhook" and the record stays as the delivery wrote it. *)
Theorem side_effect_failure_keeps_upsert :
  forall settings loads faults request data persona_status st,
    _validate_signature settings request = Ok true ->
    loads (body request) = Ok data ->
    field data status_path = JStr persona_status ->
    store_up faults ->
    side_effect_fails faults = true ->
    length (records_for (field data reference_id_path) st) <= 1 ->
    let out := post settings loads faults request st in
    fst out = {| message := "Failed to process webhook"; status_code := 500 |}
    /\ records_for (field data reference_id_path) (snd out)
       = [record_of data (status_of (lower persona_status))].
Proof.
  intros settings loads faults request data p st Hv Hl Hp Hup Hfail Hone.
  pose proof (post_upserts settings loads faults request data _ st Hv Hl
                (payload_status_str data p Hp) Hup Hone) as (Hrec & _ & Hresp).
  cbv zeta in *. split.
  - exact (Hresp Hfail).
  - exact Hrec.
Qed.

Lemma side_effect_failure_keeps_upsert_witness :
  let out := post test_settings json_loads notification_down test_request empty_state in
  fst out = {| message := "Failed to process webhook"; status_code := 500 |}
  /\ records_for (JStr "42") (snd out) = [ada].
Proof.
  exact (side_effect_failure_keeps_upsert test_settings json_loads
           notification_down test_request payload_tree "approved" empty_state
           test_request_valid json_loads_payload_text eq_refl
           (conj eq_refl eq_refl) eq_refl (Nat.le_0_l 1)).
Defined.

(** ** C5 *)

(** C5. End to end: the payload of the specification ([payload_text]),
    delivered with a signature that validates while every collaborator
    answers, gets the response 200 "Webhook successfully processed" and
    leaves, for subject "42", the single record with status APPROVED,
    external id "inq_1", first name "Ada" and last name "Lovelace". *)
Theorem end_to_end_success :
  forall settings faults request st,
    body request = payload_text ->
    _validate_signature settings request = Ok true ->
    (forall c, faults c = false) ->
    length (records_for (JStr "42") st) <= 1 ->
    let out := post settings json_loads faults request st in
    fst out = {| message := "Webhook successfully processed"; status_code := 200 |}
    /\ records_for (JStr "42") (snd out)
       = [ {| user_id := JStr "42";
              first_name := JStr "Ada";
              last_name := JStr "Lovelace";
              verified_by := PERSONA;
              external_id := JStr "inq_1";
              status := APPROVED |} ].
Proof.
  intros settings faults request st Hbody Hv Hfaults Hone.
  assert (Hl : json_loads (body request) = Ok payload_tree)
    by (rewrite Hbody; exact json_loads_payload_text).
  assert (Hup : store_up faults) by (split; apply Hfaults).
  assert (Hside : side_effect_fails faults = false)
    by (unfold side_effect_fails; rewrite !Hfaults; reflexivity).
  pose proof (post_upserts settings json_loads faults request payload_tree APPROVED st
                Hv Hl eq_refl Hup Hone) as (Hrec & Hok & _).
  cbv zeta in *. split.
  - exact (Hok Hside).
  - exact Hrec.
Qed.

Lemma end_to_end_success_witness :
  let out := post test_settings json_loads no_faults test_request empty_state in
  fst out = {| message := "Webhook successfully processed"; status_code := 200 |}
  /\ records_for (JStr "42") (snd out) = [ada].
Proof.
  exact (end_to_end_success test_settings no_faults test_request empty_state
           eq_refl test_request_valid (fun _ => eq_refl) (Nat.le_0_l 1)).
Defined.

(** The whole state the delivery leaves, starting from nothing. *)
Example end_to_end_state :
  post test_settings json_loads no_faults test_request empty_state
  = (Processed,
     {| user_verifications := [ada];
        notifications :=
          [ {| action_user := {| User.id := JStr "42" |};
               extra := APPROVED;
               item := ada;
               notification_type := IDENTITY_VERIFICATION_UPDATED;
               recipient := {| User.id := JStr "42" |} |} ];
        sent_notifications :=
          [ {| action_user := {| User.id := JStr "42" |};
               extra := APPROVED;
               item := ada;
               notification_type := IDENTITY_VERIFICATION_UPDATED;
               recipient := {| User.id := JStr "42" |} |} ];
        tracked_accounts := [ {| User.id := JStr "42" |} ];
        risk_scores := [ {| User.id := JStr "42" |} ];
        error_log := [] |}).
Proof. vm_compute. reflexivity. Qed.

(** ** C9 *)

Lemma lower_octets_ascii : forall l,
  Forall (fun b => (b < 128)%N) l -> lower_octets l = map ascii_lower l.
Proof.
  intros l H. induction H as [ | b rest Hb Hrest IH ]; [ reflexivity | ].
  cbn [map]. rewrite <- IH. cbn [lower_octets].
  assert (H196 : (b =? 196)%N = false) by (apply N.eqb_neq; lia).
  assert (H226 : (b =? 226)%N = false) by (apply N.eqb_neq; lia).
  destruct rest as [ | b1 [ | b2 rest2 ] ]; rewrite ?H196, ?H226; reflexivity.
Qed.

Lemma of_octets_octets : forall s, of_octets (octets s) = s.
Proof.
  intros s. unfold of_octets, octets. rewrite map_map.
  rewrite (map_ext _ (fun c => c)) by (intros c; apply ascii_N_embedding).
  rewrite map_id. apply string_of_list_ascii_of_string.
Qed.

(** A lowercase ASCII string is the lowercase form of its case variants. *)
Lemma lower_caseless : forall s r,
  caseless s r = true ->
  Forall (fun b => (b < 128)%N /\ ascii_lower b = b) (octets r) ->
  lower s = r.
Proof.
  intros s r Hc Hr. unfold lower.
  assert (H : Forall (fun b => (b < 128)%N) (octets s)
              /\ map ascii_lower (octets s) = octets r).
  { revert r Hc Hr. induction s as [ | a s IH ]; intros [ | b r ] Hc Hr;
      try discriminate Hc.
    - split; [ constructor | reflexivity ].
    - cbn [caseless] in Hc. apply Bool.andb_true_iff in Hc as [Hab Hc].
      apply N.eqb_eq in Hab.
      unfold octets in Hr. cbn [list_ascii_of_string map] in Hr.
      inversion Hr as [ | ? ? [Hb Hfix] Hr' ]; subst.
      destruct (IH r Hc Hr') as [Hs Hmap].
      rewrite Hfix in Hab.
      unfold octets. cbn [list_ascii_of_string map]. split.
      + constructor; [ | exact Hs ].
        unfold ascii_lower in Hab.
        destruct ((65 <=? N_of_ascii a) && (N_of_ascii a <=? 90))%N eqn:E.
        * apply Bool.andb_true_iff in E as [_ E]. apply N.leb_le in E. lia.
        * lia.
      + f_equal; [ exact Hab | exact Hmap ]. }
  destruct H as [Hs Hmap].
  rewrite lower_octets_ascii by exact Hs. rewrite Hmap. apply of_octets_octets.
Qed.

Lemma recognised_lowercase : forall r,
  In r recognised ->
  Forall (fun b => (b < 128)%N /\ ascii_lower b = b) (octets r).
Proof.
  intros r [<- | [<- | [<- | [<- | []]]]];
    repeat (constructor; [ split; [ reflexivity | reflexivity ] | ]); constructor.
Qed.

(** C9. Case-insensitive status matching: the view lowercases the provider
    status before comparing it, so a status that is one of the four
    recognised names up to the case of its letters ("APPROVED", "Declined")
    gets the internal status of that name, the one its lowercase form gets,
    and never PENDING. *)
Theorem status_matching_ignores_case :
  forall data s r,
    field data status_path = JStr s ->
    In r recognised ->
    caseless s r = true ->
    payload_status data = Ok (status_of r)
    /\ status_of (lower s) = status_of (lower r)
    /\ status_of r <> PENDING.
Proof.
  intros data s r Hfield Hr Hc.
  pose proof (lower_caseless s r Hc (recognised_lowercase r Hr)) as Hs.
  rewrite (payload_status_str data s Hfield), Hs.
  split; [ reflexivity | ]. split.
  - destruct Hr as [<- | [<- | [<- | [<- | []]]]]; reflexivity.
  - destruct Hr as [<- | [<- | [<- | [<- | []]]]]; discriminate.
Qed.

Lemma status_matching_ignores_case_witness :
  payload_status (tree_with_status "Marked-For-REVIEW") = Ok MARKED_FOR_REVIEW
  /\ status_of (lower "Marked-For-REVIEW") = status_of (lower "marked-for-review")
  /\ status_of "marked-for-review" <> PENDING.
Proof.
  exact (status_matching_ignores_case (tree_with_status "Marked-For-REVIEW")
           "Marked-For-REVIEW" "marked-for-review" eq_refl
           (or_intror (or_intror (or_intror (or_introl eq_refl)))) eq_refl).
Defined.

(** ** C3 *)

(** What does hold: a status that is a string is matched exactly against
    the four names after lowercasing, and anything else is PENDING. *)
Lemma status_of_exact : forall p,
  (status_of p = APPROVED <-> p = "approved")
  /\ (status_of p = DECLINED <-> p = "declined")
  /\ (status_of p = FAILED <-> p = "failed")
  /\ (status_of p = MARKED_FOR_REVIEW <-> p = "marked-for-review")
  /\ (status_of p = PENDING <-> ~ In p recognised).
Proof.
  intros p. unfold status_of, recognised.
  destruct (String.eqb_spec p "approved") as [-> | H1].
  { repeat split; intros H; try discriminate H; try reflexivity.
    exfalso. apply H. left. reflexivity. }
  destruct (String.eqb_spec p "declined") as [-> | H2].
  { repeat split; intros H; try discriminate H; try reflexivity.
    exfalso. apply H. right. left. reflexivity. }
  destruct (String.eqb_spec p "failed") as [-> | H3].
  { repeat split; intros H; try discriminate H; try reflexivity.
    exfalso. apply H. right. right. left. reflexivity. }
  destruct (String.eqb_spec p "marked-for-review") as [-> | H4].
  { repeat split; intros H; try discriminate H; try reflexivity.
    exfalso. apply H. right. right. right. left. reflexivity. }
  repeat split; intros H; try discriminate H; try congruence.
  intros [E | [E | [E | [E | []]]]]; congruence.
Qed.

(** A status that is not a string (absent, null, a number, ...) makes
    [.lower()] raise: the delivery fails and nothing is written. *)
Lemma post_status_not_a_string : forall settings loads faults request data st,
  _validate_signature settings request = Ok true ->
  loads (body request) = Ok data ->
  (forall p, field data status_path <> JStr p) ->
  post settings loads faults request st = (Failed, add_error AttributeError st).
Proof.
  intros settings loads faults request data st Hv Hl Hns.
  assert (Hp : _process_payload loads faults request st = (Raise AttributeError, st)).
  { unfold _process_payload. unfold bind at 1. unfold lift at 1. rewrite Hl.
    unfold bind at 1. unfold lift at 1.
    unfold payload_status. fold status_path. rewrite _get_nested_attr_field.
    destruct (field data status_path) as [ | | | | p | | ]; try reflexivity.
    contradiction (Hns p). reflexivity. }
  rewrite (post_authenticated _ _ _ _ _ _ _ Hv Hp). reflexivity.
Qed.

(** C3 (where the code departs from it). The payload of the specification
    without its status field, delivered with a valid signature while every
    collaborator answers: [.lower()] is called on [None], the response is
    500 and no record is written, where the claim has PENDING and a
    successful delivery. *)
Theorem absent_status_is_an_error :
  post test_settings json_loads no_faults
    (signed test_settings "1700000000" payload_without_status) empty_state
  = (Failed,
     {| user_verifications := [];
        notifications := [];
        sent_notifications := [];
        tracked_accounts := [];
        risk_scores := [];
        error_log := [AttributeError] |}).
Proof. vm_compute. reflexivity. Qed.

(** ** C2 *)

(** C2 (where the code departs from it). A signature header without an "="
    makes [value.split("=")[1]] raise [IndexError] inside
    [_validate_signature]; the catch-all of [post] turns it into a 500,
    where the claim has 401.  Nothing else is touched. *)
Theorem malformed_header_is_500 :
  forall settings loads faults b st,
    post settings loads faults {| Persona_Signature := Some "abc"; body := b |} st
    = ({| message := "Failed to process webhook"; status_code := 500 |},
       add_error IndexError st).
Proof.
  intros settings loads faults b st.
  apply post_validation_raises; reflexivity.
Qed.

(** Other headers that are not of the form [t=...,v1=...] fail alike. *)
Example one_field_header_is_500 :
  forall settings loads faults b st,
    fst (post settings loads faults {| Persona_Signature := Some "v1=00"; body := b |} st)
    = Failed.
Proof.
  intros. rewrite (post_validation_raises _ _ _ _ _
                     (ValueError "not enough values to unpack"));
    reflexivity.
Qed.

(** The failures the view does recognise answer 401 and touch nothing. *)
Lemma post_unauthorized_untouched : forall settings loads faults request st,
  fst (post settings loads faults request st) = Unauthorized ->
  snd (post settings loads faults request st) = st.
Proof.
  intros settings loads faults request st H.
  destruct (falsy (Persona_Signature request)) eqn:Hh.
  - rewrite post_no_header by exact Hh. reflexivity.
  - destruct (_validate_signature settings request) as [ [ | ] | e ] eqn:Hv.
    + destruct (_process_payload loads faults request st) as [res st'] eqn:Hp.
      rewrite (post_authenticated _ _ _ _ _ _ _ Hv Hp) in H.
      destruct res; discriminate H.
    + rewrite post_rejected by exact Hv. reflexivity.
    + rewrite (post_validation_raises _ _ _ _ _ _ Hh Hv) in H. discriminate H.
Qed.

(** ** C7 *)

Lemma be_bytes_length : forall n x, length (SHA256.be_bytes n x) = n.
Proof. induction n; intros x; simpl; [ reflexivity | rewrite IHn; reflexivity ]. Qed.

Lemma be_bytes_octets : forall n x, Forall (fun b => (b < 256)%N) (SHA256.be_bytes n x).
Proof.
  induction n; intros x; simpl; constructor.
  - apply N.mod_lt. discriminate.
  - apply IHn.
Qed.

Lemma digest_length : forall msg, length (SHA256.digest msg) = 32.
Proof.
  intros msg. unfold SHA256.digest, SHA256.state_bytes.
  destruct (fold_left SHA256.compress _ _) as [[[[[[[a b] c] d] e] f] g] h].
  rewrite !length_app, !be_bytes_length. reflexivity.
Qed.

Lemma digest_octets : forall msg, Forall (fun b => (b < 256)%N) (SHA256.digest msg).
Proof.
  intros msg. unfold SHA256.digest, SHA256.state_bytes.
  destruct (fold_left SHA256.compress _ _) as [[[[[[[a b] c] d] e] f] g] h].
  repeat (apply Forall_app; split); apply be_bytes_octets.
Qed.

Lemma xor_octets_repeat : forall key x n,
  length key = n -> xor_octets key (repeat x n) = translate x key.
Proof.
  induction key as [ | b key IH ]; intros x n Hn; subst n; [ reflexivity | ].
  unfold xor_octets, translate in *. simpl. f_equal. apply IH. reflexivity.
Qed.

Lemma K0_length : forall key, length (K0 key) = 64.
Proof.
  intros key. unfold K0. destruct (Nat.leb_spec (length key) 64).
  - rewrite length_app, repeat_length. lia.
  - rewrite length_app, repeat_length, digest_length. reflexivity.
Qed.

(** CPython's computation is the formula of the RFC. *)
Lemma hmac_sha256_rfc2104 : forall key msg, hmac_sha256 key msg = HMAC_SHA256 key msg.
Proof.
  intros key msg. unfold HMAC_SHA256, ipad, opad.
  rewrite !xor_octets_repeat by apply K0_length.
  unfold hmac_sha256, K0, blocksize.
  destruct (Nat.leb_spec (length key) 64) as [Hle | Hgt].
  - apply Nat.ltb_ge in Hle. rewrite Hle. reflexivity.
  - apply Nat.ltb_lt in Hgt. rewrite Hgt, digest_length. reflexivity.
Qed.

Lemma small_cases : forall (P : N -> Prop) n,
  (n < 16)%N ->
  P 0%N -> P 1%N -> P 2%N -> P 3%N -> P 4%N -> P 5%N -> P 6%N -> P 7%N ->
  P 8%N -> P 9%N -> P 10%N -> P 11%N -> P 12%N -> P 13%N -> P 14%N -> P 15%N ->
  P n.
Proof.
  intros P n Hn.
  assert (H : In n (map N.of_nat (seq 0 16))).
  { replace n with (N.of_nat (N.to_nat n)) by apply N2Nat.id.
    apply in_map, in_seq. lia. }
  simpl in H. intuition (subst; assumption).
Qed.

Lemma hex_digit_value : forall n, (n < 16)%N -> lower_hex_value (hex_digit n) = Some n.
Proof.
  intros n Hn.
  apply (small_cases (fun k => lower_hex_value (hex_digit k) = Some k) n Hn);
    reflexivity.
Qed.

Lemma from_hex_hexdigest : forall l,
  Forall (fun b => (b < 256)%N) l -> from_hex (hexdigest l) = Some l.
Proof.
  intros l H. induction H as [ | b l Hb Hl IH ]; [ reflexivity | ].
  cbn [hexdigest from_hex].
  rewrite !hex_digit_value, IH.
  - f_equal. f_equal. rewrite N.mul_comm. symmetry. apply N.div_mod. discriminate.
  - apply N.mod_lt. discriminate.
  - apply N.Div0.div_lt_upper_bound. lia.
Qed.

Lemma hexdigest_length : forall l, String.length (hexdigest l) = 2 * length l.
Proof. induction l; simpl; [ reflexivity | rewrite IHl; lia ]. Qed.

(** Every character [hexdigest] writes is one of [0-9a-f]. *)
Lemma hex_digit_lower : forall n, lower_hex_value (hex_digit n) <> None.
Proof.
  intros n. destruct (N.lt_ge_cases n 16) as [Hn | Hn].
  - rewrite hex_digit_value by exact Hn. discriminate.
  - unfold hex_digit.
    assert (H : String.get (N.to_nat n) "0123456789abcdef" = None).
    { remember (N.to_nat n) as k eqn:Hk.
      assert (Hge : 16 <= k) by lia.
      do 16 (destruct k as [ | k ]; [ lia | ]). reflexivity. }
    rewrite H. discriminate.
Qed.

Lemma hexdigest_lower_hex : forall l,
  Forall (fun c => lower_hex_value c <> None) (list_ascii_of_string (hexdigest l)).
Proof.
  induction l; simpl; repeat constructor; try apply hex_digit_lower. exact IHl.
Qed.

Lemma lower_hex_ascii : forall c, lower_hex_value c <> None -> (N_of_ascii c < 128)%N.
Proof.
  intros c H. unfold lower_hex_value, between in H.
  destruct ((48 <=? N_of_ascii c) && (N_of_ascii c <=? 57))%N eqn:E1.
  - apply Bool.andb_true_iff in E1 as [_ E]. apply N.leb_le in E. lia.
  - destruct ((97 <=? N_of_ascii c) && (N_of_ascii c <=? 102))%N eqn:E2.
    + apply Bool.andb_true_iff in E2 as [_ E]. apply N.leb_le in E. lia.
    + contradiction H. reflexivity.
Qed.

Lemma hexdigest_ascii : forall l, is_ascii (hexdigest l) = true.
Proof.
  intros l. unfold is_ascii, octets. apply forallb_forall. intros b Hb.
  apply in_map_iff in Hb as (c & <- & Hc).
  apply N.ltb_lt, lower_hex_ascii.
  pose proof (hexdigest_lower_hex l) as H. rewrite Forall_forall in H.
  apply H. exact Hc.
Qed.

Lemma create_digest_length : forall key t text,
  String.length (create_digest key t text) = 64.
Proof.
  intros. unfold create_digest, hmac_sha256.
  rewrite hexdigest_length, digest_length. reflexivity.
Qed.

(** C7. Digest computation: [create_digest(secret, t, body)] is the
    lowercase hexadecimal encoding of HMAC-SHA256 keyed with the secret over
    [t + "." + body]: 64 characters of [0-9a-f] that decode to the 32 octets
    of the MAC.  It is a function of its three arguments, and so is the
    verification outcome a function of the secret, the header and the
    body.  The hash and the MAC of the statement are the published ones:
    SHA-256 gives the digests of FIPS 180-4 for the empty, the one-block
    and the two-block message, HMAC-SHA256 gives the MACs of RFC 4231 (test
    cases 1, 2 and 6, the last with a key longer than a block), and
    [create_digest] gives the digests CPython's [hmac] gives, for a short
    secret, for the secret and payload of the end-to-end scenario, and for
    a secret longer than a block with a body outside ASCII. *)
Theorem create_digest_is_hex_hmac_sha256 :
  (forall key t text,
     let mac := HMAC_SHA256 (octets key) (octets (t ++ "." ++ text)) in
     create_digest key t text = hexdigest mac
     /\ from_hex (create_digest key t text) = Some mac
     /\ length mac = 32
     /\ String.length (create_digest key t text) = 64
     /\ Forall (fun c => lower_hex_value c <> None)
          (list_ascii_of_string (create_digest key t text))
     /\ (forall key' t' text',
           key' = key -> t' = t -> text' = text ->
           create_digest key' t' text' = create_digest key t text)
     /\ (forall settings settings' request request',
           PERSONA_WEBHOOK_SECRET settings' = PERSONA_WEBHOOK_SECRET settings ->
           Persona_Signature request' = Persona_Signature request ->
           body request' = body request ->
           _validate_signature settings' request' = _validate_signature settings request))
  /\ hexdigest (SHA256.digest (octets ""))
     = "e3b0c44298fc1c149afbf4c8996fb92427ae41e4649b934ca495991b7852b855"
  /\ hexdigest (SHA256.digest (octets "abc"))
     = "ba7816bf8f01cfea414140de5dae2223b00361a396177a9cb410ff61f20015ad"
  /\ hexdigest (SHA256.digest
                  (octets "abcdbcdecdefdefgefghfghighijhijkijkljklmklmnlmnomnopnopq"))
     = "248d6a61d20638b8e5c026930c3e6039a33ce45964ff2167f6ecedd419db06c1"
  /\ hexdigest (HMAC_SHA256 (repeat 11%N 20) (octets "Hi There"))
     = "b0344c61d8db38535ca8afceaf0bf12b881dc200c9833da726e9376c2e32cff7"
  /\ hexdigest (HMAC_SHA256 (octets "Jefe") (octets "what do ya want for nothing?"))
     = "5bdcc146bf60754e6a042426089575c75a003f089d2739839dec58b964ec3843"
  /\ hexdigest (HMAC_SHA256 (repeat 170%N 131)
                  (octets "Test Using Larger Than Block-Size Key - Hash Key First"))
     = "60e431591ee0b67f0d8a26aacbf5b77f8e0bc6213728c5140546040f0ee37f54"
  /\ create_digest "whsec" "1700000000" "{}"
     = "7d44587dddbaf4c7f70fef20f48cd594834ffea1641e3ac227b84408298738af"
  /\ create_digest "whsec_test" "1700000000" payload_text
     = "8fc2ce6dcec5033eeaf35ff88434b2b010fbcc600ba3218858e8fb264a919d77"
  /\ create_digest (string_of_list_ascii (repeat "k"%char 65)) "1700000000"
       (of_octets [195%N; 169%N])
     = "193ef41299242c700dc78bdbdef4fc969204f574a777ceea2af48a1ca1b32d88".
Proof.
  split.
  - intros key t text mac.
    assert (E : create_digest key t text = hexdigest mac)
      by (unfold create_digest; rewrite hmac_sha256_rfc2104; reflexivity).
    assert (L : length mac = 32) by apply digest_length.
    rewrite E. repeat split.
    + apply from_hex_hexdigest, digest_octets.
    + exact L.
    + rewrite hexdigest_length, L. reflexivity.
    + apply hexdigest_lower_hex.
    + intros key' t' text' -> -> ->. exact E.
    + intros settings settings' request request' Hs Hh Hb.
      unfold _validate_signature. rewrite Hs, Hh, Hb. reflexivity.
  - repeat (split; [ vm_compute; reflexivity | ]). vm_compute. reflexivity.
Qed.

(** The digest CPython gives for the secret [whsec], the timestamp
    [1700000000] and the body [{}] is the hexadecimal encoding of the MAC
    of the statement, and decodes to it. *)
Lemma create_digest_witness :
  hexdigest (HMAC_SHA256 (octets "whsec") (octets "1700000000.{}"))
  = "7d44587dddbaf4c7f70fef20f48cd594834ffea1641e3ac227b84408298738af"
  /\ from_hex "7d44587dddbaf4c7f70fef20f48cd594834ffea1641e3ac227b84408298738af"
     = Some (HMAC_SHA256 (octets "whsec") (octets "1700000000.{}")).
Proof.
  pose proof (proj1 create_digest_is_hex_hmac_sha256 "whsec" "1700000000" "{}")
    as (E & F & _).
  assert (V : create_digest "whsec" "1700000000" "{}"
              = "7d44587dddbaf4c7f70fef20f48cd594834ffea1641e3ac227b84408298738af")
    by (vm_compute; reflexivity).
  split.
  - exact (eq_trans (eq_sym E) V).
  - exact (eq_trans (f_equal from_hex (eq_sym V)) F).
Defined.

(** The model of SHA-256 and HMAC against published values: FIPS 180-4
    constants, the NIST one- and two-block messages, RFC 4231 test case 2,
    and a digest computed with CPython's [hmac]. *)
Example sha256_constants :
  (nth 0 SHA256.K 0 = 1116352408 /\ nth 63 SHA256.K 0 = 3329325298
   /\ length SHA256.K = 64%nat
   /\ nth 0 SHA256.H0 0 = 1779033703 /\ nth 7 SHA256.H0 0 = 1541459225)%N.
Proof. repeat split. Qed.

Example sha256_abc :
  hexdigest (SHA256.digest (octets "abc"))
  = "ba7816bf8f01cfea414140de5dae2223b00361a396177a9cb410ff61f20015ad".
Proof. vm_compute. reflexivity. Qed.

Example sha256_two_blocks :
  hexdigest (SHA256.digest
               (octets "abcdbcdecdefdefgefghfghighijhijkijkljklmklmnlmnomnopnopq"))
  = "248d6a61d20638b8e5c026930c3e6039a33ce45964ff2167f6ecedd419db06c1".
Proof. vm_compute. reflexivity. Qed.

Example hmac_rfc4231_case2 :
  hexdigest (hmac_sha256 (octets "Jefe") (octets "what do ya want for nothing?"))
  = "5bdcc146bf60754e6a042426089575c75a003f089d2739839dec58b964ec3843".
Proof. vm_compute. reflexivity. Qed.

Example create_digest_cpython :
  create_digest "whsec" "1700000000" "{}"
  = "7d44587dddbaf4c7f70fef20f48cd594834ffea1641e3ac227b84408298738af".
Proof. vm_compute. reflexivity. Qed.

(** ** C4 *)

(** With a header that splits into two fields, an ASCII digest and a body
    that decodes, the outcome of the check is the comparison of the digest
    with the one computed over the body as received. *)
Lemma validate_signature_compares : forall settings header t v1 b,
  second_fields (split "," header) = Ok [t; v1] ->
  is_ascii v1 = true ->
  utf8_valid (octets b) = true ->
  _validate_signature settings {| Persona_Signature := Some header; body := b |}
  = Ok (String.eqb v1 (create_digest (PERSONA_WEBHOOK_SECRET settings) t b)).
Proof.
  intros settings header t v1 b Hfields Hascii Hutf8.
  unfold _validate_signature. cbn [Persona_Signature body].
  rewrite Hfields. unfold rbind at 1. unfold decode_utf8. rewrite Hutf8.
  unfold rbind, compare_digest. rewrite Hascii.
  unfold create_digest. rewrite hexdigest_ascii. reflexivity.
Qed.

(** A payload the decoder rejects fails the delivery before anything is
    written. *)
Lemma post_malformed_json : forall settings loads faults request st,
  _validate_signature settings request = Ok true ->
  loads (body request) = Raise JSONDecodeError ->
  post settings loads faults request st
  = (Failed, add_error (ValueError "Invalid JSON payload") st).
Proof.
  intros settings loads faults request st Hv Hl.
  assert (Hp : _process_payload loads faults request st
               = (Raise (ValueError "Invalid JSON payload"), st)).
  { unfold _process_payload. unfold bind at 1. unfold lift at 1. rewrite Hl.
    reflexivity. }
  rewrite (post_authenticated _ _ _ _ _ _ _ Hv Hp). reflexivity.
Qed.

(** C4 (counterexample). A body that is not UTF-8 under a well-formed header
    whose digest does not match: decoding the body for the check raises, and
    the response is 500 where the claim has 401. *)
Lemma undecodable_body_is_500 :
  String.eqb "00"
    (create_digest (PERSONA_WEBHOOK_SECRET test_settings) "1700000000"
       (body undecodable_request)) = false
  /\ post test_settings json_loads no_faults undecodable_request empty_state
     = ({| message := "Failed to process webhook"; status_code := 500 |},
        add_error UnicodeDecodeError empty_state).
Proof.
  split.
  - apply String.eqb_neq. intros E. apply (f_equal String.length) in E.
    rewrite create_digest_length in E. discriminate E.
  - apply post_validation_raises; reflexivity.
Qed.

(** C4 (as amended). For a body that is UTF-8 text, malformed JSON included,
    under a header the view splits into a timestamp and an ASCII digest:
    the signature is checked against the body as received, before and
    whatever the decoder makes of it; a digest that does not match is
    answered 401 and nothing is touched; a digest that matches over a body
    the decoder rejects is answered 500 and no record is written. *)
Theorem signature_checked_before_parsing :
  forall settings loads faults header t v1 b st,
    second_fields (split "," header) = Ok [t; v1] ->
    is_ascii v1 = true ->
    utf8_valid (octets b) = true ->
    let request := {| Persona_Signature := Some header; body := b |} in
    let digest := create_digest (PERSONA_WEBHOOK_SECRET settings) t b in
    _validate_signature settings request = Ok (String.eqb v1 digest)
    /\ (v1 <> digest ->
        post settings loads faults request st = (Unauthorized, st))
    /\ (v1 = digest ->
        loads b = Raise JSONDecodeError ->
        post settings loads faults request st
        = ({| message := "Failed to process webhook"; status_code := 500 |},
           add_error (ValueError "Invalid JSON payload") st)).
Proof.
  intros settings loads faults header t v1 b st Hfields Hascii Hutf8 request digest.
  pose proof (validate_signature_compares settings header t v1 b Hfields Hascii Hutf8)
    as Hv.
  fold request digest in Hv. split; [ exact Hv | ]. split.
  - intros Hne. apply String.eqb_neq in Hne. rewrite Hne in Hv.
    apply post_rejected. exact Hv.
  - intros Heq Hl. apply String.eqb_eq in Heq. rewrite Heq in Hv.
    apply post_malformed_json; assumption.
Qed.

Lemma signature_checked_before_parsing_witness :
  let digest := create_digest "whsec_test" "1700000000" not_json in
  _validate_signature test_settings unsigned_not_json = Ok (String.eqb "00" digest)
  /\ ("00" <> digest ->
      post test_settings json_loads no_faults unsigned_not_json empty_state
      = (Unauthorized, empty_state))
  /\ ("00" = digest ->
      json_loads not_json = Raise JSONDecodeError ->
      post test_settings json_loads no_faults unsigned_not_json empty_state
      = ({| message := "Failed to process webhook"; status_code := 500 |},
         add_error (ValueError "Invalid JSON payload") empty_state)).
Proof.
  exact (signature_checked_before_parsing test_settings json_loads no_faults
           "t=1700000000,v1=00" "1700000000" "00" not_json empty_state
           eq_refl eq_refl eq_refl).
Defined.

(** Both paths of the specification's last scenario, evaluated. *)
Example malformed_json_unsigned_is_401 :
  post test_settings json_loads no_faults unsigned_not_json empty_state
  = (Unauthorized, empty_state).
Proof. vm_compute. reflexivity. Qed.

Example malformed_json_signed_is_500 :
  post test_settings json_loads no_faults signed_not_json empty_state
  = (Failed, add_error (ValueError "Invalid JSON payload") empty_state).
Proof. vm_compute. reflexivity. Qed.

(** ** C10 *)

(** A [try] whose handler only logs returns normally. *)
Lemma try_logging_returns : forall (m : Stateful Db unit) db,
  fst (try_except m logger_error db) = Ok tt.
Proof.
  intros m db. unfold try_except. destruct (m db) as [[[] | e] db']; reflexivity.
Qed.

(** What a receiver enqueues or defers is what its body did. *)
Lemma try_logging_queue : forall (m : Stateful Db unit) db,
  broker (snd (try_except m logger_error db)) = broker (snd (m db))
  /\ run_on_commit (snd (try_except m logger_error db)) = run_on_commit (snd (m db)).
Proof.
  intros m db. unfold try_except. destruct (m db) as [[[] | e] db'];
    split; reflexivity.
Qed.

(** With no matching feed entry nothing is enqueued or deferred. *)
Lemma refresh_all_nothing : forall faults q db,
  rows q db = [] -> snd (refresh_all faults q db) = db.
Proof.
  intros faults q db Hrows. unfold refresh_all, exists_, external, bind.
  destruct (faults Exists); [ reflexivity | ].
  cbn [ret raise]. rewrite Hrows. reflexivity.
Qed.

Lemma purchase_nothing : forall faults instance db,
  rows (purchase_entries instance) db = [] ->
  snd ((external faults InstanceContentType ;;
        refresh_all faults (purchase_entries instance))%M db) = db.
Proof.
  intros faults instance db Hrows. unfold bind, external.
  destruct (faults InstanceContentType); [ reflexivity | ].
  cbn [ret]. pose proof (refresh_all_nothing faults _ db Hrows) as H.
  destruct (refresh_all faults (purchase_entries instance) db) as [[u | e] db'];
    exact H.
Qed.

Lemma grant_application_nothing : forall faults instance db,
  (forall grant document,
     GrantApplication.grant instance = Some grant ->
     Grant.unified_document grant = Some document ->
     rows (post_entries document (researchhubpost_type db)) db = []) ->
  snd (grant_application_body faults instance db) = db.
Proof.
  intros faults instance db Hrows. unfold grant_application_body, bind, external.
  destruct (faults InstanceGrant); [ reflexivity | ]. cbn [ret].
  destruct (GrantApplication.grant instance) as [ grant | ] eqn:Hg; [ | reflexivity ].
  destruct (faults GrantUnifiedDocument); [ reflexivity | ]. cbn [ret].
  destruct (Grant.unified_document grant) as [ document | ] eqn:Hd; [ | reflexivity ].
  destruct (faults GetForModel); [ reflexivity | ]. cbn [ret].
  pose proof (refresh_all_nothing faults _ db (Hrows grant document eq_refl Hd)) as H.
  destruct (refresh_all faults (post_entries document (researchhubpost_type db)) db)
    as [[u | e] db']; exact H.
Qed.

Lemma send_one : forall (receiver : Stateful Db unit) db,
  fst (receiver db) = Ok tt -> fst (send [receiver] db) = Ok tt.
Proof.
  intros receiver db H. cbn [send]. unfold bind.
  destruct (receiver db) as [[[] | e] db']; [ reflexivity | discriminate H ].
Qed.

(** X28. The feed receivers never propagate an exception: whatever the
    instance, the database and the behaviour of the ORM, the transaction
    and the task queue, each of the three receivers returns normally, and
    so does the signal that [save] or [delete] sends; when no feed entry
    matches, no task is enqueued and none is deferred to the commit. *)
Theorem feed_receivers_never_raise :
  forall faults db,
    (forall instance created,
       fst (refresh_feed_entries_on_purchase faults instance created db) = Ok tt
       /\ fst (post_save_Purchase faults instance created db) = Ok tt)
    /\ (forall instance created,
          fst (refresh_feed_entries_on_grant_application faults instance created db)
          = Ok tt
          /\ fst (post_save_GrantApplication faults instance created db) = Ok tt)
    /\ (forall instance,
          fst (refresh_feed_entries_on_grant_application_delete faults instance db)
          = Ok tt
          /\ fst (post_delete_GrantApplication faults instance db) = Ok tt)
    /\ (forall instance created,
          rows (purchase_entries instance) db = [] ->
          let db' := snd (refresh_feed_entries_on_purchase faults instance created db) in
          broker db' = broker db /\ run_on_commit db' = run_on_commit db)
    /\ (forall instance created,
          (forall grant document,
             GrantApplication.grant instance = Some grant ->
             Grant.unified_document grant = Some document ->
             rows (post_entries document (researchhubpost_type db)) db = []) ->
          let db1 :=
            snd (refresh_feed_entries_on_grant_application faults instance created db) in
          let db2 :=
            snd (refresh_feed_entries_on_grant_application_delete faults instance db) in
          broker db1 = broker db /\ run_on_commit db1 = run_on_commit db
          /\ broker db2 = broker db /\ run_on_commit db2 = run_on_commit db).
Proof.
  intros faults db.
  split; [ | split; [ | split; [ | split ] ] ].
  - intros instance created. split.
    + apply try_logging_returns.
    + apply send_one, try_logging_returns.
  - intros instance created. split.
    + apply try_logging_returns.
    + apply send_one, try_logging_returns.
  - intros instance. split.
    + apply try_logging_returns.
    + apply send_one, try_logging_returns.
  - intros instance created Hrows. cbv zeta.
    unfold refresh_feed_entries_on_purchase.
    destruct (try_logging_queue
                (external faults InstanceContentType ;;
                 refresh_all faults (purchase_entries instance))%M db) as [Hb Hr].
    rewrite Hb, Hr, (purchase_nothing faults instance db Hrows).
    split; reflexivity.
  - intros instance created Hrows. cbv zeta.
    unfold refresh_feed_entries_on_grant_application,
      refresh_feed_entries_on_grant_application_delete.
    destruct (try_logging_queue (grant_application_body faults instance) db) as [Hb Hr].
    rewrite Hb, Hr, (grant_application_nothing faults instance db Hrows).
    repeat split; reflexivity.
Qed.

Lemma feed_receivers_never_raise_witness :
  fst (refresh_feed_entries_on_purchase broker_down_for_11 purchase_on_post true
         (test_db Autocommit)) = Ok tt
  /\ fst (post_save_Purchase broker_down_for_11 purchase_on_post true
            (test_db Autocommit)) = Ok tt.
Proof.
  exact (proj1 (feed_receivers_never_raise broker_down_for_11 (test_db Autocommit))
           purchase_on_post true).
Defined.

(** The receivers at work.  Under autocommit the tasks run at once and the
    failure of the queue for entry 11 is logged after entry 10 went out;
    inside an atomic block both tasks wait for the commit; with nothing in
    the feed for the purchase nothing happens. *)
Example purchase_under_autocommit :
  refresh_feed_entries_on_purchase broker_down_for_11 purchase_on_post true
    (test_db Autocommit)
  = (Ok tt,
     {| feed_entries := feed_entries (test_db Autocommit);
        researchhubpost_type := 3;
        transaction := Autocommit;
        run_on_commit := [];
        broker := [ {| args := 10; priority := 1 |} ];
        logged := [External (ApplyAsync 11)] |}).
Proof. reflexivity. Qed.

Example application_in_atomic_block :
  refresh_feed_entries_on_grant_application no_faults application_on_post true
    (test_db Atomic)
  = (Ok tt,
     {| feed_entries := feed_entries (test_db Atomic);
        researchhubpost_type := 3;
        transaction := Atomic;
        run_on_commit :=
          [ [ {| args := 10; priority := 1 |}; {| args := 11; priority := 1 |} ] ];
        broker := [];
        logged := [] |}).
Proof. reflexivity. Qed.

Example purchase_outside_the_feed :
  refresh_feed_entries_on_purchase no_faults purchase_elsewhere true
    (test_db Autocommit)
  = (Ok tt, test_db Autocommit).
Proof. reflexivity. Qed.

(** What the receivers deferred runs at the commit, outside their [try]: a
    queue that fails then is the committer's exception, after the row was
    saved. *)
Example deferred_tasks_run_at_commit :
  let db := snd (refresh_feed_entries_on_grant_application broker_down_for_11
                   application_on_post true (test_db Atomic)) in
  fst (commit broker_down_for_11 db) = Raise (External (ApplyAsync 11))
  /\ broker (snd (commit broker_down_for_11 db)) = [ {| args := 10; priority := 1 |} ]
  /\ fst (commit no_faults db) = Ok tt
  /\ broker (snd (commit no_faults db))
     = [ {| args := 10; priority := 1 |}; {| args := 11; priority := 1 |} ].
Proof. repeat split. Qed.

(** C10. The feed-refresh logic can fail a delete or a save.  A receiver
    reached inside an atomic block (where [Model.delete] always sends
    [post_delete]) only registers its hook with [transaction.on_commit]; the
    hook runs at the commit, outside the receiver's [try].  With the queue
    refusing the task of feed entry 11: the signal returns normally with
    both tasks waiting in one hook and nothing logged, and the commit then
    raises the queue's exception to whoever deletes or saves, after the
    task of entry 10 went out and without a log entry.  Under autocommit
    the same failure stays inside the receiver, which logs it. *)
Theorem commit_hook_failure_escapes :
  let faults := broker_down_for_11 in
  let tasks := [ {| args := 10; priority := 1 |}; {| args := 11; priority := 1 |} ] in
  let deleted := post_delete_GrantApplication faults application_on_post (test_db Atomic) in
  let applied :=
    post_save_GrantApplication faults application_on_post true (test_db Atomic) in
  let purchased := post_save_Purchase faults purchase_on_post true (test_db Atomic) in
  deleted = (Ok tt, defer tasks (test_db Atomic))
  /\ applied = (Ok tt, defer tasks (test_db Atomic))
  /\ purchased = (Ok tt, defer tasks (test_db Atomic))
  /\ fst (commit faults (snd deleted)) = Raise (External (ApplyAsync 11))
  /\ fst (commit faults (snd applied)) = Raise (External (ApplyAsync 11))
  /\ fst (commit faults (snd purchased)) = Raise (External (ApplyAsync 11))
  /\ broker (snd (commit faults (snd deleted))) = [ {| args := 10; priority := 1 |} ]
  /\ logged (snd (commit faults (snd deleted))) = []
  /\ run_on_commit (snd (commit faults (snd deleted))) = []
  /\ post_save_Purchase faults purchase_on_post true (test_db Autocommit)
     = (Ok tt,
        with_logged (External (ApplyAsync 11))
          (enqueue_all [ {| args := 10; priority := 1 |} ] (test_db Autocommit))).
Proof. cbv zeta. repeat split. Qed.

(** * Further properties *)

(** ** Splitting *)

Lemma append_assoc : forall a b c : string, (a ++ b) ++ c = a ++ (b ++ c).
Proof.
  intros a b c. induction a as [ | x a IH ]; [ reflexivity | ].
  cbn [append]. rewrite IH. reflexivity.
Qed.

Lemma occurs_app : forall c a b, occurs c (a ++ b) = occurs c a || occurs c b.
Proof.
  intros c a b. induction a as [ | x a IH ]; [ reflexivity | ].
  cbn [append occurs]. rewrite IH. apply Bool.orb_assoc.
Qed.

Lemma split_none : forall sep s, occurs sep s = false -> split sep s = [s].
Proof.
  intros sep s. induction s as [ | c s IH ]; intros H; [ reflexivity | ].
  cbn [occurs] in H. apply Bool.orb_false_iff in H as [Hc Hs].
  cbn [split]. rewrite Hc, (IH Hs). reflexivity.
Qed.

Lemma split_app : forall sep a b,
  occurs sep a = false -> split sep (a ++ String sep b) = a :: split sep b.
Proof.
  intros sep a b. induction a as [ | c a IH ]; intros H.
  - cbn [append split]. rewrite Ascii.eqb_refl. reflexivity.
  - cbn [occurs] in H. apply Bool.orb_false_iff in H as [Hc Ha].
    cbn [append split]. rewrite Hc, (IH Ha). reflexivity.
Qed.

Lemma split_two : forall sep s,
  occurs sep s = true -> exists a b rest, split sep s = a :: b :: rest.
Proof.
  intros sep s. induction s as [ | c s IH ]; intros H; [ discriminate H | ].
  cbn [occurs] in H. cbn [split].
  destruct (Ascii.eqb c sep) eqn:E.
  - destruct (split sep s) as [ | h tl ] eqn:Es.
    + destruct s; cbn [split] in Es; [ discriminate Es | ].
      destruct (Ascii.eqb a sep); [ discriminate Es | ].
      destruct (split sep s); discriminate Es.
    + exists "", h, tl. reflexivity.
  - cbn [orb] in H. destruct (IH H) as (a & b & rest & ->).
    exists (String c a), b, rest. reflexivity.
Qed.

(** ** Signature validation *)

Lemma hex_text_lacks : forall c s,
  lower_hex_value c = None ->
  Forall (fun x => lower_hex_value x <> None) (list_ascii_of_string s) ->
  occurs c s = false.
Proof.
  intros c s Hc. induction s as [ | a s IH ]; intros H; [ reflexivity | ].
  cbn [list_ascii_of_string] in H. inversion H as [ | ? ? Ha Hs ]; subst.
  cbn [occurs]. rewrite (IH Hs), Bool.orb_false_r.
  apply Ascii.eqb_neq. intros ->. contradiction.
Qed.

Lemma create_digest_lacks : forall c key t text,
  lower_hex_value c = None -> occurs c (create_digest key t text) = false.
Proof.
  intros c key t text Hc. apply hex_text_lacks; [ exact Hc | ].
  unfold create_digest. apply hexdigest_lower_hex.
Qed.

Lemma create_digest_ascii : forall key t text, is_ascii (create_digest key t text) = true.
Proof. intros. unfold create_digest. apply hexdigest_ascii. Qed.

(** The fields the view reads from a header of two named parts. *)
Lemma second_fields_of_header : forall n1 t n2 v1,
  occurs "," n1 = false -> occurs "=" n1 = false ->
  occurs "," t = false -> occurs "=" t = false ->
  occurs "," n2 = false -> occurs "=" n2 = false ->
  occurs "," v1 = false -> occurs "=" v1 = false ->
  second_fields (split "," (n1 ++ "=" ++ t ++ "," ++ n2 ++ "=" ++ v1)) = Ok [t; v1].
Proof.
  intros n1 t n2 v1 Hc1 He1 Hct Het Hc2 He2 Hcv Hev.
  replace (n1 ++ "=" ++ t ++ "," ++ n2 ++ "=" ++ v1)
    with ((n1 ++ "=" ++ t) ++ String "," (n2 ++ "=" ++ v1))
    by (rewrite !append_assoc; reflexivity).
  rewrite split_app by (rewrite !occurs_app, Hc1, Hct; reflexivity).
  rewrite split_none by (rewrite !occurs_app, Hc2, Hcv; reflexivity).
  cbn [second_fields].
  change (n1 ++ "=" ++ t) with (n1 ++ String "=" t).
  change (n2 ++ "=" ++ v1) with (n2 ++ String "=" v1).
  rewrite !split_app by assumption.
  rewrite !split_none by assumption.
  reflexivity.
Qed.

(** X1. Signing and verifying round trip: a header of two [name=value] parts
    that carries a timestamp and [create_digest] of the secret, that
    timestamp and the body validates, for every UTF-8 body; the names of
    the two parts are not looked at ("t" and "v1" are the provider's). *)
Theorem signed_header_validates :
  forall settings n1 n2 t b,
    occurs "," n1 = false -> occurs "=" n1 = false ->
    occurs "," t = false -> occurs "=" t = false ->
    occurs "," n2 = false -> occurs "=" n2 = false ->
    utf8_valid (octets b) = true ->
    let digest := create_digest (PERSONA_WEBHOOK_SECRET settings) t b in
    _validate_signature settings
      {| Persona_Signature := Some (n1 ++ "=" ++ t ++ "," ++ n2 ++ "=" ++ digest);
         body := b |}
    = Ok true.
Proof.
  intros settings n1 n2 t b Hc1 He1 Hct Het Hc2 He2 Hutf8 digest.
  rewrite (validate_signature_compares settings _ t digest b).
  - rewrite String.eqb_refl. reflexivity.
  - apply second_fields_of_header; try assumption;
      apply create_digest_lacks; reflexivity.
  - apply create_digest_ascii.
  - exact Hutf8.
Qed.

Lemma signed_header_validates_witness :
  _validate_signature test_settings
    {| Persona_Signature :=
         Some ("t" ++ "=" ++ "1700000000" ++ "," ++ "v1" ++ "="
               ++ create_digest "whsec_test" "1700000000" payload_text);
       body := payload_text |}
  = Ok true.
Proof.
  exact (signed_header_validates test_settings "t" "v1" "1700000000" payload_text
           eq_refl eq_refl eq_refl eq_refl eq_refl eq_refl eq_refl).
Defined.

Lemma validate_signature_true_inv : forall settings request,
  _validate_signature settings request = Ok true ->
  exists header t v1,
    Persona_Signature request = Some header
    /\ second_fields (split "," header) = Ok [t; v1]
    /\ utf8_valid (octets (body request)) = true
    /\ v1 = create_digest (PERSONA_WEBHOOK_SECRET settings) t (body request).
Proof.
  intros settings request H. unfold _validate_signature in H.
  destruct (Persona_Signature request) as [ header | ]; [ | discriminate H ].
  destruct (second_fields (split "," header)) as [ fields | e ] eqn:Hf;
    [ | discriminate H ].
  unfold rbind at 1 in H.
  destruct fields as [ | t [ | v1 [ | x rest ] ] ]; try discriminate H.
  unfold decode_utf8 in H.
  destruct (utf8_valid (octets (body request))) eqn:Hutf8; [ | discriminate H ].
  unfold rbind, compare_digest in H.
  destruct (is_ascii v1 && is_ascii _); [ | discriminate H ].
  injection H as H. apply String.eqb_eq in H.
  exists header, t, v1. repeat split; try reflexivity; assumption.
Qed.

(** X2. No false accept: when the check says yes, the header split into
    exactly two fields, the body decoded as UTF-8, and the second field is,
    character for character, the digest recomputed from the secret, the
    first field and the body. *)
Theorem validated_digest_is_recomputed :
  forall settings request,
    _validate_signature settings request = Ok true ->
    exists header t v1,
      Persona_Signature request = Some header
      /\ second_fields (split "," header) = Ok [t; v1]
      /\ utf8_valid (octets (body request)) = true
      /\ v1 = create_digest (PERSONA_WEBHOOK_SECRET settings) t (body request).
Proof. exact validate_signature_true_inv. Qed.

Lemma validated_digest_is_recomputed_witness :
  exists header t v1,
    Persona_Signature test_request = Some header
    /\ second_fields (split "," header) = Ok [t; v1]
    /\ utf8_valid (octets (body test_request)) = true
    /\ v1 = create_digest (PERSONA_WEBHOOK_SECRET test_settings) t (body test_request).
Proof.
  exact (validated_digest_is_recomputed test_settings test_request test_request_valid).
Defined.

(** ** Headers the view cannot read *)

Lemma second_fields_index_error : forall parts part,
  In part parts ->
  occurs "=" part = false ->
  second_fields parts = Raise IndexError.
Proof.
  intros parts part Hin Hno. induction parts as [ | p parts IH ]; [ contradiction Hin | ].
  cbn [second_fields]. destruct Hin as [-> | Hin].
  - rewrite (split_none _ _ Hno). reflexivity.
  - destruct (nth_error (split "=" p) 1); [ | reflexivity ].
    rewrite (IH Hin). reflexivity.
Qed.

Lemma second_fields_length : forall parts,
  (forall part, In part parts -> occurs "=" part = true) ->
  exists fields, second_fields parts = Ok fields /\ length fields = length parts.
Proof.
  induction parts as [ | p parts IH ]; intros H.
  - exists []. split; reflexivity.
  - cbn [second_fields].
    destruct (split_two "=" p (H p (or_introl eq_refl))) as (a & b & rest & ->).
    cbn [nth_error].
    destruct (IH (fun part Hin => H part (or_intror Hin))) as (fields & -> & Hlen).
    exists (b :: fields). split; [ reflexivity | ]. cbn [length]. rewrite Hlen.
    reflexivity.
Qed.

Lemma falsy_nonempty : forall header, header <> "" -> falsy (Some header) = false.
Proof.
  intros header H. cbn [falsy]. apply String.eqb_neq. exact H.
Qed.

(** X3. A header the view cannot take apart is answered 500, not 401: when
    a comma-separated part of a non-empty header has no "=" the indexing
    raises [IndexError], and when every part has one but there are not
    exactly two parts the unpacking raises [ValueError].  Either way the
    error is logged and nothing else changes. *)
Theorem unreadable_header_is_500 :
  forall settings loads faults header b st,
    header <> "" ->
    (exists part, In part (split "," header) /\ occurs "=" part = false)
    \/ ((forall part, In part (split "," header) -> occurs "=" part = true)
        /\ length (split "," header) <> 2) ->
    exists e,
      (e = IndexError \/ exists msg, e = ValueError msg)
      /\ post settings loads faults {| Persona_Signature := Some header; body := b |} st
         = (Failed, add_error e st).
Proof.
  intros settings loads faults header b st Hne Hbad.
  assert (Hraise : exists e,
            (e = IndexError \/ exists msg, e = ValueError msg)
            /\ _validate_signature settings
                 {| Persona_Signature := Some header; body := b |} = Raise e).
  { unfold _validate_signature. cbn [Persona_Signature].
    destruct Hbad as [(part & Hin & Hno) | [Hall Hlen]].
    - rewrite (second_fields_index_error _ part Hin Hno).
      exists IndexError. split; [ left; reflexivity | reflexivity ].
    - destruct (second_fields_length _ Hall) as (fields & -> & Hf).
      rewrite <- Hf in Hlen. unfold rbind at 1.
      destruct fields as [ | t [ | v1 [ | x rest ] ] ].
      + eexists. split; [ right; eexists; reflexivity | reflexivity ].
      + eexists. split; [ right; eexists; reflexivity | reflexivity ].
      + contradiction Hlen. reflexivity.
      + eexists. split; [ right; eexists; reflexivity | reflexivity ]. }
  destruct Hraise as (e & He & Hv). exists e. split; [ exact He | ].
  apply post_validation_raises; [ apply falsy_nonempty; exact Hne | exact Hv ].
Qed.

Lemma unreadable_header_is_500_witness :
  exists e,
    (e = IndexError \/ exists msg, e = ValueError msg)
    /\ post test_settings json_loads no_faults
         {| Persona_Signature := Some "t=1700000000,v1"; body := payload_text |}
         empty_state
       = (Failed, add_error e empty_state).
Proof.
  refine (unreadable_header_is_500 test_settings json_loads no_faults
            "t=1700000000,v1" payload_text empty_state _ _).
  - discriminate.
  - left. exists "v1". split; [ right; left; reflexivity | reflexivity ].
Defined.

(** X4. With a header of two fields the check can still raise: a body that
    is not UTF-8 raises [UnicodeDecodeError] when it is decoded, and a digest
    field with a character outside ASCII raises [TypeError] in the
    comparison.  Both are answered 500, whatever the digest, and change
    nothing but the log. *)
Theorem undecodable_input_is_500 :
  forall settings loads faults header t v1 b st,
    second_fields (split "," header) = Ok [t; v1] ->
    (utf8_valid (octets b) = false
     -> post settings loads faults {| Persona_Signature := Some header; body := b |} st
        = (Failed, add_error UnicodeDecodeError st))
    /\ (utf8_valid (octets b) = true -> is_ascii v1 = false
        -> post settings loads faults {| Persona_Signature := Some header; body := b |} st
           = (Failed, add_error TypeError st)).
Proof.
  intros settings loads faults header t v1 b st Hf.
  assert (Hne : falsy (Some header) = false).
  { destruct header; [ discriminate Hf | reflexivity ]. }
  split.
  - intros Hutf8. apply post_validation_raises; [ exact Hne | ].
    unfold _validate_signature. cbn [Persona_Signature body]. rewrite Hf.
    unfold rbind at 1. unfold decode_utf8. rewrite Hutf8. reflexivity.
  - intros Hutf8 Hascii. apply post_validation_raises; [ exact Hne | ].
    unfold _validate_signature. cbn [Persona_Signature body]. rewrite Hf.
    unfold rbind at 1. unfold decode_utf8. rewrite Hutf8.
    unfold rbind, compare_digest. rewrite Hascii. reflexivity.
Qed.

Lemma undecodable_input_is_500_witness :
  post test_settings json_loads no_faults
    {| Persona_Signature := Some "t=1700000000,v1=00"; body := of_octets [255%N] |}
    empty_state
  = (Failed, add_error UnicodeDecodeError empty_state)
  /\ post test_settings json_loads no_faults
       {| Persona_Signature := Some ("t=1700000000,v1=" ++ of_octets [195%N; 169%N]);
          body := payload_text |}
       empty_state
     = (Failed, add_error TypeError empty_state).
Proof.
  split.
  - exact (proj1 (undecodable_input_is_500 test_settings json_loads no_faults
                    "t=1700000000,v1=00" "1700000000" "00" (of_octets [255%N])
                    empty_state eq_refl) eq_refl).
  - exact (proj2 (undecodable_input_is_500 test_settings json_loads no_faults
                    ("t=1700000000,v1=" ++ of_octets [195%N; 169%N]) "1700000000"
                    (of_octets [195%N; 169%N]) payload_text empty_state eq_refl)
                 eq_refl eq_refl).
Defined.

(** ** What a delivery writes *)

Lemma external_ok_inv : forall {S} (faults : Faults) c (st : S) u st',
  external faults c st = (Ok u, st') -> faults c = false /\ st' = st.
Proof.
  intros S faults c st u st' H. unfold external in H.
  destruct (faults c); [ discriminate H | ].
  injection H as _ <-. split; reflexivity.
Qed.

Lemma Ok_inj : forall {A} (a b : A), Ok a = Ok b -> a = b.
Proof. intros A a b H. injection H as ->. reflexivity. Qed.

Lemma modify_inv : forall {S} (f : S -> S) (st : S) (res : Result unit) st',
  modify f st = (res, st') -> st' = f st.
Proof. intros S f st res st' H. unfold modify in H. injection H as _ <-. reflexivity. Qed.

(** The dispatch goes through exactly when its six calls answer, and then
    leaves the notification created and sent, the account tracked and
    scored. *)
Lemma dispatch_ok_inv : forall faults request r st u st',
  dispatch faults request r st = (Ok u, st') ->
  (faults GetNotificationUser = false /\ faults CreateNotification = false
   /\ faults SendNotification = false /\ faults GetUser = false
   /\ faults TrackAccount = false /\ faults UpdateUserRiskScore = false)
  /\ st' = add_risk_score {| User.id := user_id r |}
             (add_tracked {| User.id := user_id r |}
                (add_sent (notification_for r)
                   (add_notification (notification_for r) st))).
Proof.
  intros faults request r st u st' H.
  unfold dispatch, _create_notification, get_user, notification_create,
    send_notification, track_account, update_user_risk_score, external, bind,
    modify, ret, raise in H.
  destruct (faults GetNotificationUser); [ discriminate H | ].
  destruct (faults CreateNotification); [ discriminate H | ].
  destruct (faults SendNotification); [ discriminate H | ].
  destruct (faults GetUser); [ discriminate H | ].
  destruct (faults TrackAccount); [ discriminate H | ].
  destruct (faults UpdateUserRiskScore); [ discriminate H | ].
  injection H as _ <-. repeat split.
Qed.

(** Whatever happens in the dispatch, it writes neither the table nor the
    log, and what it adds elsewhere it adds at the end. *)
Lemma dispatch_frame : forall faults request r st,
  let st' := snd (dispatch faults request r st) in
  user_verifications st' = user_verifications st
  /\ error_log st' = error_log st
  /\ (exists created, notifications st' = (notifications st ++ created)%list
        /\ exists sent, sent_notifications st' = (sent_notifications st ++ sent)%list
        /\ incl sent created /\ incl created [notification_for r])
  /\ (exists tracked, tracked_accounts st' = (tracked_accounts st ++ tracked)%list
        /\ exists scored, risk_scores st' = (risk_scores st ++ scored)%list
        /\ incl scored tracked /\ incl tracked [ {| User.id := user_id r |} ]).
Proof.
  intros faults request r st. cbv zeta.
  unfold dispatch, _create_notification, get_user, notification_create,
    send_notification, track_account, update_user_risk_score, external, bind,
    modify, ret, raise.
  assert (Hnil : forall A (l : list A), l = (l ++ [])%list)
    by (intros; symmetry; apply app_nil_r).
  destruct (faults GetNotificationUser); cbn [snd].
  { repeat split; try reflexivity;
      (exists []; split; [ apply Hnil | ]; exists []; split; [ apply Hnil | ];
       split; intros x []). }
  destruct (faults CreateNotification); cbn [snd].
  { repeat split; try reflexivity;
      (exists []; split; [ apply Hnil | ]; exists []; split; [ apply Hnil | ];
       split; intros x []). }
  destruct (faults SendNotification); cbn [snd].
  { repeat split; try reflexivity.
    - exists [notification_for r]. split; [ reflexivity | ].
      exists []. split; [ apply Hnil | ]. split; [ intros x [] | apply incl_refl ].
    - exists []; split; [ apply Hnil | ]; exists []; split; [ apply Hnil | ];
        split; intros x []. }
  assert (Hn : exists created,
            (notifications st ++ [notification_for r])%list
            = (notifications st ++ created)%list
            /\ exists sent,
                 (sent_notifications st ++ [notification_for r])%list
                 = (sent_notifications st ++ sent)%list
                 /\ incl sent created /\ incl created [notification_for r]).
  { exists [notification_for r]. split; [ reflexivity | ].
    exists [notification_for r]. split; [ reflexivity | ].
    split; apply incl_refl. }
  destruct (faults GetUser); cbn [snd].
  { repeat split; try reflexivity; [ exact Hn | ].
    exists []; split; [ apply Hnil | ]; exists []; split; [ apply Hnil | ];
      split; intros x []. }
  destruct (faults TrackAccount); cbn [snd].
  { repeat split; try reflexivity; [ exact Hn | ].
    exists []; split; [ apply Hnil | ]; exists []; split; [ apply Hnil | ];
      split; intros x []. }
  destruct (faults UpdateUserRiskScore); cbn [snd].
  { repeat split; try reflexivity; [ exact Hn | ].
    exists [ {| User.id := user_id r |} ]. split; [ reflexivity | ].
    exists []. split; [ apply Hnil | ]. split; [ intros x [] | apply incl_refl ]. }
  repeat split; try reflexivity; [ exact Hn | ].
  exists [ {| User.id := user_id r |} ]. split; [ reflexivity | ].
  exists [ {| User.id := user_id r |} ]. split; [ reflexivity | ].
  split; apply incl_refl.
Qed.

(** The ways through [_process_payload]: it raises before it writes, or it
    writes the record of the payload and goes on to the dispatch (or stops
    at a failing [save], the record already written by the
    create-or-update). *)
Lemma process_payload_cases : forall loads faults request st res st',
  _process_payload loads faults request st = (res, st') ->
  (st' = st /\ exists e, res = Raise e)
  \/ exists data s,
       loads (body request) = Ok data
       /\ payload_status data = Ok s
       /\ faults UpdateOrCreate = false
       /\ length (records_for (field data reference_id_path) st) <= 1
       /\ ((res = Raise (External Save) /\ faults Save = true
            /\ st' = set_user_verifications
                       (upsert (record_of data s) (user_verifications st)) st)
           \/ (faults Save = false
               /\ dispatch faults request (record_of data s)
                    (set_user_verifications
                       (upsert (record_of data s) (user_verifications st)) st)
                  = (res, st'))).
Proof.
  intros loads faults request st res st' H.
  unfold _process_payload in H.
  apply bind_inv in H as [(data & st1 & Hm & H) | (e & Hm & ->)];
    apply lift_inv in Hm as [Hload ->];
    [ | left; split; [ reflexivity | exists e; reflexivity ] ].
  assert (Hl : loads (body request) = Ok data).
  { destruct (loads (body request)) as [ d | e ]; [ exact Hload | ].
    destruct e; discriminate Hload. }
  clear Hload.
  apply bind_inv in H as [(s & st1 & Hm & H) | (e & Hm & ->)];
    apply lift_inv in Hm as [Hs ->];
    [ | left; split; [ reflexivity | exists e; reflexivity ] ].
  rewrite !_get_nested_attr_field in H.
  apply bind_inv in H as [(reference_id & st1 & Hm & H) | (e & Hm & _)];
    apply lift_inv in Hm as [Hm ->]; [ | discriminate Hm ].
  injection Hm as <-.
  apply bind_inv in H as [(first & st1 & Hm & H) | (e & Hm & _)];
    apply lift_inv in Hm as [Hm ->]; [ | discriminate Hm ].
  injection Hm as <-.
  apply bind_inv in H as [(last & st1 & Hm & H) | (e & Hm & _)];
    apply lift_inv in Hm as [Hm ->]; [ | discriminate Hm ].
  injection Hm as <-.
  apply bind_inv in H as [(inquiry & st1 & Hm & H) | (e & Hm & _)];
    apply lift_inv in Hm as [Hm ->]; [ | discriminate Hm ].
  injection Hm as <-.
  fold reference_id_path name_first_path name_last_path inquiry_id_path in H.
  fold (record_of data s) in H.
  set (r := record_of data s) in *.
  assert (Hkey : user_id r = field data reference_id_path)
    by apply record_of_user_id.
  apply bind_inv in H as [(created & st1 & Hm & H) | (e & Hm & ->)].
  - unfold update_or_create in Hm.
    apply bind_inv in Hm as [(u & st2 & He & Hc) | (e & _ & He)];
      [ | discriminate He ].
    apply external_ok_inv in He as [Hu ->].
    assert (Hc' : fst created = r
                  /\ length (matching (user_id r) (user_verifications st)) <= 1
                  /\ st1 = set_user_verifications (upsert r (user_verifications st)) st).
    { unfold upsert.
      destruct (matching (user_id r) (user_verifications st)) as [ | x [ | y rest ] ];
        [ | | discriminate Hc ];
        injection Hc as <- <-; cbn [fst length]; repeat split; lia. }
    destruct Hc' as (Hr & Hone & ->). rewrite Hr in H. rewrite Hkey in Hone.
    right. exists data, s. split; [ exact Hl | ]. split; [ exact Hs | ].
    split; [ exact Hu | ]. split; [ exact Hone | ].
    apply bind_inv in H as [(u' & st1 & Hm & H) | (e & Hm & ->)].
    + right. unfold save in Hm.
      apply bind_inv in Hm as [(u2 & st2 & He & Hmod) | (e & _ & He)];
        [ | discriminate He ].
      apply external_ok_inv in He as [Hsave ->].
      apply modify_inv in Hmod. subst st1.
      cbn [user_verifications set_user_verifications] in H.
      fold (upsert r (upsert r (user_verifications st))) in H.
      rewrite upsert_idempotent in H by (rewrite Hkey; exact Hone).
      split; [ exact Hsave | ].
      assert (Hst : set_user_verifications (upsert r (user_verifications st))
                      (set_user_verifications (upsert r (user_verifications st)) st)
                    = set_user_verifications (upsert r (user_verifications st)) st)
        by reflexivity.
      rewrite Hst in H. exact H.
    + left. unfold save in Hm.
      apply bind_inv in Hm as [(u2 & st2 & He & Hmod) | (e' & He & Hres)].
      * discriminate Hmod.
      * unfold external in He. destruct (faults Save) eqn:Hsave.
        -- injection He as <- <-. split; [ exact Hres | split; reflexivity ].
        -- discriminate He.
  - left. unfold update_or_create in Hm.
    apply bind_inv in Hm as [(u & st2 & He & Hc) | (e' & He & _)].
    + apply external_inv in He as ->.
      destruct (matching (user_id r) (user_verifications st)) as [ | x [ | y rest ] ];
        [ discriminate Hc | discriminate Hc | ].
      injection Hc as _ <-. split; [ reflexivity | exists e; reflexivity ].
    + apply external_inv in He as ->. split; [ reflexivity | exists e; reflexivity ].
Qed.

(** The three ways through [post]. *)
Lemma post_cases : forall settings loads faults request st,
  (_validate_signature settings request <> Ok true
   /\ ((post settings loads faults request st = (Unauthorized, st))
       \/ exists e, post settings loads faults request st = (Failed, add_error e st)))
  \/ (_validate_signature settings request = Ok true
      /\ exists res st',
           _process_payload loads faults request st = (res, st')
           /\ post settings loads faults request st
              = match res with
                | Ok _ => (Processed, st')
                | Raise e => (Failed, add_error e st')
                end).
Proof.
  intros settings loads faults request st.
  destruct (falsy (Persona_Signature request)) eqn:Hh.
  - left. split.
    + intros Hv. rewrite (validated_header_present _ _ _ Hv) in Hh. discriminate Hh.
    + left. apply post_no_header. exact Hh.
  - destruct (_validate_signature settings request) as [ [ | ] | e ] eqn:Hv.
    + right. split; [ reflexivity | ].
      destruct (_process_payload loads faults request st) as [res st'] eqn:Hp.
      exists res, st'. split; [ reflexivity | ].
      apply post_authenticated; assumption.
    + left. split; [ discriminate | ]. left. apply post_rejected. exact Hv.
    + left. split; [ discriminate | ]. right. exists e.
      apply post_validation_raises; assumption.
Qed.

(** X5. Nothing is written without a valid signature: when the check does
    not say yes (header missing or empty, digest different, or the check
    itself raising) the verification table, the notifications created and
    sent, and the accounts tracked and scored are exactly what they were. *)
Theorem unauthenticated_never_writes :
  forall settings loads faults request st,
    _validate_signature settings request <> Ok true ->
    let st' := snd (post settings loads faults request st) in
    user_verifications st' = user_verifications st
    /\ notifications st' = notifications st
    /\ sent_notifications st' = sent_notifications st
    /\ tracked_accounts st' = tracked_accounts st
    /\ risk_scores st' = risk_scores st.
Proof.
  intros settings loads faults request st Hv. cbv zeta.
  destruct (post_cases settings loads faults request st)
    as [ [_ [-> | [e ->]]] | [Hyes _] ].
  - repeat split.
  - repeat split.
  - contradiction (Hv Hyes).
Qed.

Lemma unauthenticated_never_writes_witness :
  let st' := snd (post test_settings json_loads no_faults unsigned_not_json empty_state) in
  user_verifications st' = user_verifications empty_state
  /\ notifications st' = notifications empty_state
  /\ sent_notifications st' = sent_notifications empty_state
  /\ tracked_accounts st' = tracked_accounts empty_state
  /\ risk_scores st' = risk_scores empty_state.
Proof.
  refine (unauthenticated_never_writes test_settings json_loads no_faults
            unsigned_not_json empty_state _).
  intros Hv.
  pose proof (eq_trans (eq_sym Hv)
                (validate_signature_compares test_settings "t=1700000000,v1=00"
                   "1700000000" "00" not_json eq_refl eq_refl eq_refl)) as H.
  apply Ok_inj in H. symmetry in H. apply String.eqb_eq in H.
  apply (f_equal String.length) in H. rewrite create_digest_length in H.
  discriminate H.
Defined.

(** X6. What 200 means: the endpoint answers "Webhook successfully
    processed" only when the signature validated, the payload decoded, its
    status was a string and every collaborator answered; the state is then
    the one it found with the payload's record written for its subject, one
    notification for that record created and sent, and the subject's
    account tracked and scored once; nothing is logged. *)
Theorem processed_means_delivered :
  forall settings loads faults request st,
    fst (post settings loads faults request st) = Processed ->
    exists data s,
      _validate_signature settings request = Ok true
      /\ loads (body request) = Ok data
      /\ payload_status data = Ok s
      /\ all_answer faults
      /\ length (records_for (field data reference_id_path) st) <= 1
      /\ snd (post settings loads faults request st) = delivered (record_of data s) st.
Proof.
  intros settings loads faults request st H.
  destruct (post_cases settings loads faults request st)
    as [ [_ [Hp | [e Hp]]] | (Hv & res & st' & Hrun & Hp) ];
    rewrite Hp in *; try discriminate H.
  destruct res as [ u | e ]; [ | discriminate H ].
  destruct (process_payload_cases _ _ _ _ _ _ Hrun)
    as [ [_ [e He]] | (data & s & Hl & Hs & Hu & Hone & Hrest) ];
    [ discriminate He | ].
  destruct Hrest as [ [He _] | [Hsave Hd] ]; [ discriminate He | ].
  apply dispatch_ok_inv in Hd as [(H1 & H2 & H3 & H4 & H5 & H6) ->].
  exists data, s. repeat split; assumption.
Qed.

Lemma processed_means_delivered_witness :
  exists data s,
    _validate_signature test_settings test_request = Ok true
    /\ json_loads (body test_request) = Ok data
    /\ payload_status data = Ok s
    /\ all_answer no_faults
    /\ length (records_for (field data reference_id_path) empty_state) <= 1
    /\ snd (post test_settings json_loads no_faults test_request empty_state)
       = delivered (record_of data s) empty_state.
Proof.
  refine (processed_means_delivered test_settings json_loads no_faults test_request
            empty_state _).
  vm_compute. reflexivity.
Defined.

(** The verification table after a delivery: as it was, or with the record
    of the payload written over it. *)
Lemma post_table_cases : forall settings loads faults request st,
  let st' := snd (post settings loads faults request st) in
  user_verifications st' = user_verifications st
  \/ exists data s,
       loads (body request) = Ok data
       /\ payload_status data = Ok s
       /\ length (records_for (field data reference_id_path) st) <= 1
       /\ user_verifications st' = upsert (record_of data s) (user_verifications st).
Proof.
  intros settings loads faults request st. cbv zeta.
  destruct (post_cases settings loads faults request st)
    as [ [_ [-> | [e ->]]] | (Hv & res & st' & Hrun & ->) ];
    [ left; reflexivity | left; reflexivity | ].
  assert (Hsnd : user_verifications
                   (snd match res with
                        | Ok _ => (Processed, st')
                        | Raise e => (Failed, add_error e st')
                        end) = user_verifications st')
    by (destruct res; reflexivity).
  rewrite Hsnd.
  destruct (process_payload_cases _ _ _ _ _ _ Hrun)
    as [ [-> _] | (data & s & Hl & Hs & Hu & Hone & Hrest) ];
    [ left; reflexivity | ].
  right. exists data, s. repeat split; try assumption.
  destruct Hrest as [ (_ & _ & ->) | [_ Hd] ]; [ reflexivity | ].
  pose proof (dispatch_frame faults request (record_of data s)
                (set_user_verifications
                   (upsert (record_of data s) (user_verifications st)) st)) as Hf.
  cbv zeta in Hf. rewrite Hd in Hf. destruct Hf as [Ht _]. exact Ht.
Qed.

(** X7. One record per subject: starting from an empty store, after any
    sequence of deliveries whatsoever (any requests, signed or not, any
    behaviour of the collaborators) no subject has two records. *)
Theorem one_record_per_subject :
  forall settings loads deliveries subject,
    length (records_for subject (snd (deliver settings loads deliveries empty_state))) <= 1.
Proof.
  intros settings loads deliveries subject.
  apply deliver_at_most_one. cbn. lia.
Qed.

Lemma post_other_subjects : forall settings loads faults request st subject,
  (forall data, loads (body request) = Ok data ->
                field data reference_id_path <> subject) ->
  records_for subject (snd (post settings loads faults request st))
  = records_for subject st.
Proof.
  intros settings loads faults request st subject Hother. unfold records_for.
  destruct (post_table_cases settings loads faults request st)
    as [ -> | (data & s & Hl & _ & _ & ->) ]; [ reflexivity | ].
  apply upsert_other. rewrite record_of_user_id.
  destruct (JSON_eqb (field data reference_id_path) subject) eqn:E;
    [ | reflexivity ].
  apply JSON_eqb_eq in E. contradiction (Hother data Hl).
Qed.

(** X8. A delivery touches the record of its own subject only: the records
    of every other subject are what they were. *)
Theorem other_subjects_untouched :
  forall settings loads faults request st subject,
    (forall data, loads (body request) = Ok data ->
                  field data reference_id_path <> subject) ->
    records_for subject (snd (post settings loads faults request st))
    = records_for subject st.
Proof. exact post_other_subjects. Qed.

Lemma other_subjects_untouched_witness :
  records_for (JStr "7")
    (snd (post test_settings json_loads no_faults test_request
            (set_user_verifications
               [ {| user_id := JStr "7"; first_name := JStr "Grace";
                    last_name := JStr "Hopper"; verified_by := PERSONA;
                    external_id := JStr "inq_0"; status := DECLINED |} ]
               empty_state)))
  = [ {| user_id := JStr "7"; first_name := JStr "Grace";
         last_name := JStr "Hopper"; verified_by := PERSONA;
         external_id := JStr "inq_0"; status := DECLINED |} ].
Proof.
  refine (other_subjects_untouched test_settings json_loads no_faults test_request
            _ (JStr "7") _).
  intros data Hl.
  assert (Hd : data = payload_tree).
  { change (body test_request) with payload_text in Hl.
    rewrite json_loads_payload_text in Hl. injection Hl as <-. reflexivity. }
  rewrite Hd. discriminate.
Defined.

Lemma upsert_keeps_records : forall r key table,
  length (matching key table) <= length (matching key (upsert r table)).
Proof.
  intros r key table.
  destruct (JSON_eqb (user_id r) key) eqn:E.
  - apply JSON_eqb_eq in E. subst key. unfold upsert.
    destruct (matching (user_id r) table) as [ | x rest ] eqn:Em.
    + cbn [length]. lia.
    + rewrite matching_replace_row_same, Em, length_map. lia.
  - rewrite upsert_other by exact E. lia.
Qed.

(** X9. The view never deletes: after a delivery every subject has at least
    as many records as before, and the table has grown by one row at most. *)
Theorem records_are_never_deleted :
  forall settings loads faults request st subject,
    let st' := snd (post settings loads faults request st) in
    length (records_for subject st) <= length (records_for subject st')
    /\ length (user_verifications st) <= length (user_verifications st')
    /\ length (user_verifications st') <= S (length (user_verifications st)).
Proof.
  intros settings loads faults request st subject. cbv zeta. unfold records_for.
  destruct (post_table_cases settings loads faults request st)
    as [ -> | (data & s & _ & _ & _ & ->) ]; [ repeat split; lia | ].
  split; [ apply upsert_keeps_records | ].
  unfold upsert. destruct (matching _ (user_verifications st)).
  - rewrite length_app. cbn [length]. lia.
  - unfold replace_row. rewrite length_map. lia.
Qed.

(** The dispatch in order: the notification is created, then sent, then the
    account is tracked, then scored; a failure stops it where it is. *)
Lemma dispatch_order : forall faults request r st,
  let st' := snd (dispatch faults request r st) in
  exists c s t k,
    k <= t /\ t <= s /\ s <= c /\ c <= 1
    /\ user_verifications st' = user_verifications st
    /\ error_log st' = error_log st
    /\ notifications st' = (notifications st ++ repeat (notification_for r) c)%list
    /\ sent_notifications st'
       = (sent_notifications st ++ repeat (notification_for r) s)%list
    /\ tracked_accounts st'
       = (tracked_accounts st ++ repeat {| User.id := user_id r |} t)%list
    /\ risk_scores st'
       = (risk_scores st ++ repeat {| User.id := user_id r |} k)%list.
Proof.
  intros faults request r st. cbv zeta.
  unfold dispatch, _create_notification, get_user, notification_create,
    send_notification, track_account, update_user_risk_score, external, bind,
    modify, ret, raise.
  destruct (faults GetNotificationUser); cbn [snd];
    [ exists 0, 0, 0, 0; cbn [repeat]; rewrite !app_nil_r; repeat split; lia | ].
  destruct (faults CreateNotification); cbn [snd];
    [ exists 0, 0, 0, 0; cbn [repeat]; rewrite !app_nil_r; repeat split; lia | ].
  destruct (faults SendNotification); cbn [snd];
    [ exists 1, 0, 0, 0; cbn [repeat]; rewrite !app_nil_r; repeat split; lia | ].
  destruct (faults GetUser); cbn [snd];
    [ exists 1, 1, 0, 0; cbn [repeat]; rewrite !app_nil_r; repeat split; lia | ].
  destruct (faults TrackAccount); cbn [snd];
    [ exists 1, 1, 0, 0; cbn [repeat]; rewrite !app_nil_r; repeat split; lia | ].
  destruct (faults UpdateUserRiskScore); cbn [snd];
    [ exists 1, 1, 1, 0; cbn [repeat]; rewrite !app_nil_r; repeat split; lia | ].
  exists 1, 1, 1, 1. cbn [repeat]. repeat split; lia.
Qed.

Lemma upsert_holds : forall r table, In r (upsert r table).
Proof.
  intros r table. unfold upsert.
  destruct (matching (user_id r) table) as [ | x rest ] eqn:E.
  - apply in_or_app. right. left. reflexivity.
  - assert (Hx : In x (matching (user_id r) table)) by (rewrite E; left; reflexivity).
    unfold matching in Hx. apply filter_In in Hx as [Hin Hk].
    unfold replace_row. apply in_map_iff. exists x. rewrite Hk.
    split; [ reflexivity | exact Hin ].
Qed.

(** X10. Side effects happen in order and at most once per delivery: a
    delivery creates at most one notification, sends it only if it created
    it, tracks the account only after sending and scores it only after
    tracking; the notification is for a record that is in the table. *)
Theorem side_effects_in_order :
  forall settings loads faults request st,
    let st' := snd (post settings loads faults request st) in
    exists r c s t k,
      k <= t /\ t <= s /\ s <= c /\ c <= 1
      /\ (c = 1 -> In r (user_verifications st'))
      /\ notifications st' = (notifications st ++ repeat (notification_for r) c)%list
      /\ sent_notifications st'
         = (sent_notifications st ++ repeat (notification_for r) s)%list
      /\ tracked_accounts st'
         = (tracked_accounts st ++ repeat {| User.id := user_id r |} t)%list
      /\ risk_scores st'
         = (risk_scores st ++ repeat {| User.id := user_id r |} k)%list.
Proof.
  intros settings loads faults request st. cbv zeta.
  assert (Hnone : forall st', notifications st' = notifications st ->
            sent_notifications st' = sent_notifications st ->
            tracked_accounts st' = tracked_accounts st ->
            risk_scores st' = risk_scores st ->
            exists r c s t k,
              k <= t /\ t <= s /\ s <= c /\ c <= 1
              /\ (c = 1 -> In r (user_verifications st'))
              /\ notifications st' = (notifications st ++ repeat (notification_for r) c)%list
              /\ sent_notifications st'
                 = (sent_notifications st ++ repeat (notification_for r) s)%list
              /\ tracked_accounts st'
                 = (tracked_accounts st ++ repeat {| User.id := user_id r |} t)%list
              /\ risk_scores st'
                 = (risk_scores st ++ repeat {| User.id := user_id r |} k)%list).
  { intros st' -> -> -> ->. exists (record_of JNull PENDING), 0, 0, 0, 0.
    cbn [repeat]. rewrite !app_nil_r. repeat split; lia. }
  destruct (post_cases settings loads faults request st)
    as [ [_ [-> | [e ->]]] | (Hv & res & st' & Hrun & ->) ];
    [ apply Hnone; reflexivity | apply Hnone; reflexivity | ].
  assert (Hsnd : forall (P : State -> Prop),
            (P st' /\ forall e, P (add_error e st')) ->
            P (snd match res with
                   | Ok _ => (Processed, st')
                   | Raise e => (Failed, add_error e st')
                   end))
    by (intros P [H1 H2]; destruct res; [ exact H1 | apply H2 ]).
  destruct (process_payload_cases _ _ _ _ _ _ Hrun)
    as [ [-> _] | (data & s & Hl & Hs & Hu & Hone & Hrest) ].
  { destruct res; apply Hnone; reflexivity. }
  destruct Hrest as [ (_ & _ & ->) | [_ Hd] ].
  { destruct res; apply Hnone; reflexivity. }
  pose proof (dispatch_order faults request (record_of data s)
                (set_user_verifications
                   (upsert (record_of data s) (user_verifications st)) st)) as Ho.
  cbv zeta in Ho. rewrite Hd in Ho. cbn [snd] in Ho.
  destruct Ho as (c & sn & t & k & Hkt & Hts & Hsc & Hc1 & Htab & _ & Hn & Hsn & Ht & Hk).
  cbn [user_verifications notifications sent_notifications tracked_accounts
       risk_scores set_user_verifications] in Htab, Hn, Hsn, Ht, Hk.
  exists (record_of data s), c, sn, t, k.
  destruct res; cbn [snd user_verifications notifications sent_notifications
                     tracked_accounts risk_scores add_error];
    (repeat split; try assumption; intros _; rewrite Htab; apply upsert_holds).
Qed.

Lemma process_payload_keeps_log : forall loads faults request st res st',
  _process_payload loads faults request st = (res, st') ->
  error_log st' = error_log st.
Proof.
  intros loads faults request st res st' Hrun.
  destruct (process_payload_cases _ _ _ _ _ _ Hrun)
    as [ [-> _] | (data & s & _ & _ & _ & _ & Hrest) ]; [ reflexivity | ].
  destruct Hrest as [ (_ & _ & ->) | [_ Hd] ]; [ reflexivity | ].
  pose proof (dispatch_order faults request (record_of data s)
                (set_user_verifications
                   (upsert (record_of data s) (user_verifications st)) st)) as Ho.
  cbv zeta in Ho. rewrite Hd in Ho.
  destruct Ho as (c & sn & t & k & _ & _ & _ & _ & _ & Hlog & _). exact Hlog.
Qed.

(** X11. What is logged: the endpoint answers with one of its three
    responses; a 500 appends exactly one entry to the error log, and a 401
    or a 200 appends none, so a rejected signature leaves no trace. *)
Theorem only_failures_are_logged :
  forall settings loads faults request st,
    let out := post settings loads faults request st in
    (fst out = Unauthorized /\ error_log (snd out) = error_log st)
    \/ (fst out = Processed /\ error_log (snd out) = error_log st)
    \/ (fst out = Failed /\ exists e, error_log (snd out) = (error_log st ++ [e])%list).
Proof.
  intros settings loads faults request st. cbv zeta.
  destruct (post_cases settings loads faults request st)
    as [ [_ [-> | [e ->]]] | (Hv & res & st' & Hrun & ->) ].
  - left. split; reflexivity.
  - right. right. split; [ reflexivity | exists e; reflexivity ].
  - pose proof (process_payload_keeps_log _ _ _ _ _ _ Hrun) as Hlog.
    destruct res as [ u | e ].
    + right. left. split; [ reflexivity | exact Hlog ].
    + right. right. split; [ reflexivity | ]. exists e.
      cbn [snd error_log add_error]. rewrite Hlog. reflexivity.
Qed.

(** ** Deliveries that go through *)

Lemma dispatch_all_answer : forall faults request r st,
  all_answer faults ->
  dispatch faults request r st
  = (Ok tt,
     add_risk_score {| User.id := user_id r |}
       (add_tracked {| User.id := user_id r |}
          (add_sent (notification_for r)
             (add_notification (notification_for r) st)))).
Proof.
  intros faults request r st (_ & _ & H1 & H2 & H3 & H4 & H5 & H6).
  unfold dispatch, _create_notification, get_user, notification_create,
    send_notification, track_account, update_user_risk_score, external, bind,
    modify, ret, raise.
  rewrite H1, H2, H3, H4, H5, H6. reflexivity.
Qed.

Lemma post_delivers : forall settings loads faults request data s st,
  _validate_signature settings request = Ok true ->
  loads (body request) = Ok data ->
  payload_status data = Ok s ->
  all_answer faults ->
  length (records_for (field data reference_id_path) st) <= 1 ->
  post settings loads faults request st = (Processed, delivered (record_of data s) st).
Proof.
  intros settings loads faults request data s st Hv Hl Hs Hall Hone.
  assert (Hp : _process_payload loads faults request st
               = (Ok tt, delivered (record_of data s) st)).
  { destruct Hall as (Hu & Hsave & Hrest).
    unfold _process_payload.
    unfold bind at 1. unfold lift at 1. rewrite Hl.
    unfold bind at 1. unfold lift at 1. rewrite Hs.
    rewrite !_get_nested_attr_field.
    do 4 (unfold bind at 1; unfold lift at 1).
    fold reference_id_path name_first_path name_last_path inquiry_id_path.
    fold (record_of data s).
    destruct (update_or_create_upsert faults (record_of data s) st Hu Hone)
      as [created Hcreate].
    unfold bind at 1. rewrite Hcreate. cbn [fst].
    unfold bind at 1. rewrite save_upsert by exact Hsave.
    cbn [user_verifications set_user_verifications].
    rewrite upsert_idempotent by exact Hone.
    fold (dispatch faults request (record_of data s)).
    rewrite dispatch_all_answer by (repeat split; tauto).
    reflexivity. }
  rewrite (post_authenticated _ _ _ _ _ _ _ Hv Hp). reflexivity.
Qed.

Lemma delivered_records : forall r st,
  length (matching (user_id r) (user_verifications st)) <= 1 ->
  matching (user_id r) (user_verifications (delivered r st)) = [r].
Proof. intros r st H. cbn [delivered user_verifications]. apply upsert_subject. exact H. Qed.

Lemma deliver_repeats : forall settings loads request data s fs,
  _validate_signature settings request = Ok true ->
  loads (body request) = Ok data ->
  payload_status data = Ok s ->
  Forall all_answer fs ->
  forall st,
    length (records_for (field data reference_id_path) st) <= 1 ->
    let r := record_of data s in
    let n := length fs in
    let out := deliver settings loads (map (fun faults => (faults, request)) fs) st in
    fst out = repeat Processed n
    /\ notifications (snd out) = (notifications st ++ repeat (notification_for r) n)%list
    /\ sent_notifications (snd out)
       = (sent_notifications st ++ repeat (notification_for r) n)%list
    /\ tracked_accounts (snd out)
       = (tracked_accounts st ++ repeat {| User.id := user_id r |} n)%list
    /\ risk_scores (snd out)
       = (risk_scores st ++ repeat {| User.id := user_id r |} n)%list.
Proof.
  intros settings loads request data s fs Hv Hl Hs Hall. cbv zeta.
  induction Hall as [ | faults rest Hf Hrest IH ]; intros st Hone.
  - cbn [map deliver length repeat fst snd]. rewrite !app_nil_r. repeat split.
  - cbn [map deliver length repeat].
    rewrite (post_delivers settings loads faults request data s st Hv Hl Hs Hf Hone).
    assert (Hone1 : length (records_for (field data reference_id_path)
                              (delivered (record_of data s) st)) <= 1).
    { unfold records_for. rewrite <- (record_of_user_id data s).
      rewrite delivered_records by (rewrite record_of_user_id; exact Hone).
      cbn [length]. lia. }
    specialize (IH (delivered (record_of data s) st) Hone1).
    destruct (deliver settings loads
                (map (fun faults0 => (faults0, request)) rest)
                (delivered (record_of data s) st)) as [responses st2].
    cbn [fst snd] in *.
    destruct IH as (Hresp & Hn & Hsn & Ht & Hk).
    cbn [delivered notifications sent_notifications tracked_accounts risk_scores]
      in Hn, Hsn, Ht, Hk.
    rewrite <- !app_assoc in Hn, Hsn, Ht, Hk.
    split; [ rewrite Hresp; reflexivity | ].
    split; [ exact Hn | ]. split; [ exact Hsn | ]. split; [ exact Ht | exact Hk ].
Qed.

(** X12. Redelivery notifies again: a payload delivered n times, each time
    with a valid signature and every collaborator answering, is answered
    200 each time; the subject ends with one record, but n notifications
    are created and sent and the account is tracked and scored n times.
    The upsert is idempotent, the side effects are not. *)
Theorem redelivery_repeats_side_effects :
  forall settings loads request data s (fs : list Faults) st,
    _validate_signature settings request = Ok true ->
    loads (body request) = Ok data ->
    payload_status data = Ok s ->
    Forall all_answer fs ->
    fs <> [] ->
    length (records_for (field data reference_id_path) st) <= 1 ->
    let r := record_of data s in
    let n := length fs in
    let out := deliver settings loads (map (fun faults => (faults, request)) fs) st in
    fst out = repeat Processed n
    /\ records_for (field data reference_id_path) (snd out) = [r]
    /\ notifications (snd out) = (notifications st ++ repeat (notification_for r) n)%list
    /\ sent_notifications (snd out)
       = (sent_notifications st ++ repeat (notification_for r) n)%list
    /\ tracked_accounts (snd out)
       = (tracked_accounts st ++ repeat {| User.id := user_id r |} n)%list
    /\ risk_scores (snd out)
       = (risk_scores st ++ repeat {| User.id := user_id r |} n)%list.
Proof.
  intros settings loads request data s fs st Hv Hl Hs Hall Hne Hone. cbv zeta.
  destruct (deliver_repeats settings loads request data s fs Hv Hl Hs Hall st Hone)
    as (Hresp & Hrest).
  split; [ exact Hresp | ]. split; [ | exact Hrest ].
  apply deliver_same_request; try assumption.
  apply Forall_impl with (P := all_answer); [ | exact Hall ].
  intros f (Hu & Hsave & _). split; assumption.
Qed.

Lemma all_answer_no_faults : all_answer no_faults.
Proof. repeat split. Qed.

Lemma redelivery_repeats_side_effects_witness :
  let out := deliver test_settings json_loads
               [(no_faults, test_request); (no_faults, test_request);
                (no_faults, test_request)] empty_state in
  fst out = [Processed; Processed; Processed]
  /\ records_for (JStr "42") (snd out) = [ada]
  /\ notifications (snd out) = repeat (notification_for ada) 3
  /\ sent_notifications (snd out) = repeat (notification_for ada) 3
  /\ tracked_accounts (snd out) = repeat {| User.id := JStr "42" |} 3
  /\ risk_scores (snd out) = repeat {| User.id := JStr "42" |} 3.
Proof.
  exact (redelivery_repeats_side_effects test_settings json_loads test_request
           payload_tree APPROVED [no_faults; no_faults; no_faults] empty_state
           test_request_valid json_loads_payload_text eq_refl
           (Forall_cons _ all_answer_no_faults
              (Forall_cons _ all_answer_no_faults
                 (Forall_cons _ all_answer_no_faults (Forall_nil _))))
           ltac:(discriminate) (Nat.le_0_l 1)).
Defined.

(** ** Status and field extraction *)

(** X13. The status is an exact match: for a payload whose status is a
    string, the mapped status is APPROVED, DECLINED, FAILED or
    MARKED_FOR_REVIEW exactly when the lowercased string is the
    corresponding name, character for character, and PENDING exactly when
    it is none of the four (a surrounding space or a different spelling is
    enough). *)
Theorem status_is_an_exact_match :
  forall data p,
    field data status_path = JStr p ->
    exists s,
      payload_status data = Ok s
      /\ (s = APPROVED <-> lower p = "approved")
      /\ (s = DECLINED <-> lower p = "declined")
      /\ (s = FAILED <-> lower p = "failed")
      /\ (s = MARKED_FOR_REVIEW <-> lower p = "marked-for-review")
      /\ (s = PENDING <-> ~ In (lower p) recognised).
Proof.
  intros data p H. exists (status_of (lower p)).
  split; [ apply payload_status_str; exact H | ].
  apply status_of_exact.
Qed.

Lemma status_is_an_exact_match_witness :
  exists s,
    payload_status (tree_with_status " Approved") = Ok s
    /\ (s = APPROVED <-> lower " Approved" = "approved")
    /\ (s = DECLINED <-> lower " Approved" = "declined")
    /\ (s = FAILED <-> lower " Approved" = "failed")
    /\ (s = MARKED_FOR_REVIEW <-> lower " Approved" = "marked-for-review")
    /\ (s = PENDING <-> ~ In (lower " Approved") recognised).
Proof.
  exact (status_is_an_exact_match (tree_with_status " Approved") " Approved" eq_refl).
Defined.

(** X14. A status that is not a string is an error: for an authenticated
    payload that decodes but whose status is absent, null, a number, a
    boolean, a list or an object, [.lower()] raises [AttributeError]; the
    response is 500 and the only change is the logged error. *)
Theorem non_string_status_is_500 :
  forall settings loads faults request data st,
    _validate_signature settings request = Ok true ->
    loads (body request) = Ok data ->
    (forall p, field data status_path <> JStr p) ->
    payload_status data = Raise AttributeError
    /\ post settings loads faults request st = (Failed, add_error AttributeError st).
Proof.
  intros settings loads faults request data st Hv Hl Hns. split.
  - unfold payload_status. fold status_path. rewrite _get_nested_attr_field.
    destruct (field data status_path) as [ | | | | p | | ]; try reflexivity.
    contradiction (Hns p). reflexivity.
  - apply post_status_not_a_string with (data := data); assumption.
Qed.

Lemma request_status_5_valid :
  _validate_signature test_settings request_status_5 = Ok true.
Proof. vm_compute. reflexivity. Qed.

Lemma json_loads_status_5 : json_loads payload_status_5 = Ok tree_status_5.
Proof. vm_compute. reflexivity. Qed.

Lemma non_string_status_is_500_witness :
  payload_status tree_status_5 = Raise AttributeError
  /\ post test_settings json_loads no_faults request_status_5 empty_state
     = (Failed, add_error AttributeError empty_state).
Proof.
  refine (non_string_status_is_500 test_settings json_loads no_faults
            request_status_5 tree_status_5 empty_state
            request_status_5_valid json_loads_status_5 _).
  intros p. discriminate.
Defined.

Lemma get_keys_not_dict : forall data key keys default,
  (forall items, data <> JDict items) ->
  get_keys data (key :: keys) default = Ok default.
Proof.
  intros data key keys default H. cbn [get_keys].
  destruct data; try reflexivity. contradiction (H items). reflexivity.
Qed.

Lemma split_cons : forall sep s, exists key keys, split sep s = key :: keys.
Proof.
  intros sep s. destruct s as [ | c s ].
  - exists "", []. reflexivity.
  - cbn [split]. destruct (Ascii.eqb c sep).
    + eexists. eexists. reflexivity.
    + destruct (split sep s); eexists; eexists; reflexivity.
Qed.

(** X15. [_get_nested_attr] never raises and falls back to the default: on
    a value that is not an object (a list, a string, a number, a boolean,
    null) every path gives the default, and on an object so does every
    path whose first key is absent. *)
Theorem get_nested_attr_defaults :
  forall data path default,
    (exists v, _get_nested_attr data path default = Ok v)
    /\ ((forall items, data <> JDict items) ->
        _get_nested_attr data path default = Ok default)
    /\ (forall items key rest,
          data = JDict items ->
          occurs "." key = false ->
          dict_get items key = None ->
          _get_nested_attr data key default = Ok default
          /\ _get_nested_attr data (key ++ "." ++ rest) default = Ok default).
Proof.
  intros data path default. split; [ apply get_keys_ok | ]. split.
  - intros H. unfold _get_nested_attr.
    destruct (split_cons "." path) as (key & keys & ->).
    apply get_keys_not_dict. exact H.
  - intros items key rest -> Hkey Hnone. unfold _get_nested_attr. split.
    + rewrite (split_none _ _ Hkey). cbn [get_keys getitem]. rewrite Hnone.
      reflexivity.
    + change (key ++ "." ++ rest) with (key ++ String "." rest).
      rewrite (split_app _ _ _ Hkey). cbn [get_keys getitem]. rewrite Hnone.
      reflexivity.
Qed.

(** X16. A dotted path is followed key by key: on an object, a path of one
    key gives the value bound to it (a bound null included, not the
    default), and a path [key.rest] gives what [rest] gives on that
    value. *)
Theorem get_nested_attr_descends :
  forall items key v rest default,
    occurs "." key = false ->
    dict_get items key = Some v ->
    _get_nested_attr (JDict items) key default = Ok v
    /\ _get_nested_attr (JDict items) (key ++ "." ++ rest) default
       = _get_nested_attr v rest default.
Proof.
  intros items key v rest default Hkey Hget. unfold _get_nested_attr. split.
  - rewrite (split_none _ _ Hkey). cbn [get_keys getitem]. rewrite Hget.
    reflexivity.
  - change (key ++ "." ++ rest) with (key ++ String "." rest).
    rewrite (split_app _ _ _ Hkey). cbn [get_keys getitem]. rewrite Hget.
    reflexivity.
Qed.

Lemma get_nested_attr_descends_witness :
  _get_nested_attr (JDict [("a", JNull); ("b", JDict [("c", JInt 1)])]) "a" (JStr "none")
  = Ok JNull
  /\ _get_nested_attr (JDict [("a", JNull); ("b", JDict [("c", JInt 1)])])
       ("a" ++ "." ++ "c") (JStr "none")
     = _get_nested_attr JNull "c" (JStr "none").
Proof.
  exact (get_nested_attr_descends [("a", JNull); ("b", JDict [("c", JInt 1)])]
           "a" JNull "c" (JStr "none") eq_refl eq_refl).
Defined.

Lemma get_nested_attr_defaults_witness :
  _get_nested_attr (JDict [("a", JInt 1)]) "b" (JStr "none") = Ok (JStr "none")
  /\ _get_nested_attr (JDict [("a", JInt 1)]) ("b" ++ "." ++ "c") (JStr "none")
     = Ok (JStr "none").
Proof.
  exact (proj2 (proj2 (get_nested_attr_defaults (JDict [("a", JInt 1)]) "b"
                         (JStr "none")))
           [("a", JInt 1)] "b" "c" eq_refl eq_refl eq_refl).
Defined.

(** ** The digest *)

Lemma octets_app : forall a b, octets (a ++ b) = (octets a ++ octets b)%list.
Proof.
  intros a b. unfold octets. induction a as [ | c a IH ]; [ reflexivity | ].
  cbn [append list_ascii_of_string map app]. rewrite IH. reflexivity.
Qed.

Lemma create_digest_boundary : forall key t a b,
  create_digest key (t ++ "." ++ a) b = create_digest key t (a ++ "." ++ b).
Proof.
  intros key t a b. unfold create_digest. rewrite !append_assoc. reflexivity.
Qed.

(** X17. The boundary between timestamp and body is not signed: the two
    are joined with a "." before the digest is taken, so a digest that
    validates for timestamp [t] and body [a.b] also validates for
    timestamp [t.a] and body [b]. *)
Theorem signature_survives_boundary_shift :
  forall settings t a b v1,
    occurs "," t = false -> occurs "=" t = false ->
    occurs "," a = false -> occurs "=" a = false ->
    occurs "," v1 = false -> occurs "=" v1 = false ->
    utf8_valid (octets b) = true ->
    _validate_signature settings
      {| Persona_Signature := Some ("t" ++ "=" ++ t ++ "," ++ "v1" ++ "=" ++ v1);
         body := a ++ "." ++ b |} = Ok true ->
    create_digest (PERSONA_WEBHOOK_SECRET settings) (t ++ "." ++ a) b
    = create_digest (PERSONA_WEBHOOK_SECRET settings) t (a ++ "." ++ b)
    /\ _validate_signature settings
         {| Persona_Signature :=
              Some ("t" ++ "=" ++ (t ++ "." ++ a) ++ "," ++ "v1" ++ "=" ++ v1);
            body := b |} = Ok true.
Proof.
  intros settings t a b v1 Hct Het Hca Hea Hcv Hev Hutf8 Hvalid.
  split; [ apply create_digest_boundary | ].
  destruct (validate_signature_true_inv _ _ Hvalid)
    as (header & t0 & v0 & Hh & Hf & _ & Hd).
  cbn [Persona_Signature body] in Hh, Hd. injection Hh as <-.
  pose proof (eq_trans (eq_sym Hf)
                (second_fields_of_header "t" t "v1" v1
                   eq_refl eq_refl Hct Het eq_refl eq_refl Hcv Hev)) as E.
  apply Ok_inj in E. injection E as -> ->.
  rewrite (validate_signature_compares settings _ (t ++ "." ++ a) v1 b).
  - rewrite create_digest_boundary, <- Hd, String.eqb_refl. reflexivity.
  - apply second_fields_of_header; try assumption; try reflexivity;
      rewrite !occurs_app; cbn [occurs Ascii.eqb]; try rewrite Hct;
      try rewrite Het; try rewrite Hca; try rewrite Hea; reflexivity.
  - rewrite Hd. apply create_digest_ascii.
  - exact Hutf8.
Qed.

Lemma signature_survives_boundary_shift_witness :
  create_digest "whsec_test" ("1700000000" ++ "." ++ "{}") "x"
  = create_digest "whsec_test" "1700000000" ("{}" ++ "." ++ "x")
  /\ _validate_signature test_settings
       {| Persona_Signature :=
            Some ("t" ++ "=" ++ ("1700000000" ++ "." ++ "{}") ++ "," ++ "v1" ++ "="
                  ++ create_digest "whsec_test" "1700000000" "{}.x");
          body := "x" |} = Ok true.
Proof.
  refine (signature_survives_boundary_shift test_settings "1700000000" "{}" "x"
            (create_digest "whsec_test" "1700000000" "{}.x")
            eq_refl eq_refl eq_refl eq_refl _ _ eq_refl _).
  - apply create_digest_lacks. reflexivity.
  - apply create_digest_lacks. reflexivity.
  - vm_compute. reflexivity.
Defined.

(** ** The feed receivers at work *)

Lemma db_eta : forall db,
  db = {| feed_entries := feed_entries db;
          researchhubpost_type := researchhubpost_type db;
          transaction := transaction db;
          run_on_commit := run_on_commit db;
          broker := broker db;
          logged := logged db |}.
Proof. intros []. reflexivity. Qed.

Lemma enqueue_all_nil : forall db, enqueue_all [] db = db.
Proof. intros []. unfold enqueue_all. cbn. rewrite app_nil_r. reflexivity. Qed.

Lemma enqueue_all_cons : forall t tasks db,
  enqueue_all tasks (enqueue t db) = enqueue_all (t :: tasks) db.
Proof.
  intros t tasks db. unfold enqueue_all, enqueue. cbn.
  rewrite <- app_assoc. reflexivity.
Qed.

(** The tasks run in order until the queue refuses one. *)
Lemma run_tasks_accepted : forall faults tasks db,
  (forall t, In t tasks -> faults (ApplyAsync (args t)) = false) ->
  run_tasks faults tasks db = (Ok tt, enqueue_all tasks db).
Proof.
  intros faults tasks. induction tasks as [ | t tasks IH ]; intros db H.
  - cbn [run_tasks]. rewrite enqueue_all_nil. reflexivity.
  - cbn [run_tasks]. unfold bind at 1. unfold apply_async, external, bind.
    rewrite (H t (or_introl eq_refl)). cbn [ret modify].
    rewrite IH by (intros t' Hin; apply H; right; exact Hin).
    rewrite enqueue_all_cons. reflexivity.
Qed.

Lemma run_tasks_refused : forall faults before t after db,
  (forall t', In t' before -> faults (ApplyAsync (args t')) = false) ->
  faults (ApplyAsync (args t)) = true ->
  run_tasks faults (before ++ t :: after) db
  = (Raise (External (ApplyAsync (args t))), enqueue_all before db).
Proof.
  intros faults before t after. induction before as [ | b before IH ]; intros db H Ht.
  - cbn [app run_tasks]. unfold bind, apply_async, external.
    rewrite Ht. cbn [raise]. rewrite enqueue_all_nil. reflexivity.
  - cbn [app run_tasks]. unfold bind at 1. unfold apply_async, external, bind.
    rewrite (H b (or_introl eq_refl)). cbn [ret modify].
    rewrite IH by (try assumption; intros t' Hin; apply H; right; exact Hin).
    rewrite enqueue_all_cons. reflexivity.
Qed.

Lemma run_tasks_prefix : forall faults tasks db,
  exists n res, run_tasks faults tasks db = (res, enqueue_all (firstn n tasks) db).
Proof.
  intros faults tasks. induction tasks as [ | t tasks IH ]; intros db.
  - exists 0, (Ok tt). cbn [run_tasks firstn]. rewrite enqueue_all_nil. reflexivity.
  - cbn [run_tasks]. unfold bind at 1. unfold apply_async, external, bind.
    destruct (faults (ApplyAsync (args t))).
    + exists 0, (Raise (External (ApplyAsync (args t)))). cbn [raise firstn].
      rewrite enqueue_all_nil. reflexivity.
    + cbn [ret modify]. destruct (IH (enqueue t db)) as (n & res & ->).
      exists (S n), res. cbn [firstn]. rewrite enqueue_all_cons. reflexivity.
Qed.

(** With the ORM answering and entries to refresh, what remains of a
    receiver is the hand-over of the tasks. *)
Lemma refresh_all_hands_over : forall faults q db,
  faults Exists = false -> faults Iterate = false ->
  rows q db <> [] ->
  refresh_all faults q db = on_commit faults (map task_for (rows q db)) db.
Proof.
  intros faults q db He Hi Hne. unfold refresh_all, exists_, iterate, external, bind.
  rewrite He, Hi. cbn [ret].
  assert (Hlen : negb (Nat.eqb (length (rows q db)) 0) = true)
    by (destruct (rows q db); [ contradiction Hne; reflexivity | reflexivity ]).
  rewrite Hlen. reflexivity.
Qed.

Lemma purchase_receiver_run : forall faults instance created db,
  faults InstanceContentType = false ->
  refresh_feed_entries_on_purchase faults instance created db
  = try_except (refresh_all faults (purchase_entries instance)) logger_error db.
Proof.
  intros faults instance created db H.
  unfold refresh_feed_entries_on_purchase, try_except, bind, external.
  rewrite H. reflexivity.
Qed.

Lemma application_body_run : forall faults instance grant document db,
  faults InstanceGrant = false -> faults GrantUnifiedDocument = false ->
  faults GetForModel = false ->
  GrantApplication.grant instance = Some grant ->
  Grant.unified_document grant = Some document ->
  grant_application_body faults instance db
  = refresh_all faults (post_entries document (researchhubpost_type db)) db.
Proof.
  intros faults instance grant document db H1 H2 H3 Hg Hd.
  unfold grant_application_body, bind, external.
  rewrite H1, Hg, H2, Hd, H3. cbn [ret].
  destruct (refresh_all faults (post_entries document (researchhubpost_type db)) db)
    as [[u | e] db']; reflexivity.
Qed.

Lemma application_tasks_some : forall instance db,
  application_tasks instance db <> [] ->
  exists grant document,
    GrantApplication.grant instance = Some grant
    /\ Grant.unified_document grant = Some document
    /\ rows (post_entries document (researchhubpost_type db)) db <> []
    /\ application_tasks instance db
       = map task_for (rows (post_entries document (researchhubpost_type db)) db).
Proof.
  intros instance db H. unfold application_tasks in *.
  destruct (GrantApplication.grant instance) as [ grant | ];
    [ | contradiction H; reflexivity ].
  destruct (Grant.unified_document grant) as [ document | ] eqn:Hd;
    [ | contradiction H; reflexivity ].
  exists grant, document. repeat split; try assumption.
  intros E. rewrite E in H. contradiction H. reflexivity.
Qed.

(** What a receiver does with its tasks, by the state of the transaction. *)
Lemma hand_over_atomic : forall faults tasks db,
  transaction db = Atomic ->
  try_except (on_commit faults tasks) logger_error db = (Ok tt, defer tasks db).
Proof.
  intros faults tasks db H. unfold try_except, on_commit. rewrite H. reflexivity.
Qed.

Lemma hand_over_manual : forall faults tasks db,
  transaction db = Manual ->
  try_except (on_commit faults tasks) logger_error db
  = (Ok tt, with_logged TransactionManagementError db).
Proof.
  intros faults tasks db H. unfold try_except, on_commit. rewrite H. reflexivity.
Qed.

Lemma hand_over_accepted : forall faults tasks db,
  transaction db = Autocommit ->
  (forall t, In t tasks -> faults (ApplyAsync (args t)) = false) ->
  try_except (on_commit faults tasks) logger_error db = (Ok tt, enqueue_all tasks db).
Proof.
  intros faults tasks db H Hok. unfold try_except, on_commit. rewrite H.
  rewrite run_tasks_accepted by exact Hok. reflexivity.
Qed.

Lemma hand_over_refused : forall faults before t after db,
  transaction db = Autocommit ->
  (forall t', In t' before -> faults (ApplyAsync (args t')) = false) ->
  faults (ApplyAsync (args t)) = true ->
  try_except (on_commit faults (before ++ t :: after)) logger_error db
  = (Ok tt, with_logged (External (ApplyAsync (args t))) (enqueue_all before db)).
Proof.
  intros faults before t after db H Hok Hno. unfold try_except, on_commit. rewrite H.
  rewrite run_tasks_refused by assumption. reflexivity.
Qed.

Lemma try_except_ext : forall {S A} (m m' : Stateful S A) h st,
  m st = m' st -> try_except m h st = try_except m' h st.
Proof. intros S A m m' h st H. unfold try_except. rewrite H. reflexivity. Qed.

Lemma receive_hands_over : forall faults signal db,
  orm_answers faults ->
  tasks_of signal db <> [] ->
  receive faults signal db
  = try_except (on_commit faults (tasks_of signal db)) logger_error db.
Proof.
  intros faults signal db (H1 & H2 & H3 & H4 & H5 & H6) Hne.
  destruct signal as [ instance created | instance created | instance ];
    cbn [receive tasks_of] in *.
  - rewrite purchase_receiver_run by exact H1. apply try_except_ext.
    apply refresh_all_hands_over; try assumption.
    unfold purchase_tasks in Hne. intros E. rewrite E in Hne.
    contradiction Hne. reflexivity.
  - destruct (application_tasks_some _ _ Hne) as (g & d & Hg & Hd & Hrows & ->).
    unfold refresh_feed_entries_on_grant_application. apply try_except_ext.
    rewrite (application_body_run faults instance g d db) by assumption.
    apply refresh_all_hands_over; assumption.
  - destruct (application_tasks_some _ _ Hne) as (g & d & Hg & Hd & Hrows & ->).
    unfold refresh_feed_entries_on_grant_application_delete. apply try_except_ext.
    rewrite (application_body_run faults instance g d db) by assumption.
    apply refresh_all_hands_over; assumption.
Qed.

(** X18. Inside a transaction the refreshes wait for the commit: with the
    ORM answering and feed entries to refresh, a receiver reached inside an
    atomic block hands nothing to the queue; it registers one commit hook
    holding one task of priority 1 per matching feed entry, in table order,
    and logs nothing. *)
Theorem refreshes_wait_for_the_commit :
  forall faults signal db,
    orm_answers faults ->
    transaction db = Atomic ->
    tasks_of signal db <> [] ->
    receive faults signal db = (Ok tt, defer (tasks_of signal db) db)
    /\ Forall (fun t => priority t = 1%N) (tasks_of signal db).
Proof.
  intros faults signal db Horm Hmode Hne. split.
  - rewrite receive_hands_over by assumption. apply hand_over_atomic. exact Hmode.
  - destruct signal as [ i c | i c | i ]; cbn [tasks_of];
      unfold purchase_tasks, application_tasks;
      try (destruct (GrantApplication.grant i) as [ g | ]; [ | constructor ];
           destruct (Grant.unified_document g); [ | constructor ]);
      apply Forall_forall; intros t Hin; apply in_map_iff in Hin as (e & <- & _);
      reflexivity.
Qed.

Lemma refreshes_wait_for_the_commit_witness :
  receive no_faults (ApplicationSaved application_on_post true) (test_db Atomic)
  = (Ok tt,
     defer [ {| args := 10; priority := 1 |}; {| args := 11; priority := 1 |} ]
       (test_db Atomic))
  /\ Forall (fun t => priority t = 1%N)
       (tasks_of (ApplicationSaved application_on_post true) (test_db Atomic)).
Proof.
  refine (refreshes_wait_for_the_commit no_faults
            (ApplicationSaved application_on_post true) (test_db Atomic) _ eq_refl _).
  - repeat split.
  - discriminate.
Defined.

(** X19. Under autocommit the refreshes are queued at once: with the ORM
    answering and the queue accepting every task, a receiver appends to the
    queue one task per matching feed entry, in table order, registers no
    hook and logs nothing. *)
Theorem refreshes_are_queued_at_once :
  forall faults signal db,
    orm_answers faults ->
    transaction db = Autocommit ->
    tasks_of signal db <> [] ->
    (forall t, In t (tasks_of signal db) -> faults (ApplyAsync (args t)) = false) ->
    receive faults signal db = (Ok tt, enqueue_all (tasks_of signal db) db).
Proof.
  intros faults signal db Horm Hmode Hne Hok.
  rewrite receive_hands_over by assumption. apply hand_over_accepted; assumption.
Qed.

Lemma refreshes_are_queued_at_once_witness :
  receive no_faults (PurchaseSaved purchase_on_post false) (test_db Autocommit)
  = (Ok tt,
     enqueue_all [ {| args := 10; priority := 1 |}; {| args := 11; priority := 1 |} ]
       (test_db Autocommit)).
Proof.
  refine (refreshes_are_queued_at_once no_faults (PurchaseSaved purchase_on_post false)
            (test_db Autocommit) _ eq_refl _ _).
  - repeat split.
  - discriminate.
  - intros t _. reflexivity.
Defined.

(** X20. A queue failure stops the refreshes: under autocommit, when the
    queue refuses the task of one matching entry, the tasks of the entries
    before it have been queued, those after it are not, the failure is
    logged and the receiver still returns normally. *)
Theorem queue_failure_stops_the_refreshes :
  forall faults signal db before t after,
    orm_answers faults ->
    transaction db = Autocommit ->
    tasks_of signal db = (before ++ t :: after)%list ->
    (forall t', In t' before -> faults (ApplyAsync (args t')) = false) ->
    faults (ApplyAsync (args t)) = true ->
    receive faults signal db
    = (Ok tt, with_logged (External (ApplyAsync (args t))) (enqueue_all before db)).
Proof.
  intros faults signal db before t after Horm Hmode Htasks Hok Hno.
  rewrite receive_hands_over;
    [ | exact Horm | rewrite Htasks; intros E; destruct before; discriminate E ].
  rewrite Htasks. apply hand_over_refused; assumption.
Qed.

Lemma queue_failure_stops_the_refreshes_witness :
  receive broker_down_for_11 (PurchaseSaved purchase_on_post true) (test_db Autocommit)
  = (Ok tt,
     with_logged (External (ApplyAsync 11))
       (enqueue_all [ {| args := 10; priority := 1 |} ] (test_db Autocommit))).
Proof.
  refine (queue_failure_stops_the_refreshes broker_down_for_11
            (PurchaseSaved purchase_on_post true) (test_db Autocommit)
            [ {| args := 10; priority := 1 |} ] {| args := 11; priority := 1 |} []
            _ eq_refl eq_refl _ eq_refl).
  - repeat split.
  - intros t' [<- | []]. reflexivity.
Defined.

(** X21. Under manual transaction management nothing is refreshed: Django
    refuses the commit hook, the receiver logs the refusal, and no task is
    queued or deferred although feed entries match. *)
Theorem manual_transactions_refresh_nothing :
  forall faults signal db,
    orm_answers faults ->
    transaction db = Manual ->
    tasks_of signal db <> [] ->
    receive faults signal db = (Ok tt, with_logged TransactionManagementError db).
Proof.
  intros faults signal db Horm Hmode Hne.
  rewrite receive_hands_over by assumption. apply hand_over_manual. exact Hmode.
Qed.

Lemma manual_transactions_refresh_nothing_witness :
  receive no_faults (ApplicationDeleted application_on_post) (test_db Manual)
  = (Ok tt, with_logged TransactionManagementError (test_db Manual)).
Proof.
  refine (manual_transactions_refresh_nothing no_faults
            (ApplicationDeleted application_on_post) (test_db Manual) _ eq_refl _).
  - repeat split.
  - discriminate.
Defined.

(** X22. Grant applications without a post to refresh: when the application
    has no grant, reading the grant's document raises [AttributeError],
    which is logged, and nothing else happens; when the grant has no
    unified document the receiver returns at once and changes nothing, not
    even the log.  On save and on delete alike. *)
Theorem applications_without_a_document :
  forall faults instance created db,
    faults InstanceGrant = false ->
    (GrantApplication.grant instance = None ->
     refresh_feed_entries_on_grant_application faults instance created db
     = (Ok tt, with_logged AttributeError db)
     /\ refresh_feed_entries_on_grant_application_delete faults instance db
        = (Ok tt, with_logged AttributeError db))
    /\ (forall grant,
          GrantApplication.grant instance = Some grant ->
          Grant.unified_document grant = None ->
          faults GrantUnifiedDocument = false ->
          refresh_feed_entries_on_grant_application faults instance created db
          = (Ok tt, db)
          /\ refresh_feed_entries_on_grant_application_delete faults instance db
             = (Ok tt, db)).
Proof.
  intros faults instance created db Hg.
  unfold refresh_feed_entries_on_grant_application,
    refresh_feed_entries_on_grant_application_delete, try_except,
    grant_application_body, bind, external.
  rewrite Hg. cbn [ret]. split.
  - intros ->. split; reflexivity.
  - intros grant -> Hd Hu. rewrite Hu, Hd. split; reflexivity.
Qed.

Lemma applications_without_a_document_witness :
  (refresh_feed_entries_on_grant_application no_faults
     {| GrantApplication.id := 6; GrantApplication.grant := None |} true
     (test_db Autocommit)
   = (Ok tt, with_logged AttributeError (test_db Autocommit))
   /\ refresh_feed_entries_on_grant_application_delete no_faults
        {| GrantApplication.id := 6; GrantApplication.grant := None |}
        (test_db Autocommit)
      = (Ok tt, with_logged AttributeError (test_db Autocommit)))
  /\ (refresh_feed_entries_on_grant_application no_faults
        {| GrantApplication.id := 7;
           GrantApplication.grant := Some {| Grant.unified_document := None |} |}
        true (test_db Autocommit)
      = (Ok tt, test_db Autocommit)
      /\ refresh_feed_entries_on_grant_application_delete no_faults
           {| GrantApplication.id := 7;
              GrantApplication.grant := Some {| Grant.unified_document := None |} |}
           (test_db Autocommit)
         = (Ok tt, test_db Autocommit)).
Proof.
  split.
  - exact (proj1 (applications_without_a_document no_faults
                    {| GrantApplication.id := 6; GrantApplication.grant := None |}
                    true (test_db Autocommit) eq_refl) eq_refl).
  - exact (proj2 (applications_without_a_document no_faults
                    {| GrantApplication.id := 7;
                       GrantApplication.grant :=
                         Some {| Grant.unified_document := None |} |}
                    true (test_db Autocommit) eq_refl)
                 {| Grant.unified_document := None |} eq_refl eq_refl eq_refl).
Defined.

(** What the body of a receiver can have done to the database by the time
    it returns or raises. *)
Lemma handed_over_nothing : forall tasks db, handed_over tasks db db.
Proof.
  intros tasks db. repeat split. left. split; [ reflexivity | ].
  exists 0. cbn [firstn]. rewrite app_nil_r. reflexivity.
Qed.

Lemma on_commit_hands_over : forall faults tasks db,
  handed_over tasks db (snd (on_commit faults tasks db)).
Proof.
  intros faults tasks db. unfold on_commit.
  destruct (transaction db) eqn:Hmode.
  - destruct (run_tasks_prefix faults tasks db) as (n & res & ->).
    repeat split. left. split; [ reflexivity | ]. exists n. reflexivity.
  - repeat split. right. split; reflexivity.
  - apply handed_over_nothing.
Qed.

Lemma refresh_all_hands_over_some : forall faults q db,
  handed_over (map task_for (rows q db)) db (snd (refresh_all faults q db)).
Proof.
  intros faults q db. unfold refresh_all, exists_, iterate, external, bind.
  destruct (faults Exists); [ apply handed_over_nothing | ]. cbn [ret].
  destruct (rows q db) as [ | entry entries ] eqn:Hrows;
    [ apply handed_over_nothing | ].
  cbn [length Nat.eqb negb].
  destruct (faults Iterate); [ apply handed_over_nothing | ]. cbn [ret].
  rewrite Hrows. apply on_commit_hands_over.
Qed.

Lemma try_logging_hands_over : forall tasks (m : Stateful Db unit) db,
  handed_over tasks db (snd (m db)) ->
  handed_over tasks db (snd (try_except m logger_error db)).
Proof.
  intros tasks m db H. unfold try_except.
  destruct (m db) as [[u | e] db']; exact H.
Qed.

(** X23. A receiver only ever hands over refreshes of matching entries:
    whatever the ORM, the transaction and the queue do, a receiver leaves
    the feed table and the connection as they are, and what it adds is
    either a prefix of the tasks of the matching feed entries at the end of
    the queue, or one commit hook holding all of them; never a task for
    another entry, never a task twice. *)
Theorem receivers_hand_over_matching_refreshes_only :
  forall faults signal db,
    handed_over (tasks_of signal db) db (snd (receive faults signal db)).
Proof.
  intros faults signal db.
  destruct signal as [ instance created | instance created | instance ];
    cbn [receive tasks_of].
  - unfold refresh_feed_entries_on_purchase. apply try_logging_hands_over.
    unfold bind, external. destruct (faults InstanceContentType);
      [ apply handed_over_nothing | ].
    cbn [ret].
    pose proof (refresh_all_hands_over_some faults (purchase_entries instance) db) as H.
    destruct (refresh_all faults (purchase_entries instance) db) as [[u | e] db'];
      exact H.
  - unfold refresh_feed_entries_on_grant_application. apply try_logging_hands_over.
    unfold grant_application_body, application_tasks, bind, external.
    destruct (faults InstanceGrant); [ apply handed_over_nothing | ]. cbn [ret].
    destruct (GrantApplication.grant instance) as [ g | ];
      [ | apply handed_over_nothing ].
    destruct (faults GrantUnifiedDocument); [ apply handed_over_nothing | ]. cbn [ret].
    destruct (Grant.unified_document g) as [ d | ]; [ | apply handed_over_nothing ].
    destruct (faults GetForModel); [ apply handed_over_nothing | ]. cbn [ret].
    pose proof (refresh_all_hands_over_some faults
                  (post_entries d (researchhubpost_type db)) db) as H.
    destruct (refresh_all faults (post_entries d (researchhubpost_type db)) db)
      as [[u | e] db']; exact H.
  - unfold refresh_feed_entries_on_grant_application_delete.
    apply try_logging_hands_over.
    unfold grant_application_body, application_tasks, bind, external.
    destruct (faults InstanceGrant); [ apply handed_over_nothing | ]. cbn [ret].
    destruct (GrantApplication.grant instance) as [ g | ];
      [ | apply handed_over_nothing ].
    destruct (faults GrantUnifiedDocument); [ apply handed_over_nothing | ]. cbn [ret].
    destruct (Grant.unified_document g) as [ d | ]; [ | apply handed_over_nothing ].
    destruct (faults GetForModel); [ apply handed_over_nothing | ]. cbn [ret].
    pose proof (refresh_all_hands_over_some faults
                  (post_entries d (researchhubpost_type db)) db) as H.
    destruct (refresh_all faults (post_entries d (researchhubpost_type db)) db)
      as [[u | e] db']; exact H.
Qed.

(** X24. A failure of the ORM is logged and refreshes nothing: when reading
    the purchased object's content type, the existence query or the
    iteration over the matching entries raises, the purchase receiver logs
    that exception, queues and defers nothing, and returns normally. *)
Theorem orm_failure_refreshes_nothing :
  forall faults instance created db,
    faults InstanceContentType = true
    \/ (faults InstanceContentType = false /\ faults Exists = true)
    \/ (faults InstanceContentType = false /\ faults Exists = false
        /\ faults Iterate = true /\ rows (purchase_entries instance) db <> []) ->
    exists c,
      (c = InstanceContentType \/ c = Exists \/ c = Iterate)
      /\ faults c = true
      /\ refresh_feed_entries_on_purchase faults instance created db
         = (Ok tt, with_logged (External c) db).
Proof.
  intros faults instance created db H.
  unfold refresh_feed_entries_on_purchase, try_except, refresh_all, exists_,
    iterate, bind, external.
  destruct H as [ H1 | [ (H1 & H2) | (H1 & H2 & H3 & Hrows) ] ].
  - exists InstanceContentType. rewrite H1. repeat split; tauto.
  - exists Exists. rewrite H1, H2. repeat split; tauto.
  - exists Iterate. rewrite H1, H2. cbn [ret].
    destruct (rows (purchase_entries instance) db) as [ | e es ];
      [ contradiction Hrows; reflexivity | ].
    cbn [length Nat.eqb negb]. rewrite H3. repeat split; tauto.
Qed.

Lemma orm_failure_refreshes_nothing_witness :
  exists c,
    (c = InstanceContentType \/ c = Exists \/ c = Iterate)
    /\ (fun c => match c with Exists => true | _ => false end) c = true
    /\ refresh_feed_entries_on_purchase
         (fun c => match c with Exists => true | _ => false end)
         purchase_on_post true (test_db Autocommit)
       = (Ok tt, with_logged (External c) (test_db Autocommit)).
Proof.
  refine (orm_failure_refreshes_nothing
            (fun c => match c with Exists => true | _ => false end)
            purchase_on_post true (test_db Autocommit) _).
  right. left. split; reflexivity.
Defined.

(** ** More on the endpoint *)

(** X25. When the answer is 401: exactly when the signature header is
    missing or empty, or the check ran and the digest did not match; and
    then the state, the log included, is untouched. *)
Theorem unauthorized_exactly_when :
  forall settings loads faults request st,
    (fst (post settings loads faults request st) = Unauthorized
     <-> (Persona_Signature request = None
          \/ Persona_Signature request = Some ""
          \/ _validate_signature settings request = Ok false))
    /\ (fst (post settings loads faults request st) = Unauthorized ->
        snd (post settings loads faults request st) = st).
Proof.
  intros settings loads faults request st. split; [ split | ].
  - intros H.
    destruct (falsy (Persona_Signature request)) eqn:Hh.
    + unfold falsy in Hh. destruct (Persona_Signature request) as [ h | ];
        [ | left; reflexivity ].
      apply String.eqb_eq in Hh. subst h. right. left. reflexivity.
    + right. right.
      destruct (_validate_signature settings request) as [ [ | ] | e ] eqn:Hv.
      * destruct (_process_payload loads faults request st) as [res st'] eqn:Hp.
        rewrite (post_authenticated _ _ _ _ _ _ _ Hv Hp) in H.
        destruct res; discriminate H.
      * reflexivity.
      * rewrite (post_validation_raises _ _ _ _ _ _ Hh Hv) in H. discriminate H.
  - intros [H | [H | H]].
    + rewrite post_no_header by (rewrite H; reflexivity). reflexivity.
    + rewrite post_no_header by (rewrite H; reflexivity). reflexivity.
    + rewrite post_rejected by exact H. reflexivity.
  - apply post_unauthorized_untouched.
Qed.

(** X26. Deliveries for different subjects do not interfere: the record a
    subject ends with after its own authenticated delivery is the same
    whether a delivery for another subject is processed before or after
    it. *)
Theorem deliveries_for_other_subjects_commute :
  forall settings loads f1 f2 request1 request2 data1 s1 st,
    _validate_signature settings request1 = Ok true ->
    loads (body request1) = Ok data1 ->
    payload_status data1 = Ok s1 ->
    store_up f1 ->
    length (records_for (field data1 reference_id_path) st) <= 1 ->
    (forall data2, loads (body request2) = Ok data2 ->
                   field data2 reference_id_path <> field data1 reference_id_path) ->
    let subject := field data1 reference_id_path in
    records_for subject
      (snd (deliver settings loads [(f1, request1); (f2, request2)] st))
    = [record_of data1 s1]
    /\ records_for subject
         (snd (deliver settings loads [(f2, request2); (f1, request1)] st))
       = [record_of data1 s1].
Proof.
  intros settings loads f1 f2 request1 request2 data1 s1 st Hv Hl Hs Hup Hone Hother.
  cbv zeta. cbn [deliver]. split.
  - pose proof (post_upserts settings loads f1 request1 data1 s1 st Hv Hl Hs Hup Hone)
      as [H1 _].
    cbv zeta in H1.
    destruct (post settings loads f1 request1 st) as [response1 st1].
    cbn [snd] in H1.
    pose proof (post_other_subjects settings loads f2 request2 st1 _ Hother) as H2.
    destruct (post settings loads f2 request2 st1) as [response2 st2].
    cbn [snd] in *. rewrite H2. exact H1.
  - pose proof (post_other_subjects settings loads f2 request2 st _ Hother) as H2.
    destruct (post settings loads f2 request2 st) as [response2 st2].
    cbn [snd] in H2.
    assert (Hone2 : length (records_for (field data1 reference_id_path) st2) <= 1)
      by (rewrite H2; exact Hone).
    pose proof (post_upserts settings loads f1 request1 data1 s1 st2 Hv Hl Hs Hup Hone2)
      as [H1 _].
    cbv zeta in H1.
    destruct (post settings loads f1 request1 st2) as [response1 st1].
    cbn [snd] in *. exact H1.
Qed.

Lemma json_loads_payload_for_7 : json_loads payload_for_7 = Ok tree_for_7.
Proof. vm_compute. reflexivity. Qed.

Lemma deliveries_for_other_subjects_commute_witness :
  records_for (JStr "42")
    (snd (deliver test_settings json_loads
            [(no_faults, test_request); (no_faults, request_for_7)] empty_state))
  = [ada]
  /\ records_for (JStr "42")
       (snd (deliver test_settings json_loads
               [(no_faults, request_for_7); (no_faults, test_request)] empty_state))
     = [ada].
Proof.
  refine (deliveries_for_other_subjects_commute test_settings json_loads
            no_faults no_faults test_request request_for_7 payload_tree APPROVED
            empty_state test_request_valid json_loads_payload_text eq_refl
            store_up_no_faults (Nat.le_0_l 1) _).
  intros data2 Hl.
  assert (Hd : data2 = tree_for_7).
  { change (body request_for_7) with payload_for_7 in Hl.
    rewrite json_loads_payload_for_7 in Hl. injection Hl as <-. reflexivity. }
  rewrite Hd. discriminate.
Defined.

(** X27. What follows a second "=" is ignored: of each part of the header
    the view takes the text between the first and the second "=", so a
    header whose parts carry further "=..." text validates exactly as the
    header without it. *)
Theorem text_after_a_second_equals_is_ignored :
  forall settings n1 t x1 n2 v1 x2 b,
    occurs "," n1 = false -> occurs "=" n1 = false ->
    occurs "," t = false -> occurs "=" t = false ->
    occurs "," x1 = false ->
    occurs "," n2 = false -> occurs "=" n2 = false ->
    occurs "," v1 = false -> occurs "=" v1 = false ->
    occurs "," x2 = false ->
    _validate_signature settings
      {| Persona_Signature :=
           Some ((n1 ++ "=" ++ t ++ "=" ++ x1) ++ "," ++ (n2 ++ "=" ++ v1 ++ "=" ++ x2));
         body := b |}
    = _validate_signature settings
        {| Persona_Signature := Some (n1 ++ "=" ++ t ++ "," ++ n2 ++ "=" ++ v1);
           body := b |}.
Proof.
  intros settings n1 t x1 n2 v1 x2 b Hc1 He1 Hct Het Hcx1 Hc2 He2 Hcv Hev Hcx2.
  unfold _validate_signature. cbn [Persona_Signature body].
  rewrite (second_fields_of_header n1 t n2 v1) by assumption.
  assert (Hf : second_fields
                 (split "," ((n1 ++ "=" ++ t ++ "=" ++ x1) ++ ","
                             ++ (n2 ++ "=" ++ v1 ++ "=" ++ x2)))
               = Ok [t; v1]).
  { change ((n1 ++ "=" ++ t ++ "=" ++ x1) ++ "," ++ (n2 ++ "=" ++ v1 ++ "=" ++ x2))
      with ((n1 ++ "=" ++ t ++ "=" ++ x1) ++ String "," (n2 ++ "=" ++ v1 ++ "=" ++ x2)).
    rewrite split_app
      by (rewrite !occurs_app, Hc1, Hct, Hcx1; reflexivity).
    rewrite split_none
      by (rewrite !occurs_app, Hc2, Hcv, Hcx2; reflexivity).
    cbn [second_fields].
    change (n1 ++ "=" ++ t ++ "=" ++ x1) with (n1 ++ String "=" (t ++ String "=" x1)).
    change (n2 ++ "=" ++ v1 ++ "=" ++ x2) with (n2 ++ String "=" (v1 ++ String "=" x2)).
    rewrite !split_app by assumption. reflexivity. }
  rewrite Hf. reflexivity.
Qed.

Lemma text_after_a_second_equals_is_ignored_witness :
  _validate_signature test_settings
    {| Persona_Signature :=
         Some (("t" ++ "=" ++ "1700000000" ++ "=" ++ "x") ++ ","
               ++ ("v1" ++ "=" ++ "00" ++ "=" ++ "y"));
       body := not_json |}
  = _validate_signature test_settings
      {| Persona_Signature := Some ("t" ++ "=" ++ "1700000000" ++ "," ++ "v1" ++ "=" ++ "00");
         body := not_json |}.
Proof.
  exact (text_after_a_second_equals_is_ignored test_settings "t" "1700000000" "x"
           "v1" "00" "y" not_json
           eq_refl eq_refl eq_refl eq_refl eq_refl eq_refl eq_refl eq_refl eq_refl
           eq_refl).
Defined.
